(** * monorepo-sync: a model of [sync.mjs] and its replay properties

    The script mirrors one merged pull request of a source repository into
    a package directory of a staged monorepo clone.  This development
    embeds the functions of [src/sync.mjs] over an explicit world (file
    system, working directory, log of external actions) and settles the
    properties of the replay engine, of commit-and-publish and of the
    configuration checks.

    The shell commands the script runs on files ([mkdir -p], [cp], [rm],
    [rm -rf]) act on the modelled file system with their POSIX behaviour;
    [git], the shell, the quoting function of the command runner, the
    hosting API, the clock and the date parser are parameters of a run.  The log holds the console output of the script, its
    commands with their exit status and output, its changes of directory
    and its HTTP requests with their responses; the echo of the command
    runner in verbose mode is not part of it. *)

From Stdlib Require Import ZArith Lia Ascii String.
From Stdlib Require Import DecimalString.
From stdpp Require Import base option list strings gmap fin_maps.

Local Open Scope string_scope.
Local Open Scope list_scope.

(** ** Paths

    [path.resolve], [path.join] and [path.dirname] of Node, on POSIX.  An
    absolute, normalised path is kept as the list of its components, root
    first ([[]] is "/"); the strings the script passes around are split at
    "/" and normalised the way Node does: empty and "." segments vanish,
    ".." removes the component before it and is dropped at the root.
    [path.resolve] never returns a trailing "/"; [path.join] keeps the one
    its joined arguments end in, so its result is the components together
    with that mark ([joined]). *)

Module Path.

Abbreviation abspath := (list string).

Fixpoint split (s : string) : list string :=
  match s with
  | EmptyString => [EmptyString]
  | String c r =>
      if Ascii.eqb c "/"%char then EmptyString :: split r
      else match split r with
           | [] => [String c EmptyString]
           | h :: t => String c h :: t
           end
  end.

Definition is_absolute (s : string) : bool :=
  match s with
  | String c _ => Ascii.eqb c "/"%char
  | EmptyString => false
  end.

(** One segment against the stack of components (last component first). *)
Definition norm_step (stack : list string) (seg : string) : list string :=
  if String.eqb seg "" then stack
  else if String.eqb seg "." then stack
  else if String.eqb seg ".." then tail stack
  else seg :: stack.

Definition normalize_from (base : abspath) (segs : list string) : abspath :=
  rev (fold_left norm_step segs (rev base)).

(** [path.resolve(base, a1, ..., an)] with [base] absolute. *)
Definition resolve (base : abspath) (args : list string) : abspath :=
  fold_left
    (fun acc a =>
       if is_absolute a then normalize_from [] (split a)
       else normalize_from acc (split a))
    args base.

(** [path.join(base, a1, ..., an)] with [base] absolute: later absolute
    arguments do not reset the result. *)
Definition join (base : abspath) (args : list string) : abspath :=
  normalize_from base (concat (map split args)).

Definition dirname (p : abspath) : abspath := removelast p.

Definition basename (p : abspath) : string := List.last p "".

(** The path as the script prints it and hands it to a command. *)
Definition render (p : abspath) : string :=
  match p with
  | [] => "/"
  | _ => String.concat "" (map (fun c => "/" +:+ c) p)
  end.

Fixpoint ends_with_slash (s : string) : bool :=
  match s with
  | EmptyString => false
  | String c EmptyString => Ascii.eqb c "/"%char
  | String _ r => ends_with_slash r
  end.

(** [path.join] joins its non-empty arguments with "/" and keeps a
    trailing "/" of the joined string: the result ends in "/" when the
    last non-empty argument does.  (The base is the result of
    [path.resolve] and has none.) *)
Fixpoint join_trailing (args : list string) : bool :=
  match args with
  | [] => false
  | a :: rest =>
      if existsb (fun b => negb (String.eqb b "")) rest
      then join_trailing rest
      else ends_with_slash a
  end.

(** What [path.join] returns: the components and whether the string ends
    in "/".  At the root the mark makes no difference. *)
Record joined := {
  components : abspath;
  trailing : bool
}.

Definition join_kept (base : abspath) (args : list string) : joined :=
  {| components := join base args; trailing := join_trailing args |}.

(** A path without a trailing "/", such as [path.resolve] returns. *)
Definition exact (p : abspath) : joined :=
  {| components := p; trailing := false |}.

(** [path.dirname] ignores a trailing "/". *)
Definition dirname_joined (j : joined) : abspath := dirname (components j).

Definition render_joined (j : joined) : string :=
  match components j with
  | [] => "/"
  | _ => if trailing j then render (components j) +:+ "/"
         else render (components j)
  end.

End Path.

Import Path.

(** ** File system

    Regular files and directories under absolute paths.  The root always
    is a directory.  Symbolic links, permissions and devices are outside
    the model. *)

Inductive node :=
| File (content : string)
| Dir.

#[global] Instance node_eq_dec : EqDecision node.
Proof. solve_decision. Defined.

Abbreviation filesystem := (gmap (list string) node).

Module FS.

Definition stat (fs : filesystem) (p : abspath) : option node :=
  match p with
  | [] => Some Dir
  | _ => fs !! p
  end.

Definition is_dir (fs : filesystem) (p : abspath) : bool :=
  match stat fs p with
  | Some Dir => true
  | _ => false
  end.

(** [fs.existsSync]: true for a file and for a directory. *)
Definition existsSync (fs : filesystem) (p : abspath) : bool :=
  match stat fs p with
  | Some _ => true
  | None => false
  end.

(** A command leaves a file system behind and succeeds (exit status 0)
    or fails (exit status 1); what a failing command did before it
    failed stays done. *)
Definition cmd_result : Type := (bool * filesystem)%type.

(** [mkdir -p p]: walks the components of [p] from the root, creating
    the missing ones; fails at a component that is a regular file. *)
Fixpoint mkdir_p_from (pre : abspath) (rest : list string)
    (fs : filesystem) : cmd_result :=
  match rest with
  | [] => (true, fs)
  | c :: rest' =>
      let p := pre ++ [c] in
      match fs !! p with
      | Some Dir => mkdir_p_from p rest' fs
      | Some (File _) => (false, fs)
      | None => mkdir_p_from p rest' (<[p := Dir]> fs)
      end
  end.

Definition mkdir_p (p : abspath) (fs : filesystem) : cmd_result :=
  mkdir_p_from [] p fs.

(** Writing one regular file; the copy of a file onto itself is refused
    by [cp] ("are the same file"). *)
Definition write_file (src dst : abspath) (content : string)
    (fs : filesystem) : cmd_result :=
  if decide (dst = src) then (false, fs)
  else (true, <[dst := File content]> fs).

(** [cp src dst] without [-r]: a directory source is refused; a
    directory destination receives the file under the source's base
    name; otherwise the destination is created or replaced, and its
    parent has to be a directory. *)
Definition cp (src dst : abspath) (fs : filesystem) : cmd_result :=
  match stat fs src with
  | Some (File content) =>
      match stat fs dst with
      | Some Dir =>
          let inner := dst ++ [basename src] in
          match stat fs inner with
          | Some Dir => (false, fs)
          | _ => write_file src inner content fs
          end
      | Some (File _) => write_file src dst content fs
      | None =>
          if is_dir fs (dirname dst) then write_file src dst content fs
          else (false, fs)
      end
  | _ => (false, fs)
  end.

(** [rm p] without flags: removes a regular file only. *)
Definition rm (p : abspath) (fs : filesystem) : cmd_result :=
  match stat fs p with
  | Some (File _) => (true, delete p fs)
  | _ => (false, fs)
  end.

(** [rm -rf p]: removes [p] and everything below it; a missing [p] is
    no error. *)
Definition rm_rf (p : abspath) (fs : filesystem) : cmd_result :=
  (true, filter (fun kv => ¬ p `prefix_of` kv.1) fs).

(** *** Paths with a trailing "/"

    A path that ends in "/" names a directory or nothing: the lookup
    fails on a regular file ("Not a directory"). *)

Definition existsSync_at (fs : filesystem) (p : Path.joined) : bool :=
  if Path.trailing p then is_dir fs (Path.components p)
  else existsSync fs (Path.components p).

(** [cp src dst/]: copies into the directory [dst], and fails when [dst]
    is a regular file or missing. *)
Definition cp_to (src : abspath) (dst : Path.joined) (fs : filesystem)
    : cmd_result :=
  if Path.trailing dst then
    if is_dir fs (Path.components dst) then cp src (Path.components dst) fs
    else (false, fs)
  else cp src (Path.components dst) fs.

(** [rm p/] fails whatever [p] is: on a directory as [rm p] does, on a
    regular file and on a missing path because of the "/". *)
Definition rm_at (p : Path.joined) (fs : filesystem) : cmd_result :=
  if Path.trailing p then (false, fs) else rm (Path.components p) fs.

End FS.

(** ** JavaScript values the script relies on *)

Module JS.

(** Truthiness of a value that is a string or undefined/null: only a
    non-empty string is truthy. *)
Definition truthy (v : option string) : bool :=
  match v with
  | Some s => negb (String.eqb s "")
  | None => false
  end.

(** [a || b] on such values. *)
Definition or_else (a b : option string) : option string :=
  if truthy a then a else b.

(** A value inside a template literal. *)
Definition tmpl (v : option string) : string :=
  match v with
  | Some s => s
  | None => "undefined"
  end.

Definition string_of_Z (z : Z) : string :=
  NilZero.string_of_int (Z.to_int z).

(** [s.slice(-n)]: the last [n] characters, the whole string when it is
    shorter. *)
Definition slice_last (n : nat) (s : string) : string :=
  String.substring (String.length s - n) n s.

(** White space of [String.prototype.trim] within ASCII. *)
Definition is_ws (c : ascii) : bool :=
  let n := nat_of_ascii c in
  (Nat.eqb n 32 || ((Nat.leb 9 n) && (Nat.leb n 13)))%bool.

Fixpoint trim_start (s : string) : string :=
  match s with
  | String c r => if is_ws c then trim_start r else s
  | EmptyString => EmptyString
  end.

Fixpoint trim_end (s : string) : string :=
  match s with
  | String c r =>
      let r' := trim_end r in
      if (is_ws c && String.eqb r' "")%bool then EmptyString
      else String c r'
  | EmptyString => EmptyString
  end.

Definition trim (s : string) : string := trim_end (trim_start s).

(** A number or a string, as far as [getMergedPullRequests] tells them
    apart.  Numbers are integers here. *)
Inductive value :=
| Num (z : Z)
| Str (s : string).

Definition to_string (v : value) : string :=
  match v with Num z => string_of_Z z | Str s => s end.

(** [parseInt(s)] without radix: leading white space, an optional sign,
    an optional "0x" prefix, then the longest run of digits; [None] is
    NaN. *)
Definition digit_of (radix : Z) (c : ascii) : option Z :=
  let n := Z.of_nat (nat_of_ascii c) in
  let d :=
    if ((48 <=? n) && (n <=? 57))%Z%bool then Some (n - 48)%Z
    else if ((97 <=? n) && (n <=? 102))%Z%bool then Some (n - 87)%Z
    else if ((65 <=? n) && (n <=? 70))%Z%bool then Some (n - 55)%Z
    else None in
  match d with
  | Some k => if (k <? radix)%Z then Some k else None
  | None => None
  end.

Fixpoint digits (radix : Z) (acc : option Z) (s : string) : option Z :=
  match s with
  | String c r =>
      match digit_of radix c with
      | Some d =>
          digits radix (Some (match acc with
                              | Some a => a * radix + d
                              | None => d
                              end)%Z) r
      | None => acc
      end
  | EmptyString => acc
  end.

Definition strip_hex (s : string) : option string :=
  match s with
  | String c (String x r) =>
      if (Ascii.eqb c "0" && (Ascii.eqb x "x" || Ascii.eqb x "X"))%bool
      then Some r else None
  | _ => None
  end.

Definition parse_unsigned (s : string) : option Z :=
  match strip_hex s with
  | Some r => digits 16 None r
  | None => digits 10 None s
  end.

Definition parseInt_string (s : string) : option Z :=
  match trim_start s with
  | String c r =>
      if Ascii.eqb c "-" then option_map Z.opp (parse_unsigned r)
      else if Ascii.eqb c "+" then parse_unsigned r
      else parse_unsigned (String c r)
  | EmptyString => None
  end.

Definition parseInt (v : value) : option Z :=
  parseInt_string (to_string v).

(** [isNaN] of a [parseInt] result. *)
Definition isNaN (n : option Z) : bool :=
  match n with Some _ => false | None => true end.

End JS.

(** ** Data of the hosting API and of the replay engine *)

Record User := {
  login : string;
  name : option string;
  email : option string
}.

Record PullRequest := {
  number : Z;
  title : string;
  user : User;
  html_url : string;
  body : option string;
  merged_at : option string
}.

(** One item of the file list of a pull request, as the API sends it. *)
Record FileDesc := {
  filename : string;
  file_status : string;
  previous_filename : option string
}.

(** The change entry [getPRChanges] builds and [syncChange] consumes. *)
Record Change := {
  status : string;
  path : string;
  previous_path : option string
}.

(** A decoded response body.  A body that is not of the shape the script
    reads at that call makes the script raise a [TypeError]. *)
Inductive Json :=
| JPull (pr : PullRequest)
| JPulls (prs : list PullRequest)
| JFiles (files : list FileDesc).

Record PRCreate := {
  pc_title : string;
  pc_body : string;
  pc_head : string;
  pc_base : string
}.

Record Request := {
  rq_method : string;
  rq_url : string;
  rq_authorization : string;
  rq_accept : option string;
  rq_content_type : option string;
  rq_body : option PRCreate
}.

Record Response := {
  ok : bool;
  rs_status : Z;
  statusText : string;
  rs_text : string;
  rs_json : option Json
}.

(** ** External actions and the world they act on *)

Inductive exn :=
| ProcessOutput (code : Z) (stdout : string)
| TypeError (what : string)
| RangeError (what : string)
| SyntaxError
| FetchFailed
| ChdirFailed.

(** The commands of the script.  An interpolated value that stands alone
    reaches the command as one argument, unchanged, whatever it contains:
    that is what the quoting of the command runner is for.  The two
    [git config] commands put their interpolation inside literal double
    quotes, where the shell does not undo that quoting; they are kept as
    the text the command runner hands to the shell ([CmdShell]). *)
Inductive command :=
| CmdRmRf (p : abspath)
| CmdMkdirP (p : abspath)
| CmdCp (src : abspath) (dst : Path.joined)
| CmdRm (p : Path.joined)
| CmdGit (args : list string)
| CmdShell (line : string).

Inductive level := LLog | LWarn | LError.

Inductive logarg :=
| AStr (s : string)
| AChange (c : Change)
| AFile (f : FileDesc)
| AErr (e : exn).

Inductive event :=
| EvConsole (l : level) (args : list logarg)
| EvCd (dir : abspath)
| EvProc (cwd : abspath) (cmd : command) (code : Z) (stdout : string)
| EvFetch (rq : Request) (rs : option Response).

Record World := {
  w_fs : filesystem;
  w_cwd : abspath;
  w_trace : list event
}.

(** What the script cannot decide itself: its invocation, the clock, the
    date parser of the JavaScript engine, the [git] program, the quoting
    function of the command runner ([zx_quote], the text it substitutes
    for an interpolated value), the shell on a command line given as
    text, and the hosting API. *)
Record Env := {
  cwd0 : abspath;
  argv2 : option string;
  getenv : string -> option string;
  date_now : Z;
  date_parse : string -> option Z;
  date_iso : Z -> string;
  git : abspath -> list string -> filesystem -> Z * string * filesystem;
  zx_quote : string -> string;
  shell : abspath -> string -> filesystem -> Z * string * filesystem;
  http : Request -> option Response
}.

(** ** The monad of the script: state, process exit and exceptions *)

Inductive result (A : Type) :=
| Ret (a : A)
| Exit (code : Z)
| Throw (e : exn).

Arguments Ret {A} a.
Arguments Exit {A} code.
Arguments Throw {A} e.

Definition M (A : Type) : Type := World -> result A * World.

Definition ret {A} (a : A) : M A := fun w => (Ret a, w).

Definition bind {A B} (m : M A) (k : A -> M B) : M B :=
  fun w =>
    match m w with
    | (Ret a, w') => k a w'
    | (Exit c, w') => (Exit c, w')
    | (Throw e, w') => (Throw e, w')
    end.

#[global] Instance M_ret : MRet M := @ret.
#[global] Instance M_bind : MBind M := fun A B k m => bind m k.

Definition exit {A} (code : Z) : M A := fun w => (Exit code, w).

Definition throw {A} (e : exn) : M A := fun w => (Throw e, w).

(** [try { m } catch (e) { h e }]: a process exit is not caught. *)
Definition try_catch {A} (m : M A) (h : exn -> M A) : M A :=
  fun w =>
    match m w with
    | (Throw e, w') => h e w'
    | r => r
    end.

Definition emit (e : event) : M unit :=
  fun w => (Ret tt, {| w_fs := w_fs w; w_cwd := w_cwd w;
                       w_trace := w_trace w ++ [e] |}).

Definition console (l : level) (args : list logarg) : M unit :=
  emit (EvConsole l args).

(** [for (const x of xs) await f(x)] *)
Fixpoint for_of {A} (xs : list A) (f : A -> M unit) : M unit :=
  match xs with
  | [] => ret tt
  | x :: xs' => bind (f x) (fun _ => for_of xs' f)
  end.

Definition of_option {A} (o : option A) (e : exn) : M A :=
  match o with
  | Some a => ret a
  | None => throw e
  end.

(** ** The script *)

Definition dquote : string := String "034"%char "".
Definition newline : string := String "010"%char "".

Section Script.

Variable E : Env.

Definition ROOT_DIR : abspath := cwd0 E.
Definition MONOREPO_URL : string := "https://github.com/formio/formio-monorepo".
Definition TEMP_DIR : abspath :=
  Path.resolve ROOT_DIR [".."; "tmp/formio-monorepo"].
Definition MONOREPO_PACKAGE_LOCATION : string :=
  JS.tmpl (JS.or_else (getenv E "MONOREPO_PACKAGE_LOCATION")
                      (Some "apps/formio-server")).
Definition SOURCE_REPO_OWNER : string :=
  JS.tmpl (JS.or_else (getenv E "SOURCE_REPO_OWNER") (Some "formio")).

(** *** The command runner, [cd], [fetch] and [fs.existsSync] *)

Definition of_cmd (r : FS.cmd_result) : Z * string * filesystem :=
  ((if r.1 then 0 else 1)%Z, "", r.2).

Definition run_command (cwd : abspath) (c : command) (fs : filesystem)
    : Z * string * filesystem :=
  match c with
  | CmdRmRf p => of_cmd (FS.rm_rf p fs)
  | CmdMkdirP p => of_cmd (FS.mkdir_p p fs)
  | CmdCp s d => of_cmd (FS.cp_to s d fs)
  | CmdRm p => of_cmd (FS.rm_at p fs)
  | CmdGit args => git E cwd args fs
  | CmdShell line => shell E cwd line fs
  end.

(** [await $`...`]: runs the command and raises its output when the
    exit status is not zero. *)
Definition exec (c : command) : M string :=
  fun w =>
    let '(code, out, fs') := run_command (w_cwd w) c (w_fs w) in
    let w' := {| w_fs := fs'; w_cwd := w_cwd w;
                 w_trace := w_trace w ++ [EvProc (w_cwd w) c code out] |} in
    if (code =? 0)%Z then (Ret out, w')
    else (Throw (ProcessOutput code out), w').

Definition cd (dir : abspath) : M unit :=
  fun w =>
    if FS.is_dir (w_fs w) dir
    then (Ret tt, {| w_fs := w_fs w; w_cwd := dir;
                     w_trace := w_trace w ++ [EvCd dir] |})
    else (Throw ChdirFailed, w).

Definition fetch (rq : Request) : M Response :=
  fun w =>
    let w' := {| w_fs := w_fs w; w_cwd := w_cwd w;
                 w_trace := w_trace w ++ [EvFetch rq (http E rq)] |} in
    match http E rq with
    | Some rs => (Ret rs, w')
    | None => (Throw FetchFailed, w')
    end.

Definition existsSync (p : Path.joined) : M bool :=
  fun w => (Ret (FS.existsSync_at (w_fs w) p), w).

(** [path.join] raises a [TypeError] on an argument that is undefined. *)
Definition path_join (base : abspath) (args : list (option string))
    : M Path.joined :=
  if forallb (fun a => bool_decide (is_Some a)) args
  then ret (Path.join_kept base (omap id args))
  else throw (TypeError "path.join").

Definition json_of (rs : Response) : M Json :=
  of_option (rs_json rs) SyntaxError.

Definition api_get (url : string) : Request :=
  {| rq_method := "GET"; rq_url := url;
     rq_authorization := "token " +:+ JS.tmpl (getenv E "GH_TOKEN");
     rq_accept := Some "application/vnd.github.v3+json";
     rq_content_type := None; rq_body := None |}.

Definition api_repo : string :=
  "https://api.github.com/repos/" +:+ SOURCE_REPO_OWNER +:+ "/"
    +:+ JS.tmpl (getenv E "SOURCE_REPO_NAME").

(** *** Repository staging *)

Definition cloneMonoRepo : M unit :=
  try_catch
    (exec (CmdRmRf TEMP_DIR);; ret tt)
    (fun error =>
       console LError [AStr "Error deleting temp directory:"; AErr error]);;
  try_catch
    (exec (CmdGit ["clone"; "--depth"; "1"; MONOREPO_URL +:+ ".git";
                   Path.render TEMP_DIR]);;
     console LLog [AStr "Monorepo cloned successfully."])
    (fun error =>
       console LError [AStr "Error cloning monorepo:"; AErr error];;
       exit 1).

Definition createBranch (branchName : string) : M unit :=
  console LLog [AStr "Creating branch:"; AStr branchName];;
  cd TEMP_DIR;;
  try_catch
    (exec (CmdGit ["checkout"; "-b"; branchName]);;
     console LLog [AStr ("Branch " +:+ branchName
                         +:+ " created successfully.")])
    (fun error =>
       console LError [AStr "Error creating branch:"; AErr error];;
       exit 1);;
  cd ROOT_DIR.

(** *** Change-set retrieval *)

(** [new Date(since) || new Date(Date.now() - 7 days)]: a Date object is
    truthy whether or not its time value is valid. *)
Definition object_truthy (d : option Z) : bool := true.

Definition new_Date (since : JS.value) : option Z :=
  match since with
  | JS.Num z => Some z
  | JS.Str s => date_parse E s
  end.

Definition toISOString (d : option Z) : M string :=
  match d with
  | Some t => ret (date_iso E t)
  | None => throw (RangeError "Invalid time value")
  end.

Definition getMergedPullRequests (since : JS.value) : M (list PullRequest) :=
  console LLog [AStr ("Getting merged PRs since " +:+ JS.to_string since
                      +:+ "...")];;
  query ←
    (if negb (JS.isNaN (JS.parseInt since))
     then ret "?base=master&state=closed&sort=updated&direction=desc"
     else
       let sinceDate :=
         if object_truthy (new_Date since) then new_Date since
         else Some (date_now E - 7 * 24 * 60 * 60 * 1000)%Z in
       iso ← toISOString sinceDate;
       ret ("?base=master&state=closed&sort=updated&direction=desc&since="
            +:+ iso));
  let url := api_repo +:+ "/pulls" +:+ query in
  console LLog [AStr ("Fetching PRs from: " +:+ url)];;
  response ← fetch (api_get url);
  (if negb (ok response)
   then
     console LError [AStr ("GitHub API error: "
                           +:+ JS.string_of_Z (rs_status response)
                           +:+ " " +:+ statusText response)];;
     console LError [AStr (rs_text response)];;
     exit 1
   else ret tt);;
  body ← json_of response;
  prs ← match body with
        | JPulls prs => ret prs
        | _ => throw (TypeError "prs.filter is not a function")
        end;
  let mergedPRs :=
    List.filter (fun pr => bool_decide (is_Some (merged_at pr))) prs in
  console LLog [AStr ("Found "
                      +:+ JS.string_of_Z (Z.of_nat (length mergedPRs))
                      +:+ " merged PRs")];;
  match since with
  | JS.Num bound =>
      ret (List.filter (fun pr => (number pr >? bound)%Z) mergedPRs)
  | JS.Str _ => ret mergedPRs
  end.

Definition getPRDetails (prNumber : string) : M Json :=
  console LLog [AStr ("Getting details for PR #" +:+ prNumber +:+ "...")];;
  let url := api_repo +:+ "/pulls/" +:+ prNumber in
  response ← fetch (api_get url);
  (if negb (ok response)
   then
     console LError [AStr ("GitHub API error: "
                           +:+ JS.string_of_Z (rs_status response)
                           +:+ " " +:+ statusText response)];;
     exit 1
   else ret tt);;
  json_of response.

(** The callback of [files.map] without its logging. *)
Definition convert_file (file : FileDesc) : Change :=
  let status := file_status file in
  let status :=
    if String.eqb status "added" then "added"
    else if String.eqb status "modified" then "modified"
    else if String.eqb status "removed" then "removed"
    else if String.eqb status "renamed" then "renamed"
    else "unknown" in
  {| status := status;
     path := filename file;
     previous_path :=
       if String.eqb status "renamed" then previous_filename file
       else None |}.

Fixpoint map_files (files : list FileDesc) : M (list Change) :=
  match files with
  | [] => ret []
  | file :: rest =>
      console LLog [AStr "gh file:"; AFile file];;
      changes ← map_files rest;
      ret (convert_file file :: changes)
  end.

Definition getPRChanges (prNumber : Z) : M (list Change) :=
  console LLog [AStr ("Getting changes for PR #" +:+ JS.string_of_Z prNumber
                      +:+ "...")];;
  let url := api_repo +:+ "/pulls/" +:+ JS.string_of_Z prNumber
             +:+ "/files" in
  console LLog [AStr ("Fetching changes from: " +:+ url)];;
  response ← fetch (api_get url);
  (if negb (ok response)
   then
     console LError [AStr ("GitHub API error: "
                           +:+ JS.string_of_Z (rs_status response)
                           +:+ " " +:+ statusText response)];;
     exit 1
   else ret tt);;
  body ← json_of response;
  match body with
  | JFiles files => map_files files
  | _ => throw (TypeError "files.map is not a function")
  end.

(** *** Change replay engine *)

Definition syncChange (change : Change) : M unit :=
  console LLog [AStr "Syncing change:"; AChange change];;
  let changedFilePath := path change in
  let sourcePath := Path.resolve ROOT_DIR [changedFilePath] in
  targetPath ←
    path_join TEMP_DIR
      [getenv E "MONOREPO_PACKAGE_LOCATION"; Some changedFilePath];
  if (String.eqb (status change) "added"
      || String.eqb (status change) "modified")%bool then
    console LLog [AStr ("Copying " +:+ Path.render sourcePath +:+ " to "
                        +:+ Path.render_joined targetPath)];;
    exec (CmdMkdirP (Path.dirname_joined targetPath));;
    present ← existsSync (Path.exact sourcePath);
    if (present : bool) then exec (CmdCp sourcePath targetPath);; ret tt
    else console LWarn [AStr ("Source file does not exist: "
                              +:+ Path.render sourcePath)]
  else if String.eqb (status change) "removed" then
    console LLog [AStr ("Removing " +:+ Path.render_joined targetPath)];;
    present ← existsSync targetPath;
    if (present : bool) then exec (CmdRm targetPath);; ret tt
    else ret tt
  else if String.eqb (status change) "renamed" then
    previousTargetPath ←
      path_join TEMP_DIR
        [getenv E "MONOREPO_PACKAGE_LOCATION"; previous_path change];
    console LLog [AStr ("Renaming " +:+ Path.render_joined previousTargetPath
                        +:+ " to " +:+ Path.render_joined targetPath)];;
    old_present ← existsSync previousTargetPath;
    (if (old_present : bool) then exec (CmdRm previousTargetPath);; ret tt
     else ret tt);;
    present ← existsSync (Path.exact sourcePath);
    if (present : bool) then
      exec (CmdMkdirP (Path.dirname_joined targetPath));;
      exec (CmdCp sourcePath targetPath);;
      ret tt
    else console LWarn [AStr ("Source file does not exist: "
                              +:+ Path.render sourcePath)]
  else ret tt.

(** The replay loop of [syncPR]. *)
Definition replay (changes : list Change) : M unit :=
  for_of changes syncChange.

(** *** Commit and publish *)

Definition git_status : command := CmdGit ["status"; "--porcelain"].

Definition syncPR (pr : PullRequest) : M (option Json) :=
  let prNumber := number pr in
  let prTitle := title pr in
  let prUser := login (user pr) in
  console LLog [AStr ("Syncing PR #" +:+ JS.string_of_Z prNumber +:+ ": "
                      +:+ dquote +:+ prTitle +:+ dquote +:+ " by "
                      +:+ prUser)];;
  let branchName :=
    "sync-pr-" +:+ JS.string_of_Z prNumber +:+ "-"
      +:+ JS.slice_last 6 (JS.string_of_Z (date_now E)) in
  createBranch branchName;;
  changes ← getPRChanges prNumber;
  replay changes;;
  cd TEMP_DIR;;
  gitStatus ← exec git_status;
  if String.eqb (JS.trim gitStatus) "" then
    console LLog [AStr ("No changes to commit for PR #"
                        +:+ JS.string_of_Z prNumber)];;
    ret None
  else
    let authorName :=
      JS.tmpl (JS.or_else (name (user pr)) (Some (login (user pr)))) in
    let authorEmail :=
      JS.tmpl (JS.or_else (email (user pr))
                 (Some (login (user pr) +:+ "@users.noreply.github.com"))) in
    exec (CmdShell ("git config user.name " +:+ dquote
                    +:+ zx_quote E authorName +:+ dquote));;
    exec (CmdShell ("git config user.email " +:+ dquote
                    +:+ zx_quote E authorEmail +:+ dquote));;
    exec (CmdGit ["add"; "."]);;
    let commitMessage :=
      "Sync changes from PR #" +:+ JS.string_of_Z prNumber +:+ ": "
        +:+ prTitle +:+ newline +:+ newline +:+ "Original PR: "
        +:+ html_url pr in
    exec (CmdGit ["commit"; "-m"; commitMessage]);;
    exec (CmdGit ["push"; "-u"; "origin"; branchName]);;
    let prBody :=
      "This PR syncs changes from ["
        +:+ JS.tmpl (getenv E "SOURCE_REPO_NAME") +:+ " PR #"
        +:+ JS.string_of_Z prNumber +:+ "](" +:+ html_url pr +:+ ") by @"
        +:+ prUser +:+ "." +:+ newline +:+ newline in
    let prBody :=
      if JS.truthy (body pr)
      then prBody +:+ "## Original PR Description" +:+ newline +:+ newline
             +:+ JS.tmpl (body pr) +:+ newline +:+ newline
      else prBody in
    let prBody :=
      prBody +:+ "## Note" +:+ newline +:+ newline
        +:+ "This PR was automatically created by the repository sync tool." in
    response ←
      fetch {| rq_method := "POST";
               rq_url := "https://api.github.com/repos/formio/formio-monorepo/pulls";
               rq_authorization := "token " +:+ JS.tmpl (getenv E "GH_TOKEN");
               rq_accept := None;
               rq_content_type := Some "application/json";
               rq_body :=
                 Some {| pc_title := "[Sync PR #" +:+ JS.string_of_Z prNumber
                                     +:+ "] " +:+ prTitle;
                         pc_body := prBody;
                         pc_head := branchName;
                         pc_base := "main" |} |};
    if negb (ok response) then
      console LError [AStr ("Failed to create PR: "
                            +:+ JS.string_of_Z (rs_status response)
                            +:+ " " +:+ statusText response)];;
      console LError [AStr (rs_text response)];;
      ret None
    else
      prData ← json_of response;
      console LLog [AStr ("Created monorepo PR: "
                          +:+ match prData with
                              | JPull created => html_url created
                              | _ => "undefined"
                              end)];;
      ret (Some prData).

(** *** Orchestrator *)

Definition sync : M unit :=
  let prNumber := JS.or_else (argv2 E) (getenv E "PR_NUMBER") in
  (if negb (JS.truthy prNumber) then
     console LError [AStr "Please provide a PR number or date to sync from."];;
     exit 1
   else ret tt);;
  (if negb (JS.truthy (getenv E "GH_TOKEN")) then
     console LError [AStr "Please set the GH_TOKEN environment variable with a valid GitHub token."];;
     exit 1
   else ret tt);;
  (if negb (JS.truthy (getenv E "MONOREPO_PACKAGE_LOCATION")) then
     console LError [AStr "Please set the MONOREPO_PACKAGE_LOCATION environment variable with the relative monorepo path to package."];;
     exit 1
   else ret tt);;
  (if negb (JS.truthy (getenv E "SOURCE_REPO_NAME")) then
     console LError [AStr "Please set the SOURCE_REPO_NAME environment variable with the name of the source repo."];;
     exit 1
   else ret tt);;
  cloneMonoRepo;;
  prDetails ← getPRDetails (JS.tmpl prNumber);
  match prDetails with
  | JPull pr => syncPR pr
  | _ => throw (TypeError "Cannot read properties of undefined (reading 'login')")
  end;;
  console LLog [AStr "Sync completed successfully!"].

End Script.

(** ** Concrete runs

    A source checkout at /work/repo, hence a staged clone at
    /work/tmp/formio-monorepo, and the package location apps/server. *)

Module Demo.

Definition environ (k : string) : option string :=
  if String.eqb k "MONOREPO_PACKAGE_LOCATION" then Some "apps/server"
  else if String.eqb k "GH_TOKEN" then Some "ghp_demo"
  else if String.eqb k "SOURCE_REPO_NAME" then Some "formio"
  else None.

Definition alice : User :=
  {| login := "alice"; name := Some "Alice"; email := None |}.

Definition pull (n : Z) (merged : option string) : PullRequest :=
  {| number := n; title := "Fix"; user := alice;
     html_url := "https://github.com/formio/formio/pull/"
                 +:+ JS.string_of_Z n;
     body := None; merged_at := merged |}.

Definition listing : list PullRequest :=
  [pull 9 (Some "2024-02-02T10:00:00Z"); pull 7 None;
   pull 3 (Some "2024-01-05T09:30:00Z")].

Definition added_file : FileDesc :=
  {| filename := "a/b.txt"; file_status := "added";
     previous_filename := None |}.

Definition copied_file : FileDesc :=
  {| filename := "docs/old.md"; file_status := "copied";
     previous_filename := None |}.

Definition files : list FileDesc := [added_file; copied_file].

(** The hosting API: the file list of pull request 17, the list of
    closed pull requests, pull request 17 itself, and a refusal (422) to
    create a pull request. *)
Definition api (rq : Request) : option Response :=
  if String.eqb (rq_method rq) "POST" then
    Some {| ok := false; rs_status := 422;
            statusText := "Unprocessable Entity";
            rs_text := "Validation Failed"; rs_json := None |}
  else if String.eqb (rq_url rq)
            "https://api.github.com/repos/formio/formio/pulls/17/files" then
    Some {| ok := true; rs_status := 200; statusText := "OK";
            rs_text := ""; rs_json := Some (JFiles files) |}
  else if String.eqb (rq_url rq)
            "https://api.github.com/repos/formio/formio/pulls/17" then
    Some {| ok := true; rs_status := 200; statusText := "OK";
            rs_text := ""; rs_json := Some (JPull (pull 17 (Some "2024-02-03T08:00:00Z"))) |}
  else
    Some {| ok := true; rs_status := 200; statusText := "OK";
            rs_text := ""; rs_json := Some (JPulls listing) |}.

(** A quoting function as the command runner has it: a value of
    letters, digits and "/_.-@:=" stands as it is, the empty value is
    written [$''], and every other value is written as a [$'...'] word
    with backslash escapes. *)
Definition safe_char (c : ascii) : bool :=
  let n := nat_of_ascii c in
  ((Nat.leb 48 n && Nat.leb n 57) || (Nat.leb 65 n && Nat.leb n 90)
   || (Nat.leb 97 n && Nat.leb n 122)
   || existsb (Ascii.eqb c) ["/"; "_"; "."; "-"; "@"; ":"; "="]%char)%bool.

Fixpoint escape (s : string) : string :=
  match s with
  | EmptyString => EmptyString
  | String c r =>
      let n := nat_of_ascii c in
      (if Ascii.eqb c "\"%char then "\\"
       else if Ascii.eqb c "'"%char then "\'"
       else if Nat.eqb n 12 then "\f"
       else if Nat.eqb n 10 then "\n"
       else if Nat.eqb n 13 then "\r"
       else if Nat.eqb n 9 then "\t"
       else if Nat.eqb n 11 then "\v"
       else if Nat.eqb n 0 then "\0"
       else String c EmptyString) +:+ escape r
  end.

Definition quote (s : string) : string :=
  if String.eqb s "" then "$''"
  else if forallb safe_char (list_ascii_of_string s) then s
  else "$'" +:+ escape s +:+ "'".

(** A shell on which the command lines given as text succeed. *)
Definition shell_ok (cwd : abspath) (line : string) (fs : filesystem)
    : Z * string * filesystem :=
  (0%Z, "", fs).

(** A [git] that succeeds, reports [porcelain] as the state of the
    working tree and creates the directory it clones into. *)
Definition git_with (porcelain : string) (cwd : abspath)
    (args : list string) (fs : filesystem) : Z * string * filesystem :=
  match args with
  | "clone" :: _ =>
      (0%Z, "", (FS.mkdir_p ["work"; "tmp"; "formio-monorepo"] fs).2)
  | "status" :: _ => (0%Z, porcelain, fs)
  | _ => (0%Z, "", fs)
  end.

Definition env_with (porcelain : string) : Env :=
  {| cwd0 := ["work"; "repo"];
     argv2 := Some "17";
     getenv := environ;
     date_now := 1762097943123;
     date_parse := fun s =>
       if String.eqb s "2024-01-31" then Some 1706659200000%Z else None;
     date_iso := fun _ => "2024-01-31T00:00:00.000Z";
     git := git_with porcelain;
     zx_quote := quote;
     shell := shell_ok;
     http := api |}.

Definition env : Env := env_with "".

(** The same invocation without GH_TOKEN. *)
Definition env_without_token : Env :=
  {| cwd0 := cwd0 env;
     argv2 := argv2 env;
     getenv := fun k => if String.eqb k "GH_TOKEN" then None else environ k;
     date_now := date_now env;
     date_parse := date_parse env;
     date_iso := date_iso env;
     git := git env;
     zx_quote := zx_quote env;
     shell := shell env;
     http := http env |}.

Definition source_tree : filesystem :=
  <[ ["work"; "repo"; "a"; "b.txt"] := File "hello" ]>
  (<[ ["work"; "repo"; "a"] := Dir ]>
  (<[ ["work"; "repo"] := Dir ]>
  (<[ ["work"] := Dir ]> ∅))).

Definition staged : filesystem :=
  <[ ["work"; "tmp"; "formio-monorepo"] := Dir ]>
  (<[ ["work"; "tmp"] := Dir ]> source_tree).

Definition world_of (fs : filesystem) : World :=
  {| w_fs := fs; w_cwd := ["work"; "repo"]; w_trace := [] |}.

Definition added_b : Change :=
  {| status := "added"; path := "a/b.txt"; previous_path := None |}.

Definition target_b : abspath :=
  ["work"; "tmp"; "formio-monorepo"; "apps"; "server"; "a"; "b.txt"].

(** The same entry with a "/" after the file name. *)
Definition added_slash : Change :=
  {| status := "added"; path := "a/b.txt/"; previous_path := None |}.

End Demo.

(** Two runs of [sync] from the source checkout: one whose status query
    reports a clean tree, one whose creation request is refused. *)
Definition clean_run : result unit * World :=
  sync (Demo.env_with newline) (Demo.world_of Demo.source_tree).

Definition refused_run : result unit * World :=
  sync (Demo.env_with " M apps/server/a/b.txt")
    (Demo.world_of Demo.source_tree).

(** Staged trees in which a translated location is taken by a directory
    or blocked by a regular file. *)
Module Clash.

Definition package : filesystem :=
  <[ ["work"; "tmp"; "formio-monorepo"; "apps"; "server"] := Dir ]>
  (<[ ["work"; "tmp"; "formio-monorepo"; "apps"] := Dir ]> Demo.staged).

(** apps/server/a/b.txt is a directory of the monorepo. *)
Definition directory_at_target : filesystem :=
  <[ Demo.target_b := Dir ]>
  (<[ ["work"; "tmp"; "formio-monorepo"; "apps"; "server"; "a"] := Dir ]>
   package).

(** The source repository has the file notes; the monorepo still has
    the directory notes with the file old.md in it. *)
Definition notes_source : abspath := ["work"; "repo"; "notes"].
Definition notes_target : abspath :=
  ["work"; "tmp"; "formio-monorepo"; "apps"; "server"; "notes"].

Definition notes_tree : filesystem :=
  <[ notes_source := File "todo" ]>
  (<[ notes_target ++ ["old.md"] := File "old" ]>
   (<[ notes_target := Dir ]> package)).

Definition notes_renamed : Change :=
  {| status := "renamed"; path := "notes";
     previous_path := Some "notes/old.md" |}.

(** apps is a regular file of the staged tree. *)
Definition file_at_apps : filesystem :=
  <[ ["work"; "tmp"; "formio-monorepo"; "apps"] := File "x" ]> Demo.staged.

(** A change whose source file is gone. *)
Definition added_gone : Change :=
  {| status := "added"; path := "lib/util.js"; previous_path := None |}.

Definition renamed_gone : Change :=
  {| status := "renamed"; path := "lib/util.js";
     previous_path := Some "lib/helpers.js" |}.

Definition lib_target : abspath :=
  ["work"; "tmp"; "formio-monorepo"; "apps"; "server"; "lib"].

End Clash.

(** A staged package that still has a/old.txt and lib/helpers.js. *)
Module Moves.

Definition package : filesystem :=
  <[ Clash.lib_target ++ ["helpers.js"] := File "h" ]>
  (<[ Clash.lib_target := Dir ]>
   (<[ ["work"; "tmp"; "formio-monorepo"; "apps"; "server"; "a"; "old.txt"]
       := File "hello" ]>
    (<[ ["work"; "tmp"; "formio-monorepo"; "apps"; "server"; "a"] := Dir ]>
     Clash.package))).

Definition renamed_b : Change :=
  {| status := "renamed"; path := "a/b.txt";
     previous_path := Some "a/old.txt" |}.

Definition old_b : abspath :=
  ["work"; "tmp"; "formio-monorepo"; "apps"; "server"; "a"; "old.txt"].

(** The same rename with a "/" after the previous name. *)
Definition renamed_slash : Change :=
  {| status := "renamed"; path := "a/b.txt";
     previous_path := Some "a/old.txt/" |}.

End Moves.

(** A pull request that adds a/b.txt, edits README.md and edits a/b.txt
    again. *)
Module Twice.

Definition tree : filesystem :=
  <[ ["work"; "repo"; "README.md"] := File "# formio" ]> Demo.staged.

Definition changes : list Change :=
  [Demo.added_b;
   {| status := "modified"; path := "README.md"; previous_path := None |};
   {| status := "modified"; path := "a/b.txt"; previous_path := None |}].

End Twice.

(** A package location that leads back into the source checkout: with
    ../../repo/x the translated location of a is the source of x/a. *)
Module Inward.

Definition env : Env :=
  {| cwd0 := cwd0 Demo.env;
     argv2 := argv2 Demo.env;
     getenv := fun k =>
       if String.eqb k "MONOREPO_PACKAGE_LOCATION" then Some "../../repo/x"
       else Demo.environ k;
     date_now := date_now Demo.env;
     date_parse := date_parse Demo.env;
     date_iso := date_iso Demo.env;
     git := git Demo.env;
     zx_quote := zx_quote Demo.env;
     shell := shell Demo.env;
     http := http Demo.env |}.

Definition tree : filesystem :=
  <[ ["work"; "repo"; "x"; "a"] := File "X" ]>
  (<[ ["work"; "repo"; "x"] := Dir ]>
  (<[ ["work"; "repo"; "a"] := File "A" ]>
  (<[ ["work"; "repo"] := Dir ]>
  (<[ ["work"] := Dir ]> ∅)))).

Definition changes : list Change :=
  [{| status := "modified"; path := "x/a"; previous_path := None |};
   {| status := "modified"; path := "a"; previous_path := None |}].

Definition copy_of_copy : abspath := ["work"; "repo"; "x"; "x"; "a"].

End Inward.

(** ** Vocabulary of the statements *)

(** The four status strings of the hosting API that [getPRChanges] keeps. *)
Definition recognised (s : string) : Prop :=
  s = "added" \/ s = "modified" \/ s = "removed" \/ s = "renamed".

Definition decimal_digit (c : ascii) : Prop :=
  In c ["0"; "1"; "2"; "3"; "4"; "5"; "6"; "7"; "8"; "9"]%char.

(** *** Reading the log of external actions *)

(** A run of [git <sub> ...]. *)
Definition is_git (sub : string) (e : event) : bool :=
  match e with
  | EvProc _ (CmdGit (s :: _)) _ _ => String.eqb s sub
  | _ => false
  end.

(** A POST request: the script sends one only to create the pull request. *)
Definition is_post (e : event) : bool :=
  match e with
  | EvFetch rq _ => String.eqb (rq_method rq) "POST"
  | _ => false
  end.

(** The status query answered with exit status 0 and nothing but white
    space: the staged working tree reports no modifications. *)
Definition reports_clean (e : event) : bool :=
  match e with
  | EvProc _ (CmdGit args) code out =>
      (bool_decide (args = ["status"; "--porcelain"]) && (code =? 0)%Z
       && String.eqb (JS.trim out) "")%bool
  | _ => false
  end.

(** A command line handed to the shell as text: the script has two, the
    [git config] commands. *)
Definition is_shell (e : event) : bool :=
  match e with
  | EvProc _ (CmdShell _) _ _ => true
  | _ => false
  end.

(** Everything the script does before it asks for the status. *)
Definition quiet (e : event) : bool :=
  negb (is_git "status" e || is_shell e || is_git "add" e
        || is_git "commit" e || is_git "push" e || is_post e).

(** Commit, push and the creation request. *)
Definition publishes (e : event) : bool :=
  (is_git "commit" e || is_git "push" e || is_post e)%bool.

(** The git commands between the status query and the creation request. *)
Definition local_git (e : event) : bool :=
  match e with
  | EvProc _ (CmdGit _) _ _ => negb (is_git "status" e)
  | EvProc _ (CmdShell _) _ _ => true
  | _ => false
  end.

(** Every external action of [m] satisfies [P]. *)
Definition emits {A} (P : event -> bool) (m : M A) : Prop :=
  forall w r w',
    m w = (r, w') ->
    exists evs, w_trace w' = w_trace w ++ evs /\ Forall (fun e => P e = true) evs.

Definition aborted {A} (r : result A) : Prop :=
  match r with Ret _ => False | _ => True end.

Definition forget {A} (r : result A) : result unit :=
  match r with
  | Ret _ => Ret tt
  | Exit c => Exit c
  | Throw e => Throw e
  end.

(** The log of a run from the first command after a status query that
    reported modifications.  [finish] is what the caller logs after a
    normal return. *)
Inductive publish_log (finish : list event)
    : list event -> result unit -> Prop :=
| publish_stopped gits r :
    Forall (fun e => local_git e = true) gits ->
    aborted r ->
    publish_log finish gits r
| publish_no_answer gits rq r :
    Forall (fun e => local_git e = true) gits ->
    rq_method rq = "POST" ->
    aborted r ->
    publish_log finish (gits ++ [EvFetch rq None]) r
| publish_refused gits rq rs :
    Forall (fun e => local_git e = true) gits ->
    rq_method rq = "POST" ->
    ok rs = false ->
    publish_log finish
      (gits ++ [EvFetch rq (Some rs);
                EvConsole LError
                  [AStr ("Failed to create PR: "
                         +:+ JS.string_of_Z (rs_status rs) +:+ " "
                         +:+ statusText rs)];
                EvConsole LError [AStr (rs_text rs)]] ++ finish)
      (Ret tt)
| publish_unreadable gits rq rs r :
    Forall (fun e => local_git e = true) gits ->
    rq_method rq = "POST" ->
    ok rs = true ->
    aborted r ->
    publish_log finish (gits ++ [EvFetch rq (Some rs)]) r
| publish_created gits rq rs msg :
    Forall (fun e => local_git e = true) gits ->
    rq_method rq = "POST" ->
    ok rs = true ->
    publish_log finish
      (gits ++ [EvFetch rq (Some rs); EvConsole LLog [AStr msg]] ++ finish)
      (Ret tt).

(** The log of a whole run, by what became of the status query. *)
Inductive run_log (finish : list event) : list event -> result unit -> Prop :=
| run_stopped pre r :
    Forall (fun e => quiet e = true) pre ->
    aborted r ->
    run_log finish pre r
| run_status_failed pre cwd code out r :
    Forall (fun e => quiet e = true) pre ->
    code <> 0%Z ->
    aborted r ->
    run_log finish (pre ++ [EvProc cwd git_status code out]) r
| run_clean pre cwd out msg :
    Forall (fun e => quiet e = true) pre ->
    JS.trim out = "" ->
    run_log finish
      (pre ++ [EvProc cwd git_status 0 out; EvConsole LLog [AStr msg]]
           ++ finish)
      (Ret tt)
| run_dirty pre cwd out post r :
    Forall (fun e => quiet e = true) pre ->
    JS.trim out <> "" ->
    publish_log finish post r ->
    run_log finish (pre ++ EvProc cwd git_status 0 out :: post) r.

Definition logs_as {A} (shape : list event -> result unit -> Prop)
    (m : M A) : Prop :=
  forall w r w',
    m w = (r, w') ->
    exists evs, w_trace w' = w_trace w ++ evs /\ shape evs (forget r).

Definition success_line : event :=
  EvConsole LLog [AStr "Sync completed successfully!"].

(** *** The replay engine on the file system alone *)

(** The two paths [syncChange] computes for a change.  [targetPath] is
    the translated location; [targetJoined] is what [path.join] returns
    for it, with the trailing "/" when the path of the change (or, for an
    empty path, the package location) ends in one. *)
Definition sourcePath (E : Env) (c : Change) : abspath :=
  Path.resolve (ROOT_DIR E) [path c].

Definition targetPath (E : Env) (pkg : string) (c : Change) : abspath :=
  Path.join (TEMP_DIR E) [pkg; path c].

Definition targetJoined (E : Env) (pkg : string) (c : Change) : Path.joined :=
  Path.join_kept (TEMP_DIR E) [pkg; path c].

Definition previousJoined (E : Env) (pkg prev : string) : Path.joined :=
  Path.join_kept (TEMP_DIR E) [pkg; prev].

Definition copies (c : Change) : Prop :=
  status c = "added" \/ status c = "modified".

(** No ancestor of [p], and not [p] itself, is a regular file. *)
Definition free_way (fs : filesystem) (p : abspath) : Prop :=
  forall q content, q `prefix_of` p -> FS.stat fs q <> Some (File content).

(** What the branch for added and modified entries does to the file
    system: the directory chain first, then the copy when the source
    exists. *)
Definition copy_into (src : abspath) (tgt : Path.joined) (fs : filesystem)
    : FS.cmd_result :=
  let r := FS.mkdir_p (Path.dirname_joined tgt) fs in
  if r.1 then
    if FS.existsSync r.2 src then FS.cp_to src tgt r.2 else (true, r.2)
  else (false, r.2).

Fixpoint copy_all (steps : list (abspath * Path.joined)) (fs : filesystem)
    : FS.cmd_result :=
  match steps with
  | [] => (true, fs)
  | (src, tgt) :: rest =>
      let r := copy_into src tgt fs in
      if r.1 then copy_all rest r.2 else (false, r.2)
  end.

(** What the branch for removed entries does to the file system. *)
Definition remove_at (tgt : Path.joined) (fs : filesystem) : FS.cmd_result :=
  if FS.existsSync_at fs tgt then FS.rm_at tgt fs else (true, fs).

(** What the branch for renamed entries does to the file system: the
    deletion at the previous location, then directory chain and copy when
    the source exists. *)
Definition rename_into (src : abspath) (old tgt : Path.joined)
    (fs : filesystem) : FS.cmd_result :=
  let r1 := remove_at old fs in
  if r1.1 then
    if FS.existsSync r1.2 src then
      let r2 := FS.mkdir_p (Path.dirname_joined tgt) r1.2 in
      if r2.1 then FS.cp_to src tgt r2.2 else (false, r2.2)
    else (true, r1.2)
  else (false, r1.2).

Definition missing_source_warning (src : abspath) : event :=
  EvConsole LWarn [AStr ("Source file does not exist: " +:+ Path.render src)].


(** Directories stay directories and regular files stay regular files. *)
Definition stable (fs fs' : filesystem) : Prop :=
  forall p,
    (fs !! p = Some Dir -> fs' !! p = Some Dir)
    /\ (forall x, fs !! p = Some (File x) -> exists y, fs' !! p = Some (File y)).




Definition steps_of (E : Env) (pkg : string) (changes : list Change)
    : list (abspath * Path.joined) :=
  map (fun c => (sourcePath E c, targetJoined E pkg c)) changes.

(** *** The statements that fail as they are worded *)


(** "For every Added entry whose source file exists, after [syncChange]
    the file at the translated location holds the source's bytes." *)
Definition added_always_copied : Prop :=
  forall (E : Env) (c : Change) (w w' : World) (r : result unit)
         (pkg content : string),
    status c = "added" ->
    getenv E "MONOREPO_PACKAGE_LOCATION" = Some pkg ->
    FS.stat (w_fs w) (sourcePath E c) = Some (File content) ->
    syncChange E c w = (r, w') ->
    FS.stat (w_fs w') (targetPath E pkg c) = Some (File content).


(** ** Further vocabulary: removals, frames and the package directory *)

(** A pull request that removes a/old.txt, one whose removed entry names
    the directory a, and one whose removed entry is written with a "/"
    after the file name. *)
Module Removal.

Definition removed_slash : Change :=
  {| status := "removed"; path := "a/old.txt/"; previous_path := None |}.

Definition removed_old : Change :=
  {| status := "removed"; path := "a/old.txt"; previous_path := None |}.

Definition removed_a : Change :=
  {| status := "removed"; path := "a"; previous_path := None |}.

End Removal.

Definition only_console (e : event) : bool :=
  match e with EvConsole _ _ => true | _ => false end.

(** What [syncChange] does to the file system, by the status of the
    change; the flag tells whether it returns normally. *)
Definition change_effect (E : Env) (c : Change) (fs : filesystem)
    : FS.cmd_result :=
  match getenv E "MONOREPO_PACKAGE_LOCATION" with
  | None => (false, fs)
  | Some pkg =>
      if (String.eqb (status c) "added"
          || String.eqb (status c) "modified")%bool
      then copy_into (sourcePath E c) (targetJoined E pkg c) fs
      else if String.eqb (status c) "removed"
      then remove_at (targetJoined E pkg c) fs
      else if String.eqb (status c) "renamed"
      then match previous_path c with
           | Some prev =>
               rename_into (sourcePath E c) (previousJoined E pkg prev)
                 (targetJoined E pkg c) fs
           | None => (false, fs)
           end
      else (true, fs)
  end.

(** A relative path without a ".." segment. *)
Definition plain (s : string) : Prop :=
  Forall (fun seg => seg <> "..") (Path.split s).

Definition plain_change (c : Change) : Prop :=
  plain (path c)
  /\ forall prev, previous_path c = Some prev -> plain prev.

(** An invocation without MONOREPO_PACKAGE_LOCATION, and a file
    descriptor of status renamed that has no previous name. *)
Module Bare.

Definition env : Env :=
  {| cwd0 := cwd0 Demo.env;
     argv2 := argv2 Demo.env;
     getenv := fun k =>
       if String.eqb k "MONOREPO_PACKAGE_LOCATION" then None
       else Demo.environ k;
     date_now := date_now Demo.env;
     date_parse := date_parse Demo.env;
     date_iso := date_iso Demo.env;
     git := git Demo.env;
     zx_quote := zx_quote Demo.env;
     shell := shell Demo.env;
     http := http Demo.env |}.

Definition renamed_file : FileDesc :=
  {| filename := "a/b.txt"; file_status := "renamed";
     previous_filename := None |}.

End Bare.

(** ** Further vocabulary: the hosting API *)

(** The query of [getMergedPullRequests] for a pull-request number. *)
Definition listing_query : string :=
  "?base=master&state=closed&sort=updated&direction=desc".

Definition is_merged (pr : PullRequest) : bool :=
  bool_decide (is_Some (merged_at pr)).

(** The line the three retrieval functions log for an answer that is not
    ok. *)
Definition api_error (rs : Response) : event :=
  EvConsole LError
    [AStr ("GitHub API error: " +:+ JS.string_of_Z (rs_status rs)
           +:+ " " +:+ statusText rs)].

(** What [getPRChanges] promises about one change entry. *)
Definition well_formed (c : Change) : Prop :=
  (recognised (status c) \/ status c = "unknown")
  /\ (status c <> "renamed" -> previous_path c = None).

(** A hosting API that rejects the token. *)
Module Denied.

Definition unauthorized : Response :=
  {| ok := false; rs_status := 401; statusText := "Unauthorized";
     rs_text := "Bad credentials"; rs_json := None |}.

Definition env : Env :=
  {| cwd0 := cwd0 Demo.env;
     argv2 := argv2 Demo.env;
     getenv := getenv Demo.env;
     date_now := date_now Demo.env;
     date_parse := date_parse Demo.env;
     date_iso := date_iso Demo.env;
     git := git Demo.env;
     zx_quote := zx_quote Demo.env;
     shell := shell Demo.env;
     http := fun _ => Some unauthorized |}.

End Denied.

(** A date parser that reads "Jan 31 2024". *)
Module Dated.

Definition env : Env :=
  {| cwd0 := cwd0 Demo.env;
     argv2 := argv2 Demo.env;
     getenv := getenv Demo.env;
     date_now := date_now Demo.env;
     date_parse := fun s =>
       if String.eqb s "Jan 31 2024" then Some 1706659200000%Z else None;
     date_iso := date_iso Demo.env;
     git := git Demo.env;
     zx_quote := zx_quote Demo.env;
     shell := shell Demo.env;
     http := http Demo.env |}.

End Dated.

(** ** Further vocabulary: staging and publishing *)

Definition clone_args (E : Env) : list string :=
  ["clone"; "--depth"; "1"; MONOREPO_URL +:+ ".git"; Path.render (TEMP_DIR E)].

(** A [git] that cannot reach the remote: the clone fails with status
    128. *)
Module Offline.

Definition git_offline (cwd : abspath) (args : list string)
    (fs : filesystem) : Z * string * filesystem :=
  match args with
  | "clone" :: _ => (128%Z, "fatal: unable to access the remote", fs)
  | _ => (0%Z, "", fs)
  end.

Definition env : Env :=
  {| cwd0 := cwd0 Demo.env;
     argv2 := argv2 Demo.env;
     getenv := getenv Demo.env;
     date_now := date_now Demo.env;
     date_parse := date_parse Demo.env;
     date_iso := date_iso Demo.env;
     git := git_offline;
     zx_quote := zx_quote Demo.env;
     shell := shell Demo.env;
     http := http Demo.env |}.

End Offline.

(** The branch [syncPR] creates for a pull request. *)
Definition branch_of (E : Env) (pr : PullRequest) : string :=
  "sync-pr-" +:+ JS.string_of_Z (number pr) +:+ "-"
    +:+ JS.slice_last 6 (JS.string_of_Z (date_now E)).

(** Started in the directory [d], [m] logs only events that satisfy [P]
    and, when it returns, has the working directory [d']. *)
Definition moves {A} (d d' : abspath) (P : event -> bool) (m : M A) : Prop :=
  forall w r w',
    w_cwd w = d ->
    m w = (r, w') ->
    (exists evs,
        w_trace w' = w_trace w ++ evs /\ Forall (fun e => P e = true) evs)
    /\ match r with Ret _ => w_cwd w' = d' | _ => True end.

(** The same for an [m] that leaves the working directory alone, however
    it ends. *)
Definition stays {A} (d : abspath) (P : event -> bool) (m : M A) : Prop :=
  forall w r w',
    w_cwd w = d ->
    m w = (r, w') ->
    (exists evs,
        w_trace w' = w_trace w ++ evs /\ Forall (fun e => P e = true) evs)
    /\ w_cwd w' = d.

(** A [git] command runs in [d]; every other event passes. *)
Definition git_in (d : abspath) (e : event) : bool :=
  match e with
  | EvProc cwd (CmdGit _) _ _ => bool_decide (cwd = d)
  | EvProc cwd (CmdShell _) _ _ => bool_decide (cwd = d)
  | _ => true
  end.

(** The same with the clone, which runs in [start]. *)
Definition staged_git (E : Env) (start : abspath) (e : event) : bool :=
  match e with
  | EvProc cwd (CmdGit args) _ _ =>
      (bool_decide (cwd = TEMP_DIR E)
       || (bool_decide (cwd = start) && bool_decide (args = clone_args E)))%bool
  | EvProc cwd (CmdShell _) _ _ => bool_decide (cwd = TEMP_DIR E)
  | _ => true
  end.

Fixpoint starts_with (p s : string) : bool :=
  match p with
  | EmptyString => true
  | String a p' =>
      match s with
      | String b s' => Ascii.eqb a b && starts_with p' s'
      | EmptyString => false
      end
  end.

(** The commands and requests of [syncPR] for the branch [branch]: the
    five [git] subcommands it gives their arguments one by one, the two
    [git config] lines it hands to the shell, file commands other than
    [rm -rf], GET requests, and the creation request for that branch
    against main. *)
Definition in_script (branch : string) (e : event) : bool :=
  match e with
  | EvProc _ (CmdGit args) _ _ =>
      match args with
      | [a; b] =>
          (String.eqb a "status" && String.eqb b "--porcelain")
          || (String.eqb a "add" && String.eqb b ".")
      | [a; b; c] =>
          (String.eqb a "checkout" && String.eqb b "-b" && String.eqb c branch)
          || (String.eqb a "commit" && String.eqb b "-m")
      | [a; b; c; d] =>
          String.eqb a "push" && String.eqb b "-u" && String.eqb c "origin"
          && String.eqb d branch
      | _ => false
      end
  | EvProc _ (CmdShell line) _ _ =>
      starts_with ("git config user.name " +:+ dquote) line
      || starts_with ("git config user.email " +:+ dquote) line
  | EvProc _ (CmdRmRf _) _ _ => false
  | EvProc _ _ _ _ => true
  | EvFetch rq _ =>
      String.eqb (rq_method rq) "GET"
      || match rq_body rq with
         | Some b =>
             String.eqb (rq_method rq) "POST"
             && String.eqb (rq_url rq)
                  "https://api.github.com/repos/formio/formio-monorepo/pulls"
             && String.eqb (pc_head b) branch
             && String.eqb (pc_base b) "main"
         | None => false
         end
  | _ => true
  end%bool.

(** A run whose status query reports a modification and whose creation
    request is accepted. *)
Module Accepted.

Definition created : PullRequest :=
  {| number := 101; title := "[Sync PR #17] Fix"; user := Demo.alice;
     html_url := "https://github.com/formio/formio-monorepo/pull/101";
     body := None; merged_at := None |}.

Definition api (rq : Request) : option Response :=
  if String.eqb (rq_method rq) "POST" then
    Some {| ok := true; rs_status := 201; statusText := "Created";
            rs_text := ""; rs_json := Some (JPull created) |}
  else Demo.api rq.

Definition env : Env :=
  {| cwd0 := cwd0 Demo.env;
     argv2 := argv2 Demo.env;
     getenv := getenv Demo.env;
     date_now := date_now Demo.env;
     date_parse := date_parse Demo.env;
     date_iso := date_iso Demo.env;
     git := Demo.git_with " M apps/server/a/b.txt";
     zx_quote := zx_quote Demo.env;
     shell := shell Demo.env;
     http := api |}.

(** The same pull request by an author whose name has a space in it. *)
Definition bob : User :=
  {| login := "bob"; name := Some "Bob Stone"; email := None |}.

Definition pull_bob : PullRequest :=
  {| number := 17; title := "Fix"; user := bob;
     html_url := "https://github.com/formio/formio/pull/17";
     body := None; merged_at := None |}.

End Accepted.


(** The source repository turned the file a into the directory a with the
    file b.txt in it; the staged package still has the file a. *)
Module Nested.

Definition tree : filesystem :=
  <[ ["work"; "tmp"; "formio-monorepo"; "apps"; "server"; "a"] := File "old" ]>
  Clash.package.

Definition renamed_a : Change :=
  {| status := "renamed"; path := "a/b.txt"; previous_path := Some "a" |}.

End Nested.

(** * Properties

    Sanity checks of the JavaScript and path helpers. *)

Example parseInt_42 : JS.parseInt (JS.Str "  42abc") = Some 42%Z.
Proof. reflexivity. Qed.

Example parseInt_date : JS.parseInt (JS.Str "2024-01-31") = Some 2024%Z.
Proof. reflexivity. Qed.

Example parseInt_word : JS.parseInt (JS.Str "yesterday") = None.
Proof. reflexivity. Qed.

Example parseInt_hex : JS.parseInt (JS.Str "0x1f") = Some 31%Z.
Proof. reflexivity. Qed.

Example parseInt_bare_hex : JS.parseInt (JS.Str "0x") = None.
Proof. reflexivity. Qed.

Example trim_porcelain :
  JS.trim (" M a.txt" +:+ String "010" "") = "M a.txt".
Proof. reflexivity. Qed.

Example slice_last_6 : JS.slice_last 6 (JS.string_of_Z 1762097943123) = "943123".
Proof. reflexivity. Qed.

Example join_example :
  Path.join ["tmp"; "formio-monorepo"] ["apps/server"; "a/b.txt"]
  = ["tmp"; "formio-monorepo"; "apps"; "server"; "a"; "b.txt"].
Proof. reflexivity. Qed.

Example resolve_example :
  Path.resolve ["work"; "repo"] [".."; "tmp/formio-monorepo"]
  = ["work"; "tmp"; "formio-monorepo"].
Proof. reflexivity. Qed.

Example join_keeps_slash :
  Path.join_kept ["tmp"; "formio-monorepo"] ["apps/server"; "a/b.txt/"]
  = {| Path.components := ["tmp"; "formio-monorepo"; "apps"; "server"; "a";
                           "b.txt"];
       Path.trailing := true |}
  /\ Path.render_joined
       (Path.join_kept ["tmp"; "formio-monorepo"] ["apps/server"; "a/b.txt/"])
     = "/tmp/formio-monorepo/apps/server/a/b.txt/"
  /\ Path.join_trailing ["apps/server/"; ""] = true
  /\ Path.join_trailing ["apps/server"; "a/."] = false
  /\ Path.resolve ["work"; "repo"] ["a/b.txt/"] = ["work"; "repo"; "a"; "b.txt"].
Proof. repeat split; reflexivity. Qed.

Example slash_on_a_file :
  FS.existsSync_at Demo.source_tree
    {| Path.components := ["work"; "repo"; "a"; "b.txt"];
       Path.trailing := true |} = false
  /\ FS.existsSync_at Demo.source_tree
       {| Path.components := ["work"; "repo"; "a"]; Path.trailing := true |}
     = true.
Proof. split; vm_compute; reflexivity. Qed.

Example quote_examples :
  Demo.quote "alice" = "alice"
  /\ Demo.quote "Bob Stone" = "$'Bob Stone'"
  /\ Demo.quote "dependabot[bot]" = "$'dependabot[bot]'"
  /\ Demo.quote "O'Neil" = "$'O\'Neil'".
Proof. repeat split; reflexivity. Qed.

(** ** Running the monad *)

(** Symbolic execution: unfold the monad and the primitives, keep every
    other constant (strings, paths, file-system commands) folded. *)
Ltac mred :=
  cbv beta iota zeta delta
    [mbind M_bind bind mret M_ret ret exit throw console emit of_option
     existsSync try_catch fetch cd json_of path_join for_of replay];
  cbn [w_fs w_cwd w_trace negb fst snd].

Lemma bind_run {A B} (m : M A) (k : A -> M B) w :
  (m ≫= k) w =
  match m w with
  | (Ret a, w') => k a w'
  | (Exit c, w') => (Exit c, w')
  | (Throw e, w') => (Throw e, w')
  end.
Proof. reflexivity. Qed.

Lemma bind_inv {A B} (m : M A) (k : A -> M B) w r w' :
  (m ≫= k) w = (r, w') ->
  (exists a w1, m w = (Ret a, w1) /\ k a w1 = (r, w'))
  \/ (exists c, m w = (Exit c, w') /\ r = Exit c)
  \/ (exists e, m w = (Throw e, w') /\ r = Throw e).
Proof.
  rewrite bind_run. destruct (m w) as [[a | c | e] w1]; intros H.
  - left. eauto.
  - right. left. inversion H; subst. eauto.
  - right. right. inversion H; subst. eauto.
Qed.

(** A run whose outcome is known, with the world it leaves. *)
Lemma run_split {A} (p : result A * World) (r : result A) :
  p.1 = r -> p = (r, p.2).
Proof. destruct p as [r0 w0]. cbn [fst snd]. intros ->. reflexivity. Qed.

(** ** Configuration checks of [sync] *)

(** C6. When the pull-request number, GH_TOKEN, MONOREPO_PACKAGE_LOCATION
    or SOURCE_REPO_NAME is missing (undefined or empty), [sync] ends the
    process with status 1 after one error message: the file system and
    the working directory are those it started with, and no command and
    no HTTP request was issued. *)
Theorem sync_missing_configuration (E : Env) (w : World) :
  JS.truthy (JS.or_else (argv2 E) (getenv E "PR_NUMBER")) = false
  \/ JS.truthy (getenv E "GH_TOKEN") = false
  \/ JS.truthy (getenv E "MONOREPO_PACKAGE_LOCATION") = false
  \/ JS.truthy (getenv E "SOURCE_REPO_NAME") = false ->
  exists msg,
    sync E w =
    (Exit 1, {| w_fs := w_fs w; w_cwd := w_cwd w;
                w_trace := w_trace w ++ [EvConsole LError [AStr msg]] |}).
Proof.
  intros H. unfold sync.
  destruct (JS.truthy (JS.or_else (argv2 E) (getenv E "PR_NUMBER"))) eqn:H1;
    [| eexists; reflexivity].
  destruct (JS.truthy (getenv E "GH_TOKEN")) eqn:H2;
    [| eexists; reflexivity].
  destruct (JS.truthy (getenv E "MONOREPO_PACKAGE_LOCATION")) eqn:H3;
    [| eexists; reflexivity].
  destruct (JS.truthy (getenv E "SOURCE_REPO_NAME")) eqn:H4;
    [| eexists; reflexivity].
  destruct H as [H | [H | [H | H]]]; discriminate.
Qed.

Lemma sync_missing_configuration_witness :
  exists msg,
    sync Demo.env_without_token (Demo.world_of Demo.source_tree) =
    (Exit 1, {| w_fs := Demo.source_tree; w_cwd := ["work"; "repo"];
                w_trace := [EvConsole LError [AStr msg]] |}).
Proof.
  apply (sync_missing_configuration Demo.env_without_token
           (Demo.world_of Demo.source_tree)).
  right. left. reflexivity.
Defined.

(** ** Change-set retrieval *)

Lemma map_files_run (files : list FileDesc) (w : World) :
  map_files files w =
  (Ret (map convert_file files),
   {| w_fs := w_fs w; w_cwd := w_cwd w;
      w_trace := w_trace w
                 ++ map (fun f => EvConsole LLog [AStr "gh file:"; AFile f])
                      files |}).
Proof.
  revert w. induction files as [| f files IH]; intros w.
  - cbn [map_files map]. mred. rewrite app_nil_r. destruct w; reflexivity.
  - cbn [map_files map]. mred. rewrite IH. mred.
    rewrite <- app_assoc. reflexivity.
Qed.

(** What [getPRChanges] returns is the conversion of the file list the
    API sent, and retrieval leaves the file system alone. *)
Lemma getPRChanges_inv (E : Env) (n : Z) (w w1 : World) (changes : list Change) :
  getPRChanges E n w = (Ret changes, w1) ->
  exists rs files,
    http E (api_get E (api_repo E +:+ "/pulls/" +:+ JS.string_of_Z n
                       +:+ "/files")) = Some rs
    /\ ok rs = true
    /\ rs_json rs = Some (JFiles files)
    /\ changes = map convert_file files
    /\ w_fs w1 = w_fs w.
Proof.
  unfold getPRChanges. mred.
  destruct (http E _) as [rs |] eqn:Hrs; mred; [| discriminate].
  destruct (ok rs) eqn:Hok; mred; [| discriminate].
  destruct (rs_json rs) as [[pr | prs | files] |] eqn:Hjson; mred;
    try discriminate.
  rewrite map_files_run. intros H.
  inversion H; subst. exists rs, files. auto.
Qed.

Lemma convert_file_unknown (file : FileDesc) :
  ~ recognised (file_status file) ->
  convert_file file =
  {| status := "unknown"; path := filename file; previous_path := None |}.
Proof.
  intros H. unfold convert_file, recognised in *.
  destruct (String.eqb_spec (file_status file) "added"); [tauto |].
  destruct (String.eqb_spec (file_status file) "modified"); [tauto |].
  destruct (String.eqb_spec (file_status file) "removed"); [tauto |].
  destruct (String.eqb_spec (file_status file) "renamed"); [tauto |].
  reflexivity.
Qed.

(** A change of status "unknown" is logged and nothing else: no command
    runs, whether or not the package location is configured. *)
Lemma syncChange_unknown (E : Env) (change : Change) (w : World) :
  status change = "unknown" ->
  exists r,
    syncChange E change w =
    (r, {| w_fs := w_fs w; w_cwd := w_cwd w;
           w_trace := w_trace w
                      ++ [EvConsole LLog [AStr "Syncing change:";
                                          AChange change]] |}).
Proof.
  intros Hs. unfold syncChange. rewrite Hs. mred.
  destruct (getenv E "MONOREPO_PACKAGE_LOCATION"); eexists; reflexivity.
Qed.

(** C5. Every descriptor whose status is not one of added, modified,
    removed, renamed comes out of [getPRChanges] as a change of status
    "unknown" (at the same position of the list), and [syncChange] on that
    change only writes its log line: file system and working directory
    stay as they are and no command is run. *)
Theorem unknown_status_is_not_applied
    (E : Env) (n : Z) (w w1 : World) (changes : list Change) :
  getPRChanges E n w = (Ret changes, w1) ->
  exists files,
    (exists rs,
        http E (api_get E (api_repo E +:+ "/pulls/" +:+ JS.string_of_Z n
                           +:+ "/files")) = Some rs
        /\ rs_json rs = Some (JFiles files))
    /\ length changes = length files
    /\ forall i file,
        files !! i = Some file ->
        ~ recognised (file_status file) ->
        exists change,
          changes !! i = Some change
          /\ status change = "unknown"
          /\ path change = filename file
          /\ forall w2, exists r,
              syncChange E change w2 =
              (r, {| w_fs := w_fs w2; w_cwd := w_cwd w2;
                     w_trace := w_trace w2
                                ++ [EvConsole LLog [AStr "Syncing change:";
                                                    AChange change]] |}).
Proof.
  intros H. apply getPRChanges_inv in H as (rs & files & Hrs & _ & Hj & -> & _).
  exists files. split; [eauto |]. split; [apply length_map |].
  intros i file Hi Hun. exists (convert_file file).
  rewrite list_lookup_fmap, Hi. split; [reflexivity |].
  rewrite (convert_file_unknown _ Hun). simpl. repeat split.
  intros w2. apply syncChange_unknown. reflexivity.
Qed.

Lemma unknown_status_is_not_applied_witness :
  exists change,
    (getPRChanges Demo.env 17 (Demo.world_of Demo.staged)).1
    = Ret [convert_file Demo.added_file; change]
    /\ status change = "unknown".
Proof.
  assert (Hrun : getPRChanges Demo.env 17 (Demo.world_of Demo.staged)
                 = (Ret (map convert_file Demo.files),
                    (getPRChanges Demo.env 17 (Demo.world_of Demo.staged)).2))
    by (vm_compute; reflexivity).
  destruct (unknown_status_is_not_applied _ _ _ _ _ Hrun)
    as (files & (rs & Hrs & Hj) & _ & H).
  assert (Hfiles : files = Demo.files).
  { vm_compute in Hrs. inversion Hrs; subst rs; clear Hrs.
    vm_compute in Hj. inversion Hj. reflexivity. }
  subst files.
  destruct (H 1%nat Demo.copied_file eq_refl) as (change & Hc & Hs & _).
  - unfold recognised; simpl. intros [? | [? | [? | ?]]]; discriminate.
  - exists change. split; [| exact Hs].
    rewrite Hrun. cbn [fst]. cbn in Hc. inversion Hc. reflexivity.
Defined.

(** ** Listing merged pull requests *)

(** *** [parseInt] of a number is a number *)

Lemma digits_Some (radix acc : Z) (s : string) :
  is_Some (JS.digits radix (Some acc) s).
Proof.
  revert acc. induction s as [| c s IH]; intros acc; cbn [JS.digits].
  - eauto.
  - destruct (JS.digit_of radix c); [apply IH | eauto].
Qed.

Lemma string_of_uint_head (u : Decimal.uint) :
  u <> Decimal.Nil ->
  exists c r, NilEmpty.string_of_uint u = String c r /\ decimal_digit c.
Proof.
  unfold decimal_digit.
  destruct u; intros H; try congruence; cbn [NilEmpty.string_of_uint];
    eexists _, _; (split; [reflexivity |]); cbn; tauto.
Qed.

Lemma parse_unsigned_digits (c : ascii) (r : string) :
  decimal_digit c ->
  (r = "" \/ exists c' r', r = String c' r' /\ decimal_digit c') ->
  is_Some (JS.parse_unsigned (String c r)).
Proof.
  unfold decimal_digit. intros Hc Hr.
  assert (Hd : JS.strip_hex (String c r) = None).
  { destruct Hr as [-> | (c' & r' & -> & Hc')]; [reflexivity |].
    cbn in Hc, Hc'.
    repeat (destruct Hc' as [<- | Hc']; [repeat (destruct Hc as [<- | Hc]; [reflexivity |]); destruct Hc |]). destruct Hc'. }
  unfold JS.parse_unsigned. rewrite Hd. cbn [JS.digits].
  cbn in Hc.
  repeat (destruct Hc as [<- | Hc]; [apply digits_Some |]). destruct Hc.
Qed.

Lemma string_of_uint_shape (u : Decimal.uint) :
  exists c r,
    NilZero.string_of_uint u = String c r /\ decimal_digit c
    /\ (r = "" \/ exists c' r', r = String c' r' /\ decimal_digit c').
Proof.
  assert (Htail : forall v, NilEmpty.string_of_uint v = ""
            \/ exists c' r', NilEmpty.string_of_uint v = String c' r'
                             /\ decimal_digit c').
  { intros v. destruct v; [left; reflexivity | ..];
      right; apply string_of_uint_head; discriminate. }
  unfold decimal_digit in *.
  destruct u; cbn [NilZero.string_of_uint NilEmpty.string_of_uint];
    eexists _, _; (split; [reflexivity |]); (split; [cbn; tauto |]);
    try apply Htail.
  left; reflexivity.
Qed.

Lemma parseInt_digits (c : ascii) (r : string) :
  decimal_digit c ->
  JS.parseInt_string (String c r) = JS.parse_unsigned (String c r)
  /\ JS.parseInt_string (String "-" (String c r))
     = option_map Z.opp (JS.parse_unsigned (String c r)).
Proof.
  unfold decimal_digit. cbn [In]. intros Hc.
  repeat (destruct Hc as [<- | Hc]; [split; reflexivity |]). destruct Hc.
Qed.

Lemma parseInt_number (z : Z) : JS.isNaN (JS.parseInt (JS.Num z)) = false.
Proof.
  unfold JS.parseInt, JS.to_string, JS.string_of_Z, NilZero.string_of_int.
  destruct (Z.to_int z) as [u | u];
    destruct (string_of_uint_shape u) as (c & r & -> & Hc & Hr);
    destruct (parseInt_digits c r Hc) as [Hpos Hneg];
    destruct (parse_unsigned_digits c r Hc Hr) as [v Hv].
  - rewrite Hpos, Hv. reflexivity.
  - rewrite Hneg, Hv. reflexivity.
Qed.

(** With a number as the bound, [getMergedPullRequests] returns merged
    pull requests above the bound only. *)
Lemma getMergedPullRequests_number_bound
    (E : Env) (bound : Z) (w w' : World) (prs : list PullRequest) :
  getMergedPullRequests E (JS.Num bound) w = (Ret prs, w') ->
  Forall (fun pr => is_Some (merged_at pr) /\ (bound < number pr)%Z) prs.
Proof.
  unfold getMergedPullRequests. rewrite parseInt_number. mred.
  destruct (http E _) as [rs |]; mred; [| discriminate].
  destruct (ok rs); mred; [| discriminate].
  destruct (rs_json rs) as [[pr | all | files] |]; mred; try discriminate.
  intros H. inversion H; subst. clear H.
  apply Forall_forall. intros pr Hin. apply list_elem_of_In in Hin.
  apply filter_In in Hin as [Hin Hgt].
  apply filter_In in Hin as [_ Hm].
  apply bool_decide_eq_true in Hm. split; [assumption | lia].
Qed.

(** C9. A bound that arrives as a string of digits, the way a command
    line or an environment variable delivers it, selects the query of a
    pull-request number ([parseInt] reads 5 from it) and then is not
    applied to the result, because the last filter asks for a value of
    type number: pull request 3, merged, is returned for the bound 5. *)
Theorem getMergedPullRequests_string_bound_not_applied :
  JS.parseInt (JS.Str "5") = Some 5%Z
  /\ (getMergedPullRequests Demo.env (JS.Str "5")
        (Demo.world_of Demo.staged)).1
     = Ret [Demo.pull 9 (Some "2024-02-02T10:00:00Z");
            Demo.pull 3 (Some "2024-01-05T09:30:00Z")]
  /\ (getMergedPullRequests Demo.env (JS.Num 5)
        (Demo.world_of Demo.staged)).1
     = Ret [Demo.pull 9 (Some "2024-02-02T10:00:00Z")].
Proof. split; [reflexivity |]. split; vm_compute; reflexivity. Qed.

(** C10. A reference string that [parseInt] does not read as a number and
    that the date parser rejects makes [getMergedPullRequests] raise a
    [RangeError] from [toISOString]: the invalid Date object is truthy, so
    the seven-days-ago default is not taken.  Only the first log line has
    been written by then; no request was sent and the file system is
    untouched. *)
Theorem getMergedPullRequests_invalid_reference
    (E : Env) (s : string) (w : World) :
  JS.parseInt (JS.Str s) = None ->
  date_parse E s = None ->
  getMergedPullRequests E (JS.Str s) w =
  (Throw (RangeError "Invalid time value"),
   {| w_fs := w_fs w; w_cwd := w_cwd w;
      w_trace := w_trace w
                 ++ [EvConsole LLog
                       [AStr ("Getting merged PRs since " +:+ s +:+ "...")]] |}).
Proof.
  intros Hp Hd. unfold getMergedPullRequests. rewrite Hp.
  unfold new_Date, object_truthy, toISOString. rewrite Hd. reflexivity.
Qed.

Lemma getMergedPullRequests_invalid_reference_witness :
  (getMergedPullRequests Demo.env (JS.Str "last week")
     (Demo.world_of Demo.staged)).1
  = Throw (RangeError "Invalid time value").
Proof.
  rewrite (getMergedPullRequests_invalid_reference Demo.env "last week");
    reflexivity.
Defined.

(** ** The external actions of each function *)

Section Emits.

Context {P : event -> bool}.

Lemma emits_ret {A} (a : A) : emits P (ret a).
Proof.
  intros w r w' H. inversion H; subst. exists []. rewrite app_nil_r. auto.
Qed.

Lemma emits_exit {A} (c : Z) : emits P (@exit A c).
Proof.
  intros w r w' H. inversion H; subst. exists []. rewrite app_nil_r. auto.
Qed.

Lemma emits_throw {A} (e : exn) : emits P (@throw A e).
Proof.
  intros w r w' H. inversion H; subst. exists []. rewrite app_nil_r. auto.
Qed.

Lemma emits_bind {A B} (m : M A) (k : A -> M B) :
  emits P m -> (forall a, emits P (k a)) -> emits P (m ≫= k).
Proof.
  intros Hm Hk w r w' H. apply bind_inv in H
    as [(a & w1 & H1 & H2) | [(c & H1 & ->) | (e & H1 & ->)]].
  - apply Hm in H1 as (evs1 & E1 & F1). apply Hk in H2 as (evs2 & E2 & F2).
    exists (evs1 ++ evs2). rewrite E2, E1, app_assoc. split; [reflexivity |].
    apply Forall_app; auto.
  - apply Hm in H1. exact H1.
  - apply Hm in H1. exact H1.
Qed.

Lemma emits_try_catch {A} (m : M A) (h : exn -> M A) :
  emits P m -> (forall e, emits P (h e)) -> emits P (try_catch m h).
Proof.
  intros Hm Hh w r w' H. unfold try_catch in H.
  destruct (m w) as [[a | c | e] w1] eqn:H1.
  - inversion H; subst. apply Hm in H1. exact H1.
  - inversion H; subst. apply Hm in H1. exact H1.
  - apply Hm in H1 as (evs1 & E1 & F1). apply Hh in H as (evs2 & E2 & F2).
    exists (evs1 ++ evs2). rewrite E2, E1, app_assoc. split; [reflexivity |].
    apply Forall_app; auto.
Qed.

Lemma emits_console (l : level) (args : list logarg) :
  P (EvConsole l args) = true -> emits P (console l args).
Proof.
  intros HP w r w' H. inversion H; subst. exists [EvConsole l args]. auto.
Qed.

Lemma emits_exec (E : Env) (c : command) :
  (forall cwd code out, P (EvProc cwd c code out) = true) ->
  emits P (exec E c).
Proof.
  intros HP w r w' H. unfold exec in H.
  destruct (run_command E (w_cwd w) c (w_fs w)) as [[code out] fs'].
  destruct (code =? 0)%Z; inversion H; subst; cbn [w_trace];
    eexists; (split; [reflexivity |]); auto.
Qed.

Lemma emits_cd (dir : abspath) :
  P (EvCd dir) = true -> emits P (cd dir).
Proof.
  intros HP w r w' H. unfold cd in H.
  destruct (FS.is_dir (w_fs w) dir); inversion H; subst; cbn [w_trace].
  - eexists; split; [reflexivity |]; auto.
  - exists []. rewrite app_nil_r. auto.
Qed.

Lemma emits_fetch (E : Env) (rq : Request) :
  (forall rs, P (EvFetch rq rs) = true) -> emits P (fetch E rq).
Proof.
  intros HP w r w' H. unfold fetch in H.
  destruct (http E rq); inversion H; subst; cbn [w_trace];
    eexists; (split; [reflexivity |]); auto.
Qed.

Lemma emits_existsSync (p : Path.joined) : emits P (existsSync p).
Proof.
  intros w r w' H. inversion H; subst. exists []. rewrite app_nil_r. auto.
Qed.

Lemma emits_path_join (base : abspath) (args : list (option string)) :
  emits P (path_join base args).
Proof.
  unfold path_join. destruct (forallb _ _);
    [apply emits_ret | apply emits_throw].
Qed.

Lemma emits_json_of (rs : Response) : emits P (json_of rs).
Proof.
  unfold json_of, of_option. destruct (rs_json rs);
    [apply emits_ret | apply emits_throw].
Qed.

Lemma emits_for_of {A} (xs : list A) (f : A -> M unit) :
  (forall x, emits P (f x)) -> emits P (for_of xs f).
Proof.
  intros Hf. induction xs as [| x xs IH]; cbn [for_of].
  - apply emits_ret.
  - apply (emits_bind (f x) (fun _ => for_of xs f)); auto.
Qed.

End Emits.

(** Goals [emits P m] by the structure of [m]. *)
Ltac emits_step :=
  lazymatch goal with
  | |- emits _ (_ ≫= _) => apply emits_bind; [| intros ?]
  | |- emits _ (bind _ _) => apply emits_bind; [| intros ?]
  | |- emits _ (ret _) => apply emits_ret
  | |- emits _ (mret _) => apply emits_ret
  | |- emits _ (exit _) => apply emits_exit
  | |- emits _ (throw _) => apply emits_throw
  | |- emits _ (try_catch _ _) => apply emits_try_catch; [| intros ?]
  | |- emits _ (console _ _) => apply emits_console; reflexivity
  | |- emits _ (exec _ _) => apply emits_exec; intros; reflexivity
  | |- emits _ (cd _) => apply emits_cd; reflexivity
  | |- emits _ (fetch _ _) => apply emits_fetch; intros; reflexivity
  | |- emits _ (existsSync _) => apply emits_existsSync
  | |- emits _ (path_join _ _) => apply emits_path_join
  | |- emits _ (json_of _) => apply emits_json_of
  | |- emits _ (for_of _ _) => apply emits_for_of; intros ?
  | |- emits _ (if ?b then _ else _) => destruct b
  | |- emits _ (match ?x with _ => _ end) => destruct x
  end.

Ltac emits_auto := repeat emits_step.

Lemma cloneMonoRepo_quiet (E : Env) : emits quiet (cloneMonoRepo E).
Proof. unfold cloneMonoRepo. emits_auto. Qed.

Lemma createBranch_quiet (E : Env) (branchName : string) :
  emits quiet (createBranch E branchName).
Proof. unfold createBranch. emits_auto. Qed.

Lemma getPRDetails_quiet (E : Env) (prNumber : string) :
  emits quiet (getPRDetails E prNumber).
Proof. unfold getPRDetails. emits_auto. Qed.

Lemma map_files_quiet (files : list FileDesc) : emits quiet (map_files files).
Proof. induction files; cbn [map_files]; emits_auto. assumption. Qed.

Lemma getPRChanges_quiet (E : Env) (prNumber : Z) :
  emits quiet (getPRChanges E prNumber).
Proof. unfold getPRChanges. emits_auto; apply map_files_quiet. Qed.

Lemma syncChange_quiet (E : Env) (change : Change) :
  emits quiet (syncChange E change).
Proof. unfold syncChange. emits_auto. Qed.

Lemma replay_quiet (E : Env) (changes : list Change) :
  emits quiet (replay E changes).
Proof. unfold replay. apply emits_for_of. apply syncChange_quiet. Qed.

(** ** The log of a run of [syncPR] and of [sync] *)

Lemma aborted_forget {A} (r : result A) : aborted r -> aborted (forget r).
Proof. destruct r; simpl; auto. Qed.

Lemma publish_log_prefix fin gits evs r :
  Forall (fun e => local_git e = true) gits ->
  publish_log fin evs r ->
  publish_log fin (gits ++ evs) r.
Proof.
  intros Hg H. destruct H; try rewrite (app_assoc gits).
  - apply publish_stopped; [apply Forall_app |]; auto.
  - apply publish_no_answer; [apply Forall_app | |]; auto.
  - apply publish_refused; [apply Forall_app | |]; auto.
  - apply publish_unreadable; [apply Forall_app | | |]; auto.
  - apply publish_created; [apply Forall_app | |]; auto.
Qed.

Lemma run_log_prefix fin pre evs r :
  Forall (fun e => quiet e = true) pre ->
  run_log fin evs r ->
  run_log fin (pre ++ evs) r.
Proof.
  intros Hp H. destruct H; try rewrite (app_assoc pre).
  - apply run_stopped; [apply Forall_app |]; auto.
  - apply run_status_failed; [apply Forall_app | |]; auto.
  - apply run_clean; [apply Forall_app |]; auto.
  - apply run_dirty; [apply Forall_app | |]; auto.
Qed.

Lemma publish_bind {A B} fin (m : M A) (k : A -> M B) :
  emits local_git m ->
  (forall a, logs_as (publish_log fin) (k a)) ->
  logs_as (publish_log fin) (m ≫= k).
Proof.
  intros Hm Hk w r w' H. apply bind_inv in H
    as [(a & w1 & H1 & H2) | [(c & H1 & ->) | (e & H1 & ->)]].
  - apply Hm in H1 as (evs1 & E1 & F1). apply Hk in H2 as (evs2 & E2 & F2).
    exists (evs1 ++ evs2). rewrite E2, E1, app_assoc. split; [reflexivity |].
    apply publish_log_prefix; assumption.
  - apply Hm in H1 as (evs1 & E1 & F1). exists evs1. split; [assumption |].
    apply publish_stopped; simpl; auto.
  - apply Hm in H1 as (evs1 & E1 & F1). exists evs1. split; [assumption |].
    apply publish_stopped; simpl; auto.
Qed.

Lemma run_bind {A B} fin (m : M A) (k : A -> M B) :
  emits quiet m ->
  (forall a, logs_as (run_log fin) (k a)) ->
  logs_as (run_log fin) (m ≫= k).
Proof.
  intros Hm Hk w r w' H. apply bind_inv in H
    as [(a & w1 & H1 & H2) | [(c & H1 & ->) | (e & H1 & ->)]].
  - apply Hm in H1 as (evs1 & E1 & F1). apply Hk in H2 as (evs2 & E2 & F2).
    exists (evs1 ++ evs2). rewrite E2, E1, app_assoc. split; [reflexivity |].
    apply run_log_prefix; assumption.
  - apply Hm in H1 as (evs1 & E1 & F1). exists evs1. split; [assumption |].
    apply run_stopped; simpl; auto.
  - apply Hm in H1 as (evs1 & E1 & F1). exists evs1. split; [assumption |].
    apply run_stopped; simpl; auto.
Qed.

(** The status query splits the runs. *)
Lemma run_log_status {A} (E : Env) fin (k : string -> M A) :
  (forall out, JS.trim out = "" ->
     forall w, exists msg a,
       k out w = (Ret a, {| w_fs := w_fs w; w_cwd := w_cwd w;
                            w_trace := w_trace w
                                       ++ EvConsole LLog [AStr msg] :: fin |})) ->
  (forall out, JS.trim out <> "" -> logs_as (publish_log fin) (k out)) ->
  logs_as (run_log fin) (exec E git_status ≫= k).
Proof.
  intros Hclean Hdirty w r w' H. rewrite bind_run in H. unfold exec in H.
  destruct (run_command E (w_cwd w) git_status (w_fs w)) as [[code out] fs'].
  destruct (Z.eqb_spec code 0) as [-> | Hcode].
  - destruct (decide (JS.trim out = "")) as [Hout | Hout].
    + destruct (Hclean out Hout
                  {| w_fs := fs'; w_cwd := w_cwd w;
                     w_trace := w_trace w
                                ++ [EvProc (w_cwd w) git_status 0 out] |})
        as (msg & a & Hk).
      rewrite Hk in H. inversion H; subst. cbn [w_trace forget].
      eexists. rewrite <- app_assoc. split; [reflexivity |].
      apply (run_clean fin [] (w_cwd w) out msg); auto.
    + apply (Hdirty out Hout) in H as (evs & Ht & Hs). cbn [w_trace] in Ht.
      exists (EvProc (w_cwd w) git_status 0 out :: evs).
      rewrite Ht, <- app_assoc. split; [reflexivity |].
      apply (run_dirty fin [] (w_cwd w) out evs); auto.
  - inversion H; subst. cbn [w_trace forget]. eexists. split; [reflexivity |].
    apply (run_status_failed fin [] (w_cwd w) code out); simpl; auto.
Qed.

(** The creation request and what follows it. *)
Lemma publish_log_fetch {A} (E : Env) (rq : Request) (k : Response -> M A) :
  rq_method rq = "POST" ->
  (forall rs, ok rs = false ->
     forall w, exists a,
       k rs w =
       (Ret a,
        {| w_fs := w_fs w; w_cwd := w_cwd w;
           w_trace :=
             w_trace w
             ++ [EvConsole LError
                   [AStr ("Failed to create PR: "
                          +:+ JS.string_of_Z (rs_status rs) +:+ " "
                          +:+ statusText rs)];
                 EvConsole LError [AStr (rs_text rs)]] |})) ->
  (forall rs, ok rs = true ->
     forall w r w', k rs w = (r, w') ->
       (aborted r /\ w' = w)
       \/ exists a msg,
           r = Ret a
           /\ w_trace w' = w_trace w ++ [EvConsole LLog [AStr msg]]) ->
  logs_as (publish_log []) (fetch E rq ≫= k).
Proof.
  intros Hpost Hno Hyes w r w' H. rewrite bind_run in H. unfold fetch in H.
  destruct (http E rq) as [rs |].
  - destruct (ok rs) eqn:Hok.
    + apply (Hyes rs Hok) in H as [[Hr ->] | (a & msg & -> & Ht)];
        cbn [w_trace forget] in *.
      * eexists. split; [reflexivity |].
        apply (publish_unreadable [] [] rq rs); auto using aborted_forget.
      * eexists. rewrite Ht, <- app_assoc. split; [reflexivity |].
        apply (publish_created [] [] rq rs msg); auto.
    + destruct (Hno rs Hok
                  {| w_fs := w_fs w; w_cwd := w_cwd w;
                     w_trace := w_trace w ++ [EvFetch rq (Some rs)] |})
        as (a & Hk).
      rewrite Hk in H. inversion H; subst. cbn [w_trace forget].
      eexists. rewrite <- app_assoc. split; [reflexivity |].
      apply (publish_refused [] [] rq rs); auto.
  - inversion H; subst. cbn [w_trace forget]. eexists. split; [reflexivity |].
    apply (publish_no_answer [] [] rq); simpl; auto.
Qed.

Lemma syncPR_logs (E : Env) (pr : PullRequest) :
  logs_as (run_log []) (syncPR E pr).
Proof.
  unfold syncPR.
  apply run_bind; [emits_auto | intros _].
  apply run_bind; [apply createBranch_quiet | intros _].
  apply run_bind; [apply getPRChanges_quiet | intros changes].
  apply run_bind; [apply replay_quiet | intros _].
  apply run_bind; [emits_auto | intros _].
  apply run_log_status.
  - intros out Hout w. rewrite Hout. cbn [String.eqb].
    eexists _, _. reflexivity.
  - intros out Hout.
    destruct (String.eqb_spec (JS.trim out) ""); [contradiction |].
    do 5 (apply publish_bind; [emits_auto | intros _]).
    apply publish_log_fetch; [reflexivity | |].
    + intros rs Hok w. rewrite Hok. eexists. mred.
      rewrite <- app_assoc. reflexivity.
    + intros rs Hok w r w' H. rewrite Hok in H. revert H. mred.
      destruct (rs_json rs); mred; intros H; inversion H; subst.
      * right. eexists _, _. split; reflexivity.
      * left. simpl. auto.
Qed.
Lemma publish_log_finish fin evs :
  publish_log [] evs (Ret tt) -> publish_log fin (evs ++ fin) (Ret tt).
Proof.
  intros H. inversion H; subst; try contradiction.
  - rewrite app_nil_r, <- app_assoc. apply publish_refused; auto.
  - rewrite app_nil_r, <- app_assoc. apply publish_created; auto.
Qed.

Lemma publish_log_aborted fin evs r :
  aborted r -> publish_log [] evs r -> publish_log fin evs r.
Proof.
  intros Hr H. inversion H; subst; try contradiction.
  - apply publish_stopped; auto.
  - apply publish_no_answer; auto.
  - apply publish_unreadable; auto.
Qed.

Lemma run_log_finish fin evs :
  run_log [] evs (Ret tt) -> run_log fin (evs ++ fin) (Ret tt).
Proof.
  intros H. inversion H; subst; try contradiction.
  - rewrite app_nil_r, <- app_assoc. apply run_clean; auto.
  - rewrite <- app_assoc, <- app_comm_cons. apply run_dirty; auto.
    apply publish_log_finish. assumption.
Qed.

Lemma run_log_aborted fin evs r :
  aborted r -> run_log [] evs r -> run_log fin evs r.
Proof.
  intros Hr H. inversion H; subst; try contradiction.
  - apply run_stopped; auto.
  - apply run_status_failed; auto.
  - apply run_dirty; auto. apply publish_log_aborted; assumption.
Qed.

Lemma finish_bind {A} (m : M A) (e : event) :
  logs_as (run_log []) m ->
  logs_as (run_log [e]) (m ≫= fun _ => emit e).
Proof.
  intros Hm w r w' H. apply bind_inv in H
    as [(a & w1 & H1 & H2) | [(c & H1 & ->) | (x & H1 & ->)]].
  - apply Hm in H1 as (evs & Ht & Hs). inversion H2; subst.
    cbn [w_trace forget] in *. exists (evs ++ [e]).
    rewrite Ht, <- app_assoc. split; [reflexivity |].
    apply run_log_finish. assumption.
  - apply Hm in H1 as (evs & Ht & Hs). exists evs. split; [assumption |].
    apply run_log_aborted; simpl; auto.
  - apply Hm in H1 as (evs & Ht & Hs). exists evs. split; [assumption |].
    apply run_log_aborted; simpl; auto.
Qed.

Lemma sync_logs (E : Env) : logs_as (run_log [success_line]) (sync E).
Proof.
  unfold sync.
  do 4 (apply run_bind; [emits_auto | intros _]).
  apply run_bind; [apply cloneMonoRepo_quiet | intros _].
  apply run_bind; [apply getPRDetails_quiet | intros prDetails].
  apply (finish_bind _ success_line).
  destruct prDetails as [pr | prs | files]; [apply syncPR_logs | |];
    intros w r w' H; inversion H; subst; exists [];
    (split; [symmetry; apply app_nil_r |]);
    apply run_stopped; simpl; auto.
Qed.

(** *** Facts about single events *)

Lemma quiet_not_clean e : quiet e = true -> reports_clean e = false.
Proof.
  destruct e as [| | cwd [| | | | args | line] code out |]; try reflexivity.
  unfold quiet, reports_clean. cbn [is_git is_post].
  destruct args as [| s args]; [reflexivity |].
  destruct (bool_decide_reflect (s :: args = ["status"; "--porcelain"]))
    as [Heq |]; [| reflexivity].
  inversion Heq; subst. discriminate.
Qed.

Lemma quiet_not_publishes e : quiet e = true -> publishes e = false.
Proof.
  unfold quiet, publishes.
  destruct (is_git "status" e), (is_shell e), (is_git "add" e),
    (is_git "commit" e), (is_git "push" e), (is_post e);
    simpl; congruence.
Qed.

Lemma quiet_not_post e : quiet e = true -> is_post e = false.
Proof.
  unfold quiet.
  destruct (is_git "status" e), (is_shell e), (is_git "add" e),
    (is_git "commit" e), (is_git "push" e), (is_post e);
    simpl; congruence.
Qed.

Lemma local_git_not_clean e : local_git e = true -> reports_clean e = false.
Proof.
  destruct e as [| | cwd [| | | | args | line] code out |]; try discriminate;
    [| reflexivity].
  unfold local_git, reports_clean. cbn [is_git].
  destruct args as [| s args]; [reflexivity |].
  destruct (bool_decide_reflect (s :: args = ["status"; "--porcelain"]))
    as [Heq |]; [| reflexivity].
  inversion Heq; subst. discriminate.
Qed.

Lemma local_git_not_post e : local_git e = true -> is_post e = false.
Proof. destruct e as [| | cwd [| | | | args | line] code out |]; auto; discriminate. Qed.

Lemma publish_log_not_clean evs r :
  publish_log [success_line] evs r ->
  Forall (fun e => reports_clean e = false) evs.
Proof.
  assert (Hg : forall gits,
             Forall (fun e => local_git e = true) gits ->
             Forall (fun e => reports_clean e = false) gits).
  { intros gits Hgits.
    eapply Forall_impl; [eassumption | apply local_git_not_clean]. }
  intros H. destruct H as [gits r Hgits _ | gits rq r Hgits _ _
                          | gits rq rs Hgits _ _ | gits rq rs r Hgits _ _ _
                          | gits rq rs msg Hgits _ _];
    [| apply Forall_app_2 ..]; auto; repeat constructor.
Qed.

(** A list holds at most one element with [P] once it is written around
    one. *)
Lemma split_unique (P : event -> bool) L x R before y after :
  L ++ x :: R = before ++ y :: after ->
  Forall (fun e => P e = false) L ->
  Forall (fun e => P e = false) R ->
  P y = true ->
  before = L /\ y = x /\ after = R.
Proof.
  revert before. induction L as [| l L IH]; intros before Heq HL HR Hy.
  - destruct before as [| b before]; simpl in Heq; inversion Heq; subst.
    + auto.
    + apply Forall_app in HR as [_ HR]. inversion HR; subst. congruence.
  - inversion HL; subst.
    destruct before as [| b before]; simpl in Heq; inversion Heq; subst.
    + congruence.
    + destruct (IH before) as (-> & -> & ->); auto.
Qed.

(** ** Commit and publish *)

Lemma in_middle_false (P : event -> bool) before y after :
  Forall (fun e => P e = false) (before ++ y :: after) ->
  P y = true -> False.
Proof.
  intros H Hy. apply Forall_app in H as [_ H]. inversion H; subst. congruence.
Qed.

Lemma result_unit_forget (r : result unit) : forget r = r.
Proof. destruct r as [[] | |]; reflexivity. Qed.

(** C3. In every run of [sync] whose status query answers with exit
    status 0 and nothing but white space, [sync] returns normally (the
    process ends with status 0), the log of the run holds no commit, no
    push and no POST request, and its last entry is the success message. *)
Theorem clean_tree_is_a_successful_noop
    (E : Env) (w w' : World) (r : result unit) (evs : list event) :
  sync E w = (r, w') ->
  w_trace w' = w_trace w ++ evs ->
  Exists (fun e => reports_clean e = true) evs ->
  r = Ret tt
  /\ Forall (fun e => publishes e = false) evs
  /\ last evs = Some success_line.
Proof.
  intros Hrun Htrace Hclean.
  apply sync_logs in Hrun as (evs' & Ht & Hs).
  rewrite Ht in Htrace. apply app_inv_head in Htrace. subst evs'.
  rewrite result_unit_forget in Hs.
  assert (Hno : forall l, Forall (fun e => reports_clean e = false) l ->
                          Exists (fun e => reports_clean e = true) l -> False).
  { intros l Hall Hex. apply Exists_exists in Hex as (e & Hin & He).
    rewrite Forall_forall in Hall. specialize (Hall e Hin). congruence. }
  destruct Hs as [pre r Hpre Hr | pre cwd code out r Hpre Hcode Hr
                 | pre cwd out msg Hpre Hout | pre cwd out post r Hpre Hout Hpost].
  - exfalso. apply (Hno pre); [| assumption].
    eapply Forall_impl; [eassumption | apply quiet_not_clean].
  - exfalso. apply (Hno (pre ++ [EvProc cwd git_status code out]));
      [| assumption].
    apply Forall_app. split.
    + eapply Forall_impl; [eassumption | apply quiet_not_clean].
    + constructor; [| constructor]. cbn.
      destruct (Z.eqb_spec code 0); [contradiction |].
      rewrite andb_false_r. reflexivity.
  - split; [reflexivity |]. split.
    + apply Forall_app. split.
      * eapply Forall_impl; [eassumption | apply quiet_not_publishes].
      * repeat constructor.
    + rewrite last_app. reflexivity.
  - exfalso. apply (Hno (pre ++ EvProc cwd git_status 0 out :: post));
      [| assumption].
    apply Forall_app. split.
    + eapply Forall_impl; [eassumption | apply quiet_not_clean].
    + constructor.
      * cbn. destruct (String.eqb_spec (JS.trim out) ""); [contradiction |].
        rewrite andb_false_r. reflexivity.
      * eapply publish_log_not_clean. eassumption.
Qed.

Lemma clean_tree_is_a_successful_noop_witness :
  clean_run.1 = Ret tt
  /\ Forall (fun e => publishes e = false) (w_trace clean_run.2).
Proof.
  assert (Hrun : sync (Demo.env_with newline) (Demo.world_of Demo.source_tree)
                 = (clean_run.1, clean_run.2))
    by (vm_compute; reflexivity).
  assert (Htrace : w_trace clean_run.2
                   = w_trace (Demo.world_of Demo.source_tree)
                     ++ w_trace clean_run.2)
    by (vm_compute; reflexivity).
  destruct (clean_tree_is_a_successful_noop _ _ _ _ _ Hrun Htrace)
    as (Hr & Hp & _).
  - apply List.Exists_exists, existsb_exists. vm_compute. reflexivity.
  - split; assumption.
Defined.

(** C8. In every run of [sync] that sent the creation request and got an
    answer that is not ok, what follows the request in the log is exactly:
    the error line with the status and the status text, the error line
    with the response body, and the success message.  No command runs
    after the request, so the pushed branch and the commit stay, and
    [sync] returns normally instead of ending the process with a failure
    status. *)
Theorem refused_pull_request_is_logged_and_kept
    (E : Env) (w w' : World) (r : result unit)
    (before after : list event) (rq : Request) (rs : Response) :
  sync E w = (r, w') ->
  w_trace w' = w_trace w ++ before ++ EvFetch rq (Some rs) :: after ->
  rq_method rq = "POST" ->
  ok rs = false ->
  r = Ret tt
  /\ after =
     [EvConsole LError
        [AStr ("Failed to create PR: " +:+ JS.string_of_Z (rs_status rs)
               +:+ " " +:+ statusText rs)];
      EvConsole LError [AStr (rs_text rs)];
      success_line]
  /\ Forall (fun e => is_post e = false) before.
Proof.
  intros Hrun Htrace Hpost Hok.
  apply sync_logs in Hrun as (evs & Ht & Hs).
  rewrite Ht in Htrace. apply app_inv_head in Htrace. subst evs.
  rewrite result_unit_forget in Hs.
  assert (Hy : is_post (EvFetch rq (Some rs)) = true).
  { cbn. rewrite Hpost. reflexivity. }
  assert (Hq : forall l, Forall (fun e => quiet e = true) l ->
                         Forall (fun e => is_post e = false) l).
  { intros l Hl. eapply Forall_impl; [eassumption | apply quiet_not_post]. }
  assert (Hg : forall l, Forall (fun e => local_git e = true) l ->
                         Forall (fun e => is_post e = false) l).
  { intros l Hl. eapply Forall_impl; [eassumption | apply local_git_not_post]. }
  remember (before ++ EvFetch rq (Some rs) :: after) as evs eqn:Hevs.
  destruct Hs as [pre r Hpre Hr | pre cwd code out r Hpre Hcode Hr
                 | pre cwd out msg Hpre Hout | pre cwd out post r Hpre Hout Hpost'].
  - exfalso. subst pre. eapply (in_middle_false is_post); eauto.
  - exfalso. eapply (in_middle_false is_post); [| exact Hy].
    rewrite <- Hevs. apply Forall_app_2; [auto | repeat constructor].
  - exfalso. eapply (in_middle_false is_post); [| exact Hy].
    rewrite <- Hevs. apply Forall_app_2; [auto | repeat constructor].
  - assert (Hst : Forall (fun e => is_post e = false)
                    (pre ++ [EvProc cwd git_status 0 out])).
    { apply Forall_app_2; [auto | repeat constructor]. }
    replace (pre ++ EvProc cwd git_status 0 out :: post)
      with ((pre ++ [EvProc cwd git_status 0 out]) ++ post) in Hevs
      by (rewrite <- app_assoc; reflexivity).
    destruct Hpost' as [gits r Hgits Hr | gits rq' r Hgits Hm Hr
                       | gits rq' rs' Hgits Hm Hok'
                       | gits rq' rs' r Hgits Hm Hok' Hr
                       | gits rq' rs' msg Hgits Hm Hok'].
    + exfalso. eapply (in_middle_false is_post); [| exact Hy].
      rewrite <- Hevs. apply Forall_app_2; auto.
    + rewrite app_assoc in Hevs.
      apply split_unique with (P := is_post) in Hevs as (_ & Hx & _);
        [discriminate | apply Forall_app_2; auto | constructor | exact Hy].
    + rewrite app_assoc in Hevs.
      apply split_unique with (P := is_post) in Hevs as (-> & Hx & ->);
        [| apply Forall_app_2; auto | repeat constructor | exact Hy].
      inversion Hx; subst. split; [reflexivity |]. split; [reflexivity |].
      apply Forall_app_2; auto.
    + rewrite app_assoc in Hevs.
      apply split_unique with (P := is_post) in Hevs as (_ & Hx & _);
        [| apply Forall_app_2; auto | constructor | exact Hy].
      inversion Hx; subst. congruence.
    + rewrite app_assoc in Hevs.
      apply split_unique with (P := is_post) in Hevs as (_ & Hx & _);
        [| apply Forall_app_2; auto | repeat constructor | exact Hy].
      inversion Hx; subst. congruence.
Qed.

Lemma refused_pull_request_is_logged_and_kept_witness :
  refused_run.1 = Ret tt
  /\ drop 29 (w_trace refused_run.2) =
     [EvConsole LError [AStr "Failed to create PR: 422 Unprocessable Entity"];
      EvConsole LError [AStr "Validation Failed"];
      success_line].
Proof.
  assert (Hrun : sync (Demo.env_with " M apps/server/a/b.txt")
                   (Demo.world_of Demo.source_tree)
                 = (refused_run.1, refused_run.2))
    by (vm_compute; reflexivity).
  let e := eval vm_compute in (w_trace refused_run.2 !! 28%nat) in
  lazymatch e with
  | Some (EvFetch ?rq (Some ?rs)) =>
      assert (Htrace : w_trace refused_run.2
                       = w_trace (Demo.world_of Demo.source_tree)
                         ++ take 28 (w_trace refused_run.2)
                         ++ EvFetch rq (Some rs)
                            :: drop 29 (w_trace refused_run.2))
        by (vm_compute; reflexivity);
      destruct (refused_pull_request_is_logged_and_kept _ _ _ _ _ _ _ _
                  Hrun Htrace) as (Hr & Ha & _)
  end.
  - vm_compute. reflexivity.
  - vm_compute. reflexivity.
  - split; [exact Hr |]. rewrite Ha. vm_compute. reflexivity.
Defined.

(** ** File-system commands *)

Lemma stat_lookup (fs : filesystem) (p : abspath) :
  p <> [] -> FS.stat fs p = fs !! p.
Proof. destruct p; [congruence | reflexivity]. Qed.

Lemma stat_snoc (fs : filesystem) (p : abspath) (c : string) :
  FS.stat fs (p ++ [c]) = fs !! (p ++ [c]).
Proof. apply stat_lookup. destruct p; discriminate. Qed.

(** [mkdir -p] keeps what exists, adds directories only, and only on the
    way from [pre] to [pre ++ rest]. *)
Lemma mkdir_p_from_keeps pre rest fs :
  forall q x,
    fs !! q = Some x -> (FS.mkdir_p_from pre rest fs).2 !! q = Some x.
Proof.
  revert pre fs. induction rest as [| c rest IH]; intros pre fs q x Hq;
    cbn [FS.mkdir_p_from]; [exact Hq |].
  destruct (fs !! (pre ++ [c])) as [[content |] |] eqn:Hp; cbn [snd].
  - exact Hq.
  - apply IH, Hq.
  - apply IH. rewrite lookup_insert_ne; [exact Hq | congruence].
Qed.

Lemma mkdir_p_from_adds pre rest fs :
  forall q,
    fs !! q = None ->
    (FS.mkdir_p_from pre rest fs).2 !! q = None
    \/ ((FS.mkdir_p_from pre rest fs).2 !! q = Some Dir
        /\ q `prefix_of` (pre ++ rest) /\ length pre < length q).
Proof.
  revert pre fs. induction rest as [| c rest IH]; intros pre fs q Hq;
    cbn [FS.mkdir_p_from]; [left; exact Hq |].
  assert (Hnext : forall fs1,
             (fs1 !! q = None ->
              (FS.mkdir_p_from (pre ++ [c]) rest fs1).2 !! q = None
              \/ ((FS.mkdir_p_from (pre ++ [c]) rest fs1).2 !! q = Some Dir
                  /\ q `prefix_of` (pre ++ c :: rest)
                  /\ length pre < length q))).
  { intros fs1 H1. destruct (IH (pre ++ [c]) fs1 q H1) as [H | (H & Hpre & Hlen)];
      [left; exact H | right].
    rewrite <- app_assoc in Hpre. rewrite length_app in Hlen. simpl in Hlen.
    split; [exact H |]. split; [exact Hpre | lia]. }
  destruct (fs !! (pre ++ [c])) as [[content |] |] eqn:Hp; cbn [snd].
  - left. exact Hq.
  - apply Hnext, Hq.
  - destruct (decide (q = pre ++ [c])) as [-> | Hne].
    + right. split.
      * apply mkdir_p_from_keeps. apply lookup_insert_eq.
      * split.
        -- exists rest. rewrite <- app_assoc. reflexivity.
        -- rewrite length_app. simpl. lia.
    + apply Hnext. rewrite lookup_insert_ne; [exact Hq | congruence].
Qed.

(** It succeeds when no regular file is in the way, and then the whole
    chain is there. *)
Lemma mkdir_p_from_ok pre rest fs :
  FS.is_dir fs pre = true ->
  free_way fs (pre ++ rest) ->
  (FS.mkdir_p_from pre rest fs).1 = true
  /\ FS.is_dir (FS.mkdir_p_from pre rest fs).2 (pre ++ rest) = true.
Proof.
  revert pre fs. induction rest as [| c rest IH]; intros pre fs Hpre Hfree;
    cbn [FS.mkdir_p_from].
  - rewrite app_nil_r. auto.
  - replace (pre ++ c :: rest) with ((pre ++ [c]) ++ rest) in *
      by (rewrite <- app_assoc; reflexivity).
    destruct (fs !! (pre ++ [c])) as [[content |] |] eqn:Hp.
    + exfalso. apply (Hfree (pre ++ [c]) content).
      * exists rest. reflexivity.
      * rewrite stat_snoc. exact Hp.
    + apply IH; [| exact Hfree].
      unfold FS.is_dir. rewrite stat_snoc, Hp. reflexivity.
    + apply IH.
      * unfold FS.is_dir. rewrite stat_snoc, lookup_insert_eq. reflexivity.
      * intros q content Hq Hs. apply (Hfree q content Hq).
        destruct q as [| a q]; [discriminate Hs |].
        cbn [FS.stat] in *.
        destruct (decide (a :: q = pre ++ [c])) as [Heq | Hne].
        -- rewrite Heq, lookup_insert_eq in Hs. discriminate.
        -- rewrite lookup_insert_ne in Hs; [exact Hs | congruence].
Qed.

Lemma mkdir_p_ok (p : abspath) (fs : filesystem) :
  free_way fs p ->
  (FS.mkdir_p p fs).1 = true /\ FS.is_dir (FS.mkdir_p p fs).2 p = true.
Proof. intros H. apply (mkdir_p_from_ok [] p fs); [reflexivity | exact H]. Qed.

Lemma mkdir_p_keeps (p : abspath) (fs : filesystem) q x :
  fs !! q = Some x -> (FS.mkdir_p p fs).2 !! q = Some x.
Proof. apply mkdir_p_from_keeps. Qed.

Lemma mkdir_p_adds (p : abspath) (fs : filesystem) q :
  fs !! q = None ->
  (FS.mkdir_p p fs).2 !! q = None
  \/ ((FS.mkdir_p p fs).2 !! q = Some Dir /\ q `prefix_of` p).
Proof.
  intros H. destruct (mkdir_p_from_adds [] p fs q H) as [? | (? & ? & _)]; auto.
Qed.

Lemma mkdir_p_stat_keeps (p : abspath) (fs : filesystem) q x :
  FS.stat fs q = Some x -> FS.stat (FS.mkdir_p p fs).2 q = Some x.
Proof. destruct q; [auto |]. apply mkdir_p_keeps. Qed.

Lemma dirname_shorter (p : abspath) :
  p <> [] -> ~ p `prefix_of` Path.dirname p.
Proof.
  intros Hp [k Hk]. apply (f_equal (@length string)) in Hk.
  unfold Path.dirname in Hk. rewrite length_app in Hk.
  destruct (exists_last Hp) as (p' & c & ->).
  rewrite removelast_last, length_app in Hk. simpl in Hk. lia.
Qed.

(** [mkdir -p] of the parent does not create the path itself. *)
Lemma mkdir_p_dirname_stat (p : abspath) (fs : filesystem) :
  FS.stat fs p = None ->
  FS.stat (FS.mkdir_p (Path.dirname p) fs).2 p = None.
Proof.
  intros H. destruct p as [| a p]; [discriminate H |]. cbn [FS.stat] in *.
  destruct (mkdir_p_adds (Path.dirname (a :: p)) fs (a :: p) H)
    as [? | [_ Hpre]]; [assumption |].
  exfalso. eapply dirname_shorter; [| exact Hpre]. discriminate.
Qed.


(** ** Paths that end in "/" *)

Lemma joined_exact (j : Path.joined) :
  Path.trailing j = false -> j = Path.exact (Path.components j).
Proof. destruct j as [p t]. cbn. intros ->. reflexivity. Qed.

Lemma join_kept_exact (base : abspath) (args : list string) :
  Path.join_trailing args = false ->
  Path.join_kept base args = Path.exact (Path.join base args).
Proof. intros H. unfold Path.join_kept. rewrite H. reflexivity. Qed.

Lemma existsSync_at_exact (fs : filesystem) (p : abspath) :
  FS.existsSync_at fs (Path.exact p) = FS.existsSync fs p.
Proof. reflexivity. Qed.

Lemma cp_to_exact (src tgt : abspath) (fs : filesystem) :
  FS.cp_to src (Path.exact tgt) fs = FS.cp src tgt fs.
Proof. reflexivity. Qed.

Lemma rm_at_exact (p : abspath) (fs : filesystem) :
  FS.rm_at (Path.exact p) fs = FS.rm p fs.
Proof. reflexivity. Qed.

(** With or without the "/", [cp] and [rm] do what they do on the plain
    path, or fail and leave the file system alone. *)
Lemma cp_to_cases (src : abspath) (tgt : Path.joined) (fs : filesystem) :
  FS.cp_to src tgt fs = FS.cp src (Path.components tgt) fs
  \/ FS.cp_to src tgt fs = (false, fs).
Proof.
  unfold FS.cp_to. destruct (Path.trailing tgt); [| auto].
  destruct (FS.is_dir fs (Path.components tgt)); auto.
Qed.

Lemma rm_at_cases (p : Path.joined) (fs : filesystem) :
  FS.rm_at p fs = FS.rm (Path.components p) fs \/ FS.rm_at p fs = (false, fs).
Proof. unfold FS.rm_at. destruct (Path.trailing p); auto. Qed.

Lemma existsSync_at_dir (fs : filesystem) (p : Path.joined) :
  FS.stat fs (Path.components p) = Some Dir -> FS.existsSync_at fs p = true.
Proof.
  intros H. unfold FS.existsSync_at, FS.is_dir, FS.existsSync. rewrite H.
  destruct (Path.trailing p); reflexivity.
Qed.

Lemma existsSync_at_missing (fs : filesystem) (p : Path.joined) :
  FS.stat fs (Path.components p) = None -> FS.existsSync_at fs p = false.
Proof.
  intros H. unfold FS.existsSync_at, FS.is_dir, FS.existsSync. rewrite H.
  destruct (Path.trailing p); reflexivity.
Qed.

(** A regular file is not found under its name with a "/". *)
Lemma existsSync_at_file (fs : filesystem) (p : Path.joined) (x : string) :
  FS.stat fs (Path.components p) = Some (File x) ->
  FS.existsSync_at fs p = negb (Path.trailing p).
Proof.
  intros H. unfold FS.existsSync_at, FS.is_dir, FS.existsSync. rewrite H.
  destruct (Path.trailing p); reflexivity.
Qed.

Lemma rm_at_dir (fs : filesystem) (p : Path.joined) :
  FS.stat fs (Path.components p) = Some Dir -> FS.rm_at p fs = (false, fs).
Proof.
  intros H. unfold FS.rm_at, FS.rm. rewrite H.
  destruct (Path.trailing p); reflexivity.
Qed.

Lemma cp_to_ok_source (src : abspath) (tgt : Path.joined) (fs : filesystem) :
  (FS.cp_to src tgt fs).1 = true -> exists x, FS.stat fs src = Some (File x).
Proof.
  destruct (cp_to_cases src tgt fs) as [-> | ->]; [| discriminate].
  unfold FS.cp. destruct (FS.stat fs src) as [[x |] |]; [eauto | |];
    discriminate.
Qed.

(** ** The replay engine

    [syncChange] on an added or modified entry is [copy_into] on the file
    system. *)

Lemma copies_test_true (c : Change) :
  copies c ->
  (String.eqb (status c) "added" || String.eqb (status c) "modified")%bool
  = true.
Proof. intros [-> | ->]; reflexivity. Qed.

Lemma path_join_defined (base : abspath) (a b : string) :
  path_join base [Some a; Some b] = ret (Path.join_kept base [a; b]).
Proof. reflexivity. Qed.

Lemma path_join_undefined (base : abspath) (b : option string) :
  path_join base [None; b] = throw (TypeError "path.join").
Proof. reflexivity. Qed.

Ltac run_exec :=
  unfold exec, run_command, of_cmd; cbn [w_fs w_cwd w_trace fst snd].

Lemma mkdir_p_no_new_file (p : abspath) (fs : filesystem) q x :
  FS.stat (FS.mkdir_p p fs).2 q = Some (File x) ->
  FS.stat fs q = Some (File x).
Proof.
  destruct q as [| a q]; [discriminate |]. cbn [FS.stat]. intros H.
  destruct (fs !! (a :: q)) as [n |] eqn:Hq.
  - rewrite (mkdir_p_keeps p fs _ _ Hq) in H. exact H.
  - destruct (mkdir_p_adds p fs _ Hq) as [H' | [H' _]];
      rewrite H' in H; discriminate.
Qed.

Lemma syncChange_copies (E : Env) (c : Change) (w : World) (pkg : string) :
  copies c ->
  getenv E "MONOREPO_PACKAGE_LOCATION" = Some pkg ->
  exists evs,
    syncChange E c w =
    (if (copy_into (sourcePath E c) (targetJoined E pkg c) (w_fs w)).1
     then Ret tt else Throw (ProcessOutput 1 ""),
     {| w_fs := (copy_into (sourcePath E c) (targetJoined E pkg c) (w_fs w)).2;
        w_cwd := w_cwd w;
        w_trace := w_trace w ++ evs |})
    /\ ((copy_into (sourcePath E c) (targetJoined E pkg c) (w_fs w)).1 = true ->
        FS.stat (w_fs w) (sourcePath E c) = None ->
        last evs = Some (missing_source_warning (sourcePath E c))).
Proof.
  intros Hc Hpkg. unfold syncChange.
  rewrite (copies_test_true c Hc), Hpkg, path_join_defined.
  fold (targetJoined E pkg c).
  unfold copy_into, sourcePath, missing_source_warning.
  mred. run_exec.
  pose proof (mkdir_p_no_new_file
                (Path.dirname_joined (targetJoined E pkg c))
                (w_fs w) (Path.resolve (ROOT_DIR E) [path c])) as Hnew.
  destruct (FS.mkdir_p _ _) as [[|] fs1];
    cbn [fst snd Z.eqb w_fs w_cwd w_trace] in *.
  - rewrite existsSync_at_exact.
    destruct (FS.existsSync fs1 _); cbn [fst snd].
    + run_exec.
      pose proof (cp_to_ok_source (Path.resolve (ROOT_DIR E) [path c])
                    (targetJoined E pkg c) fs1) as Hcp.
      destruct (FS.cp_to _ _ fs1) as [[|] fs2];
        cbn [fst snd Z.eqb w_fs w_cwd w_trace] in *; rewrite <- ?app_assoc;
        eexists; (split; [reflexivity |]); intros Hok Hnone;
        [| discriminate Hok].
      destruct (Hcp eq_refl) as [x Hx]. apply Hnew in Hx. congruence.
    + cbn [fst snd Z.eqb w_fs w_cwd w_trace]; rewrite <- ?app_assoc.
      eexists; (split; [reflexivity |]); intros _ _. reflexivity.
  - rewrite <- ?app_assoc. eexists; (split; [reflexivity |]).
    intros Hok. discriminate Hok.
Qed.

(** The copy succeeds and lands on the translated location when nothing
    is in its way. *)
Lemma copy_into_ok (src tgt : abspath) (fs : filesystem) (content : string) :
  FS.stat fs src = Some (File content) ->
  free_way fs (Path.dirname tgt) ->
  FS.stat fs tgt <> Some Dir ->
  tgt <> src ->
  copy_into src (Path.exact tgt) fs
  = (true, <[tgt := File content]> (FS.mkdir_p (Path.dirname tgt) fs).2).
Proof.
  intros Hsrc Hfree Htgt Hne. unfold copy_into.
  change (Path.dirname_joined (Path.exact tgt)) with (Path.dirname tgt).
  rewrite cp_to_exact.
  destruct (mkdir_p_ok _ _ Hfree) as [Hok Hdir]. rewrite Hok.
  pose proof (mkdir_p_stat_keeps (Path.dirname tgt) _ _ _ Hsrc) as Hsrc1.
  unfold FS.existsSync, FS.cp. rewrite Hsrc1.
  assert (Hw : FS.write_file src tgt content (FS.mkdir_p (Path.dirname tgt) fs).2
               = (true, <[tgt := File content]>
                          (FS.mkdir_p (Path.dirname tgt) fs).2)).
  { unfold FS.write_file. destruct (decide (tgt = src)); [contradiction | reflexivity]. }
  destruct (FS.stat fs tgt) as [[x |] |] eqn:Ht.
  - rewrite (mkdir_p_stat_keeps _ _ _ _ Ht). exact Hw.
  - contradiction.
  - rewrite (mkdir_p_dirname_stat _ _ Ht), Hdir. exact Hw.
Qed.

Lemma stat_insert_eq (fs : filesystem) (p : abspath) (n : node) :
  p <> [] -> FS.stat (<[p := n]> fs) p = Some n.
Proof. intros Hp. rewrite stat_lookup by exact Hp. apply lookup_insert_eq. Qed.

Lemma stat_not_root (fs : filesystem) (p : abspath) :
  FS.stat fs p <> Some Dir -> p <> [].
Proof. intros H ->. apply H. reflexivity. Qed.

(** C2, as the code has it.  For an Added entry whose source is a regular
    file: when the package location is configured, the path does not end
    in "/" (precisely: what [path.join] returns for the translated
    location has no trailing "/"), no ancestor of the translated location
    is a regular file, the translated location is not a directory and is
    not the source file itself, [syncChange] returns normally and the
    translated location monorepoRoot/packageLocation/path is a regular
    file with exactly the source's content. *)
Theorem added_file_is_copied
    (E : Env) (c : Change) (w : World) (pkg content : string) :
  status c = "added" ->
  getenv E "MONOREPO_PACKAGE_LOCATION" = Some pkg ->
  Path.join_trailing [pkg; path c] = false ->
  FS.stat (w_fs w) (sourcePath E c) = Some (File content) ->
  free_way (w_fs w) (Path.dirname (targetPath E pkg c)) ->
  FS.stat (w_fs w) (targetPath E pkg c) <> Some Dir ->
  targetPath E pkg c <> sourcePath E c ->
  exists w',
    syncChange E c w = (Ret tt, w')
    /\ FS.stat (w_fs w') (targetPath E pkg c) = Some (File content).
Proof.
  intros Hs Hpkg Hslash Hsrc Hfree Htgt Hne.
  destruct (syncChange_copies E c w pkg (or_introl Hs) Hpkg)
    as (evs & Hrun & _).
  unfold targetJoined in Hrun. rewrite (join_kept_exact _ _ Hslash) in Hrun.
  fold (targetPath E pkg c) in Hrun.
  rewrite (copy_into_ok _ _ _ _ Hsrc Hfree Htgt Hne) in Hrun.
  cbn [fst snd] in Hrun. eexists. split; [exact Hrun |].
  cbn [w_fs]. apply stat_insert_eq. eapply stat_not_root, Htgt.
Qed.

(** The instance of the specification: path a/b.txt, content hello,
    package location apps/server, on a freshly staged clone. *)
Lemma added_file_is_copied_witness :
  exists w',
    syncChange Demo.env Demo.added_b (Demo.world_of Demo.staged) = (Ret tt, w')
    /\ FS.stat (w_fs w') Demo.target_b = Some (File "hello").
Proof.
  apply (added_file_is_copied Demo.env Demo.added_b
           (Demo.world_of Demo.staged) "apps/server" "hello").
  - reflexivity.
  - reflexivity.
  - reflexivity.
  - vm_compute. reflexivity.
  - intros q content [k Hk] Hq.
    vm_compute in Hk.
    repeat (destruct q as [| ? q];
            [vm_compute in Hq; discriminate Hq
            | injection Hk as <- Hk]).
    destruct q; [vm_compute in Hq; discriminate Hq | discriminate Hk].
  - vm_compute. discriminate.
  - vm_compute. discriminate.
Defined.

(** C2 as worded fails: with the directory apps/server/a/b.txt in the
    staged tree, [cp] puts the file inside that directory, and the
    translated location stays a directory. *)
Lemma added_onto_directory_counterexample : ~ added_always_copied.
Proof.
  intros H.
  specialize (H Demo.env Demo.added_b (Demo.world_of Clash.directory_at_target)
                (syncChange Demo.env Demo.added_b
                   (Demo.world_of Clash.directory_at_target)).2
                (syncChange Demo.env Demo.added_b
                   (Demo.world_of Clash.directory_at_target)).1
                "apps/server" "hello" eq_refl eq_refl).
  assert (Hsrc : FS.stat (w_fs (Demo.world_of Clash.directory_at_target))
                   (sourcePath Demo.env Demo.added_b) = Some (File "hello"))
    by (vm_compute; reflexivity).
  assert (Hrun : syncChange Demo.env Demo.added_b
                   (Demo.world_of Clash.directory_at_target)
                 = ((syncChange Demo.env Demo.added_b
                       (Demo.world_of Clash.directory_at_target)).1,
                    (syncChange Demo.env Demo.added_b
                       (Demo.world_of Clash.directory_at_target)).2))
    by (vm_compute; reflexivity).
  specialize (H Hsrc Hrun). vm_compute in H. discriminate H.
Qed.

Example added_onto_directory_run :
  (syncChange Demo.env Demo.added_b
     (Demo.world_of Clash.directory_at_target)).1 = Ret tt
  /\ FS.stat (w_fs (syncChange Demo.env Demo.added_b
                      (Demo.world_of Clash.directory_at_target)).2)
       Demo.target_b = Some Dir
  /\ FS.stat (w_fs (syncChange Demo.env Demo.added_b
                      (Demo.world_of Clash.directory_at_target)).2)
       (Demo.target_b ++ ["b.txt"]) = Some (File "hello").
Proof. vm_compute. auto. Qed.

(** Why the path must not end in "/": [path.resolve] drops the "/" and
    the source is found, [path.join] keeps it and [cp] fails on a
    location that is not a directory. *)
Example added_with_slash_run :
  FS.stat Demo.staged (sourcePath Demo.env Demo.added_slash)
  = Some (File "hello")
  /\ (syncChange Demo.env Demo.added_slash (Demo.world_of Demo.staged)).1
     = Throw (ProcessOutput 1 "")
  /\ FS.stat (w_fs (syncChange Demo.env Demo.added_slash
                      (Demo.world_of Demo.staged)).2) Demo.target_b
     = None.
Proof. vm_compute. auto. Qed.

(** ** Renamed entries *)

Lemma stat_delete_None (fs : filesystem) (p q : abspath) :
  FS.stat fs q = None -> FS.stat (delete p fs) q = None.
Proof.
  destruct q; [auto |]. cbn [FS.stat]. intros H.
  destruct (decide (p = s :: q)) as [-> | Hne].
  - apply lookup_delete_eq.
  - rewrite lookup_delete_ne; assumption.
Qed.

Lemma rm_keeps_missing (fs : filesystem) (p q : abspath) :
  FS.stat fs q = None -> FS.stat (FS.rm p fs).2 q = None.
Proof.
  intros H. unfold FS.rm. destruct (FS.stat fs p) as [[x |] |]; cbn [snd];
    auto using stat_delete_None.
Qed.

Lemma existsSync_false (fs : filesystem) (q : abspath) :
  FS.stat fs q = None -> FS.existsSync fs q = false.
Proof. unfold FS.existsSync. intros ->. reflexivity. Qed.

Lemma rm_at_keeps_missing (fs : filesystem) (p : Path.joined) (q : abspath) :
  FS.stat fs q = None -> FS.stat (FS.rm_at p fs).2 q = None.
Proof.
  intros H. destruct (rm_at_cases p fs) as [-> | ->]; [| exact H].
  apply rm_keeps_missing, H.
Qed.

Lemma syncChange_renames
    (E : Env) (c : Change) (w : World) (pkg prev : string) :
  status c = "renamed" ->
  getenv E "MONOREPO_PACKAGE_LOCATION" = Some pkg ->
  previous_path c = Some prev ->
  exists evs,
    syncChange E c w =
    (if (rename_into (sourcePath E c) (previousJoined E pkg prev)
           (targetJoined E pkg c) (w_fs w)).1
     then Ret tt else Throw (ProcessOutput 1 ""),
     {| w_fs := (rename_into (sourcePath E c) (previousJoined E pkg prev)
                   (targetJoined E pkg c) (w_fs w)).2;
        w_cwd := w_cwd w;
        w_trace := w_trace w ++ evs |})
    /\ ((rename_into (sourcePath E c) (previousJoined E pkg prev)
            (targetJoined E pkg c) (w_fs w)).1 = true ->
        FS.stat (w_fs w) (sourcePath E c) = None ->
        last evs = Some (missing_source_warning (sourcePath E c))).
Proof.
  intros Hs Hpkg Hprev. unfold syncChange.
  rewrite Hs, Hpkg, Hprev, !path_join_defined.
  fold (targetJoined E pkg c). fold (previousJoined E pkg prev).
  change (String.eqb "renamed" "added" || String.eqb "renamed" "modified")%bool
    with false.
  change (String.eqb "renamed" "removed") with false.
  change (String.eqb "renamed" "renamed") with true.
  unfold rename_into, remove_at, sourcePath, missing_source_warning. mred.
  pose proof (rm_at_keeps_missing (w_fs w) (previousJoined E pkg prev)
                (Path.resolve (ROOT_DIR E) [path c])) as Hrm.
  pose proof (existsSync_false (w_fs w) (Path.resolve (ROOT_DIR E) [path c]))
    as Hex.
  destruct (FS.existsSync_at (w_fs w) (previousJoined E pkg prev)).
  - run_exec.
    destruct (FS.rm_at _ _) as [[|] fs1];
      cbn [fst snd Z.eqb w_fs w_cwd w_trace] in *.
    + rewrite existsSync_at_exact.
      destruct (FS.existsSync fs1 _) eqn:Hsrc; cbn [fst snd].
      * run_exec.
        destruct (FS.mkdir_p _ _) as [[|] fs2];
          cbn [fst snd Z.eqb w_fs w_cwd w_trace].
        -- run_exec. destruct (FS.cp_to _ _ fs2) as [[|] fs3];
             cbn [fst snd Z.eqb w_fs w_cwd w_trace]; rewrite <- ?app_assoc;
             eexists; (split; [reflexivity |]); intros _ Hnone;
             rewrite (existsSync_false _ _ (Hrm Hnone)) in Hsrc; discriminate.
        -- rewrite <- ?app_assoc;
             eexists; (split; [reflexivity |]); intros _ Hnone;
             rewrite (existsSync_false _ _ (Hrm Hnone)) in Hsrc; discriminate.
      * cbn [fst snd Z.eqb w_fs w_cwd w_trace]; rewrite <- ?app_assoc.
        eexists; (split; [reflexivity |]); intros _ _. reflexivity.
    + rewrite <- ?app_assoc. eexists; (split; [reflexivity |]).
      intros Hf. discriminate Hf.
  - cbn [fst snd Z.eqb w_fs w_cwd w_trace] in *.
    rewrite existsSync_at_exact.
    destruct (FS.existsSync (w_fs w) _) eqn:Hsrc; cbn [fst snd].
    + run_exec.
      destruct (FS.mkdir_p _ _) as [[|] fs2];
        cbn [fst snd Z.eqb w_fs w_cwd w_trace].
      * run_exec. destruct (FS.cp_to _ _ fs2) as [[|] fs3];
          cbn [fst snd Z.eqb w_fs w_cwd w_trace]; rewrite <- ?app_assoc;
          eexists; (split; [reflexivity |]); intros _ Hnone;
          specialize (Hex Hnone); congruence.
      * rewrite <- ?app_assoc;
          eexists; (split; [reflexivity |]); intros _ Hnone;
          specialize (Hex Hnone); congruence.
    + cbn [fst snd Z.eqb w_fs w_cwd w_trace]; rewrite <- ?app_assoc.
      eexists; (split; [reflexivity |]); intros _ _. reflexivity.
Qed.

Lemma delete_missing (fs : filesystem) (p : abspath) :
  fs !! p = None -> delete p fs = fs.
Proof.
  intros H. apply map_eq. intros q. destruct (decide (p = q)) as [<- | Hne].
  - rewrite lookup_delete_eq. symmetry. exact H.
  - apply lookup_delete_ne. exact Hne.
Qed.

(** The deletion half: whatever is not a directory at the previous
    location is gone afterwards. *)
Lemma remove_at_deletes (old : abspath) (fs : filesystem) :
  FS.stat fs old <> Some Dir ->
  remove_at (Path.exact old) fs = (true, delete old fs).
Proof.
  intros Hold. unfold remove_at. rewrite existsSync_at_exact, rm_at_exact.
  unfold FS.existsSync, FS.rm.
  destruct old as [| a old]; [exfalso; apply Hold; reflexivity |].
  cbn [FS.stat] in *.
  destruct (fs !! (a :: old)) as [[x |] |] eqn:H; [reflexivity | congruence |].
  rewrite delete_missing by exact H. reflexivity.
Qed.


Lemma stat_delete_eq (fs : filesystem) (p : abspath) :
  p <> [] -> FS.stat (delete p fs) p = None.
Proof. intros Hp. rewrite stat_lookup by exact Hp. apply lookup_delete_eq. Qed.






Example renamed_onto_directory_run :
  (syncChange Demo.env Clash.notes_renamed
     (Demo.world_of Clash.notes_tree)).1 = Ret tt
  /\ FS.stat (w_fs (syncChange Demo.env Clash.notes_renamed
                      (Demo.world_of Clash.notes_tree)).2)
       (Clash.notes_target ++ ["old.md"]) = None
  /\ FS.stat (w_fs (syncChange Demo.env Clash.notes_renamed
                      (Demo.world_of Clash.notes_tree)).2)
       Clash.notes_target = Some Dir
  /\ FS.stat (w_fs (syncChange Demo.env Clash.notes_renamed
                      (Demo.world_of Clash.notes_tree)).2)
       (Clash.notes_target ++ ["notes"]) = Some (File "todo").
Proof. vm_compute. auto. Qed.

(** Why the previous path must not end in "/": a regular file is not
    found under its name with a "/", so the old file is not deleted. *)
Example renamed_with_slash_run :
  (syncChange Demo.env Moves.renamed_slash (Demo.world_of Moves.package)).1
  = Ret tt
  /\ FS.stat (w_fs (syncChange Demo.env Moves.renamed_slash
                      (Demo.world_of Moves.package)).2) Moves.old_b
     = Some (File "hello")
  /\ FS.stat (w_fs (syncChange Demo.env Moves.renamed_slash
                      (Demo.world_of Moves.package)).2) Demo.target_b
     = Some (File "hello").
Proof. vm_compute. auto. Qed.

(** ** Added and modified entries whose source is gone *)

Lemma copy_into_missing (src : abspath) (tgt : Path.joined)
    (fs : filesystem) :
  FS.stat fs src = None ->
  (copy_into src tgt fs).2 = (FS.mkdir_p (Path.dirname_joined tgt) fs).2.
Proof.
  intros Hsrc. unfold copy_into.
  destruct (FS.mkdir_p (Path.dirname_joined tgt) fs).1; [| reflexivity].
  destruct (FS.existsSync _ src); [| reflexivity].
  destruct (cp_to_cases src tgt (FS.mkdir_p (Path.dirname_joined tgt) fs).2)
    as [-> | ->]; [| reflexivity].
  unfold FS.cp.
  destruct (FS.stat (FS.mkdir_p (Path.dirname_joined tgt) fs).2 src)
    as [[x |] |] eqn:H; try reflexivity.
  apply mkdir_p_no_new_file in H. congruence.
Qed.

(** What does hold for a skipped entry: the regular files of the file
    system are those it had, with their content; only directories on the
    way to the translated location can be new. *)
Lemma skipped_copy_keeps_files
    (E : Env) (c : Change) (w w' : World) (r : result unit) (pkg : string) :
  copies c ->
  getenv E "MONOREPO_PACKAGE_LOCATION" = Some pkg ->
  FS.stat (w_fs w) (sourcePath E c) = None ->
  syncChange E c w = (r, w') ->
  forall q,
    (forall x, FS.stat (w_fs w') q = Some (File x)
               <-> FS.stat (w_fs w) q = Some (File x))
    /\ (FS.stat (w_fs w') q = Some Dir ->
        FS.stat (w_fs w) q = Some Dir
        \/ q `prefix_of` Path.dirname (targetPath E pkg c)).
Proof.
  intros Hc Hpkg Hsrc Hrun q.
  destruct (syncChange_copies E c w pkg Hc Hpkg) as (evs & Hrun' & _).
  rewrite Hrun in Hrun'. inversion Hrun'; subst. cbn [w_fs].
  rewrite (copy_into_missing _ _ _ Hsrc).
  change (Path.dirname_joined (targetJoined E pkg c))
    with (Path.dirname (targetPath E pkg c)).
  split.
  - intros x. split; [apply mkdir_p_no_new_file | apply mkdir_p_stat_keeps].
  - destruct q as [| a q]; [auto |]. cbn [FS.stat]. intros Hd.
    destruct (w_fs w !! (a :: q)) as [n |] eqn:Hq.
    + rewrite (mkdir_p_keeps _ _ _ _ Hq) in Hd. auto.
    + destruct (mkdir_p_adds (Path.dirname (targetPath E pkg c)) _ _ Hq)
        as [H | [_ H]]; [congruence | auto].
Qed.

(** C7. The entry lib/util.js is Added and its source file is gone.  On
    the freshly staged clone [syncChange] returns normally after the
    warning, but it has created apps, apps/server and apps/server/lib by
    then, because [mkdir -p] runs before the source is looked at; the
    Renamed branch, which looks first, leaves the same tree as it is.
    And when apps is a regular file of the staged tree the same skipped
    entry makes [mkdir -p] fail and [syncChange] raise. *)
Theorem skipped_entry_creates_directories :
  FS.stat Demo.staged (sourcePath Demo.env Clash.added_gone) = None
  /\ FS.stat Demo.staged Clash.lib_target = None
  /\ (syncChange Demo.env Clash.added_gone (Demo.world_of Demo.staged)).1
     = Ret tt
  /\ last (w_trace (syncChange Demo.env Clash.added_gone
                      (Demo.world_of Demo.staged)).2)
     = Some (missing_source_warning ["work"; "repo"; "lib"; "util.js"])
  /\ FS.stat (w_fs (syncChange Demo.env Clash.added_gone
                      (Demo.world_of Demo.staged)).2) Clash.lib_target
     = Some Dir
  /\ FS.stat (w_fs (syncChange Demo.env Clash.renamed_gone
                      (Demo.world_of Demo.staged)).2) Clash.lib_target
     = None
  /\ (syncChange Demo.env Clash.added_gone
        (Demo.world_of Clash.file_at_apps)).1
     = Throw (ProcessOutput 1 "").
Proof. vm_compute. auto 10. Qed.

(** ** Replaying twice *)

Lemma stable_refl (fs : filesystem) : stable fs fs.
Proof. intros p. split; eauto. Qed.

Lemma stable_trans (a b c : filesystem) : stable a b -> stable b c -> stable a c.
Proof.
  intros Hab Hbc p. destruct (Hab p) as [Hd Hf], (Hbc p) as [Hd' Hf'].
  split; [auto |]. intros x Hx. destruct (Hf x Hx) as [y Hy]. eauto.
Qed.

Lemma stable_insert_file (fs : filesystem) (p : abspath) (content : string) :
  fs !! p <> Some Dir -> stable fs (<[p := File content]> fs).
Proof.
  intros Hp q. destruct (decide (p = q)) as [<- | Hne].
  - rewrite lookup_insert_eq. split; [congruence | eauto].
  - rewrite lookup_insert_ne by exact Hne. split; eauto.
Qed.

Lemma mkdir_p_from_stable (pre rest : abspath) (fs : filesystem) :
  stable fs (FS.mkdir_p_from pre rest fs).2.
Proof.
  intros p. split.
  - apply mkdir_p_from_keeps.
  - intros x Hx. exists x. apply mkdir_p_from_keeps, Hx.
Qed.

(** What [cp] can do: nothing, or one regular file at or right below the
    destination, where no directory was. *)
Lemma cp_effect (src tgt : abspath) (fs : filesystem) :
  ((FS.cp src tgt fs).2 = fs /\ (FS.cp src tgt fs).1 = false)
  \/ exists dst content,
      FS.cp src tgt fs = (true, <[dst := File content]> fs)
      /\ FS.stat fs src = Some (File content)
      /\ fs !! dst <> Some Dir
      /\ dst <> []
      /\ dst <> src
      /\ tgt `prefix_of` dst.
Proof.
  unfold FS.cp.
  destruct (FS.stat fs src) as [[content |] |] eqn:Hsrc; [| left; auto ..].
  assert (Hw : forall dst,
             FS.stat fs dst <> Some Dir -> tgt `prefix_of` dst ->
             ((FS.write_file src dst content fs).2 = fs
              /\ (FS.write_file src dst content fs).1 = false)
             \/ exists dst' content',
                 FS.write_file src dst content fs
                 = (true, <[dst' := File content']> fs)
                 /\ Some (File content) = Some (File content')
                 /\ fs !! dst' <> Some Dir
                 /\ dst' <> []
                 /\ dst' <> src
                 /\ tgt `prefix_of` dst').
  { intros dst Hd Hpre. unfold FS.write_file.
    destruct (decide (dst = src)); [left; auto | right].
    exists dst, content. repeat split; auto.
    - rewrite <- stat_lookup; [exact Hd | eapply stat_not_root, Hd].
    - eapply stat_not_root, Hd. }
  destruct (FS.stat fs tgt) as [[x |] |] eqn:Htgt.
  - apply Hw; [congruence | reflexivity].
  - destruct (FS.stat fs (tgt ++ [Path.basename src])) as [[x |] |] eqn:Hin;
      [| left; auto |]; (apply Hw; [congruence | eexists; reflexivity]).
  - destruct (FS.is_dir fs (Path.dirname tgt)); [| left; auto].
    apply Hw; [congruence | reflexivity].
Qed.

Lemma cp_stable (src tgt : abspath) (fs : filesystem) :
  stable fs (FS.cp src tgt fs).2.
Proof.
  destruct (cp_effect src tgt fs)
    as [[-> _] | (dst & content & -> & _ & Hd & _)].
  - apply stable_refl.
  - apply stable_insert_file, Hd.
Qed.


Lemma cp_to_stable (src : abspath) (tgt : Path.joined) (fs : filesystem) :
  stable fs (FS.cp_to src tgt fs).2.
Proof.
  destruct (cp_to_cases src tgt fs) as [-> | ->];
    [apply cp_stable | apply stable_refl].
Qed.

Lemma copy_into_stable (src : abspath) (tgt : Path.joined) (fs : filesystem) :
  stable fs (copy_into src tgt fs).2.
Proof.
  unfold copy_into.
  pose proof (mkdir_p_from_stable [] (Path.dirname_joined tgt) fs) as Hm.
  fold (FS.mkdir_p (Path.dirname_joined tgt) fs) in Hm.
  destruct (FS.mkdir_p (Path.dirname_joined tgt) fs).1; [| exact Hm].
  destruct (FS.existsSync _ src); [| exact Hm].
  eapply stable_trans; [exact Hm | apply cp_to_stable].
Qed.

Lemma copy_all_stable (steps : list (abspath * Path.joined))
    (fs : filesystem) :
  stable fs (copy_all steps fs).2.
Proof.
  revert fs. induction steps as [| [src tgt] steps IH]; intros fs;
    cbn [copy_all]; [apply stable_refl |].
  pose proof (copy_into_stable src tgt fs) as Hs.
  destruct (copy_into src tgt fs).1; [| exact Hs].
  eapply stable_trans; [exact Hs | apply IH].
Qed.










Lemma existsSync_file (fs : filesystem) (p : abspath) (x : string) :
  FS.stat fs p = Some (File x) -> FS.existsSync fs p = true.
Proof. unfold FS.existsSync. intros ->. reflexivity. Qed.






(** [replay] on added and modified entries is [copy_all]. *)
Lemma replay_copies (E : Env) (pkg : string) (cs : list Change) (w : World) :
  Forall copies cs ->
  getenv E "MONOREPO_PACKAGE_LOCATION" = Some pkg ->
  exists evs,
    replay E cs w =
    (if (copy_all (steps_of E pkg cs) (w_fs w)).1
     then Ret tt else Throw (ProcessOutput 1 ""),
     {| w_fs := (copy_all (steps_of E pkg cs) (w_fs w)).2;
        w_cwd := w_cwd w;
        w_trace := w_trace w ++ evs |}).
Proof.
  intros Hcs Hpkg. revert w. unfold replay.
  induction Hcs as [| c cs Hc Hcs IH]; intros w; cbn [for_of steps_of map copy_all].
  - exists []. rewrite app_nil_r. destruct w; reflexivity.
  - fold (steps_of E pkg cs).
    destruct (syncChange_copies E c w pkg Hc Hpkg) as (evs & Hrun & _).
    unfold bind. rewrite Hrun.
    destruct (copy_into (sourcePath E c) (targetJoined E pkg c) (w_fs w)).1.
    + destruct (IH {| w_fs := (copy_into (sourcePath E c)
                                 (targetJoined E pkg c) (w_fs w)).2;
                      w_cwd := w_cwd w; w_trace := w_trace w ++ evs |})
        as [evs' Hrest].
      rewrite Hrest. cbn [w_fs w_cwd w_trace]. rewrite <- app_assoc.
      eexists. reflexivity.
    + eexists. reflexivity.
Qed.

(** Without the package location every entry raises before it touches
    the file system. *)
Lemma replay_unconfigured (E : Env) (cs : list Change) (w : World) :
  getenv E "MONOREPO_PACKAGE_LOCATION" = None ->
  exists evs,
    replay E cs w =
    (match cs with [] => Ret tt | _ => Throw (TypeError "path.join") end,
     {| w_fs := w_fs w; w_cwd := w_cwd w; w_trace := w_trace w ++ evs |}).
Proof.
  intros Hpkg. unfold replay. destruct cs as [| c cs]; cbn [for_of].
  - exists []. rewrite app_nil_r. destruct w; reflexivity.
  - unfold syncChange. rewrite Hpkg, path_join_undefined. mred.
    eexists. reflexivity.
Qed.




Example replay_into_the_sources_run :
  (replay Inward.env Inward.changes (Demo.world_of Inward.tree)).1 = Ret tt
  /\ FS.stat (w_fs (replay Inward.env Inward.changes
                      (Demo.world_of Inward.tree)).2) Inward.copy_of_copy
     = Some (File "X")
  /\ (replay Inward.env Inward.changes
        (replay Inward.env Inward.changes (Demo.world_of Inward.tree)).2).1
     = Ret tt
  /\ FS.stat (w_fs (replay Inward.env Inward.changes
                      (replay Inward.env Inward.changes
                         (Demo.world_of Inward.tree)).2).2)
       Inward.copy_of_copy
     = Some (File "A").
Proof. vm_compute. repeat split; reflexivity. Qed.

(** * More of the replay engine

    Removed entries, entries that cannot be applied, and what a replay
    leaves alone. *)

(** *** What a file-system command leaves alone *)
Lemma mkdir_p_frame (p : abspath) (fs : filesystem) (q : abspath) :
  ~ q `prefix_of` p -> (FS.mkdir_p p fs).2 !! q = fs !! q.
Proof.
  intros Hq. destruct (fs !! q) as [x |] eqn:H.
  - apply mkdir_p_keeps, H.
  - destruct (mkdir_p_adds p fs q H) as [H' | [_ H']]; [exact H' | contradiction].
Qed.

Lemma cp_frame (src tgt : abspath) (fs : filesystem) (q : abspath) :
  ~ tgt `prefix_of` q -> (FS.cp src tgt fs).2 !! q = fs !! q.
Proof.
  intros Hq. destruct (cp_effect src tgt fs)
    as [[-> _] | (dst & content & -> & _ & _ & _ & _ & Hpre)]; [reflexivity |].
  cbn [snd]. apply lookup_insert_ne. intros ->. contradiction.
Qed.

Lemma cp_to_frame (src : abspath) (tgt : Path.joined) (fs : filesystem)
    (q : abspath) :
  ~ Path.components tgt `prefix_of` q -> (FS.cp_to src tgt fs).2 !! q = fs !! q.
Proof.
  intros Hq. destruct (cp_to_cases src tgt fs) as [-> | ->]; [| reflexivity].
  apply cp_frame, Hq.
Qed.

Lemma copy_into_frame (src : abspath) (tgt : Path.joined) (fs : filesystem)
    (q : abspath) :
  ~ q `prefix_of` Path.dirname_joined tgt ->
  ~ Path.components tgt `prefix_of` q ->
  (copy_into src tgt fs).2 !! q = fs !! q.
Proof.
  intros Hup Hdown. unfold copy_into.
  pose proof (mkdir_p_frame (Path.dirname_joined tgt) fs q Hup) as Hm.
  destruct (FS.mkdir_p (Path.dirname_joined tgt) fs).1; [| exact Hm].
  destruct (FS.existsSync _ src); [| exact Hm].
  rewrite cp_to_frame by exact Hdown. exact Hm.
Qed.

Lemma rm_frame (p : abspath) (fs : filesystem) (q : abspath) :
  q <> p -> (FS.rm p fs).2 !! q = fs !! q.
Proof.
  intros Hq. unfold FS.rm. destruct (FS.stat fs p) as [[x |] |]; try reflexivity.
  cbn [snd]. apply lookup_delete_ne. congruence.
Qed.

Lemma rm_at_frame (p : Path.joined) (fs : filesystem) (q : abspath) :
  q <> Path.components p -> (FS.rm_at p fs).2 !! q = fs !! q.
Proof.
  intros Hq. destruct (rm_at_cases p fs) as [-> | ->]; [| reflexivity].
  apply rm_frame, Hq.
Qed.

Lemma remove_at_frame (p : Path.joined) (fs : filesystem) (q : abspath) :
  q <> Path.components p -> (remove_at p fs).2 !! q = fs !! q.
Proof.
  intros Hq. unfold remove_at.
  destruct (FS.existsSync_at fs p); [| reflexivity].
  apply rm_at_frame, Hq.
Qed.

Lemma rename_into_frame (src : abspath) (old tgt : Path.joined)
    (fs : filesystem) (q : abspath) :
  q <> Path.components old ->
  ~ q `prefix_of` Path.dirname_joined tgt ->
  ~ Path.components tgt `prefix_of` q ->
  (rename_into src old tgt fs).2 !! q = fs !! q.
Proof.
  intros Hold Hup Hdown. unfold rename_into.
  pose proof (remove_at_frame old fs q Hold) as Hr.
  destruct (remove_at old fs) as [[|] fs1]; cbn [fst snd] in *; [| exact Hr].
  destruct (FS.existsSync fs1 src); [| exact Hr].
  pose proof (mkdir_p_frame (Path.dirname_joined tgt) fs1 q Hup) as Hm.
  destruct (FS.mkdir_p (Path.dirname_joined tgt) fs1).1; cbn [snd];
    [| congruence].
  rewrite cp_to_frame by exact Hdown. congruence.
Qed.

Lemma syncChange_removes (E : Env) (c : Change) (w : World) (pkg : string) :
  status c = "removed" ->
  getenv E "MONOREPO_PACKAGE_LOCATION" = Some pkg ->
  exists evs,
    syncChange E c w =
    (if (remove_at (targetJoined E pkg c) (w_fs w)).1
     then Ret tt else Throw (ProcessOutput 1 ""),
     {| w_fs := (remove_at (targetJoined E pkg c) (w_fs w)).2;
        w_cwd := w_cwd w;
        w_trace := w_trace w ++ evs |})
    /\ (FS.existsSync_at (w_fs w) (targetJoined E pkg c) = false ->
        Forall (fun e => only_console e = true) evs).
Proof.
  intros Hs Hpkg. unfold syncChange.
  rewrite Hs, Hpkg, path_join_defined.
  fold (targetJoined E pkg c).
  change (String.eqb "removed" "added" || String.eqb "removed" "modified")%bool
    with false.
  change (String.eqb "removed" "removed") with true.
  unfold remove_at. mred.
  destruct (FS.existsSync_at (w_fs w) _).
  - run_exec. destruct (FS.rm_at _ _) as [[|] fs1];
      cbn [fst snd Z.eqb w_fs w_cwd w_trace]; rewrite <- ?app_assoc;
      eexists; (split; [reflexivity | discriminate]).
  - cbn [fst snd w_fs w_cwd w_trace]. rewrite <- ?app_assoc.
    eexists. split; [reflexivity |]. intros _. repeat constructor.
Qed.

Lemma syncChange_unconfigured_run (E : Env) (c : Change) (w : World) :
  getenv E "MONOREPO_PACKAGE_LOCATION" = None ->
  syncChange E c w =
  (Throw (TypeError "path.join"),
   {| w_fs := w_fs w; w_cwd := w_cwd w;
      w_trace := w_trace w
                 ++ [EvConsole LLog [AStr "Syncing change:"; AChange c]] |}).
Proof.
  intros Hpkg. unfold syncChange. rewrite Hpkg, path_join_undefined.
  reflexivity.
Qed.

Lemma path_join_no_previous (base : abspath) (a : string) :
  path_join base [Some a; None] = throw (TypeError "path.join").
Proof. reflexivity. Qed.

Lemma syncChange_effect (E : Env) (c : Change) (w : World) :
  exists r evs,
    syncChange E c w =
    (r, {| w_fs := (change_effect E c (w_fs w)).2;
           w_cwd := w_cwd w;
           w_trace := w_trace w ++ evs |})
    /\ ((change_effect E c (w_fs w)).1 = true -> r = Ret tt)
    /\ ((change_effect E c (w_fs w)).1 = false -> exists e, r = Throw e).
Proof.
  unfold change_effect.
  destruct (getenv E "MONOREPO_PACKAGE_LOCATION") as [pkg |] eqn:Hpkg.
  2:{ rewrite (syncChange_unconfigured_run E c w Hpkg).
      eexists _, _. split; [reflexivity |]. split; [discriminate | eauto]. }
  destruct (String.eqb (status c) "added" || String.eqb (status c) "modified")%bool
    eqn:Hcopy.
  { assert (Hc : copies c).
    { apply orb_true_iff in Hcopy as [H | H]; apply String.eqb_eq in H;
        [left | right]; exact H. }
    destruct (syncChange_copies E c w pkg Hc Hpkg) as (evs & Hrun & _).
    rewrite Hrun. destruct (copy_into _ _ _).1;
      eexists _, _; (split; [reflexivity |]); split; eauto; discriminate. }
  destruct (String.eqb_spec (status c) "removed") as [Hrm | Hrm].
  { destruct (syncChange_removes E c w pkg Hrm Hpkg) as (evs & Hrun & _).
    rewrite Hrun. destruct (remove_at _ _).1;
      eexists _, _; (split; [reflexivity |]); split; eauto; discriminate. }
  destruct (String.eqb_spec (status c) "renamed") as [Hrn | Hrn].
  { destruct (previous_path c) as [prev |] eqn:Hprev.
    - destruct (syncChange_renames E c w pkg prev Hrn Hpkg Hprev)
        as (evs & Hrun & _).
      rewrite Hrun. destruct (rename_into _ _ _ _).1;
        eexists _, _; (split; [reflexivity |]); split; eauto; discriminate.
    - unfold syncChange.
      rewrite Hrn, Hpkg, Hprev, path_join_defined, path_join_no_previous.
      change (String.eqb "renamed" "added" || String.eqb "renamed" "modified")%bool
        with false.
      change (String.eqb "renamed" "removed") with false.
      change (String.eqb "renamed" "renamed") with true.
      mred. eexists _, _. split; [reflexivity |]. split; [discriminate | eauto]. }
  unfold syncChange. rewrite Hpkg, path_join_defined, Hcopy.
  destruct (String.eqb_spec (status c) "removed"); [contradiction |].
  destruct (String.eqb_spec (status c) "renamed"); [contradiction |].
  mred. eexists _, _. split; [reflexivity |]. split; [reflexivity | discriminate].
Qed.

(** *** Entries that are neither removed nor replaced *)
Lemma cp_new_file (src tgt : abspath) (fs : filesystem) q x :
  ~ tgt `prefix_of` q ->
  (FS.cp src tgt fs).2 !! q = Some x -> fs !! q = Some x.
Proof. intros Hq. rewrite cp_frame by exact Hq. auto. Qed.

Lemma mkdir_p_new_file (p : abspath) (fs : filesystem) q x :
  (FS.mkdir_p p fs).2 !! q = Some (File x) -> fs !! q = Some (File x).
Proof.
  intros H. destruct (fs !! q) as [n |] eqn:Hq.
  - rewrite (mkdir_p_keeps p fs _ _ Hq) in H. exact H.
  - destruct (mkdir_p_adds p fs _ Hq) as [H' | [H' _]];
      rewrite H' in H; discriminate.
Qed.

Lemma copy_into_outside (src : abspath) (tgt : Path.joined)
    (fs : filesystem) q :
  ~ Path.components tgt `prefix_of` q ->
  (forall x, fs !! q = Some x -> (copy_into src tgt fs).2 !! q = Some x)
  /\ (forall x, (copy_into src tgt fs).2 !! q = Some (File x) ->
                fs !! q = Some (File x)).
Proof.
  intros Hq. unfold copy_into.
  assert (Hm : (forall x, fs !! q = Some x ->
                          (FS.mkdir_p (Path.dirname_joined tgt) fs).2 !! q
                          = Some x)
               /\ (forall x, (FS.mkdir_p (Path.dirname_joined tgt) fs).2 !! q
                             = Some (File x) -> fs !! q = Some (File x))).
  { split; intros x; [apply mkdir_p_keeps | apply mkdir_p_new_file]. }
  destruct (FS.mkdir_p (Path.dirname_joined tgt) fs).1; [| exact Hm].
  destruct (FS.existsSync _ src); [| exact Hm].
  cbn [snd]. rewrite cp_to_frame by exact Hq. exact Hm.
Qed.

Lemma remove_at_outside (p : Path.joined) (fs : filesystem) q :
  q <> Path.components p ->
  (forall x, fs !! q = Some x -> (remove_at p fs).2 !! q = Some x)
  /\ (forall x, (remove_at p fs).2 !! q = Some (File x) ->
                fs !! q = Some (File x)).
Proof. intros Hq. rewrite remove_at_frame by exact Hq. auto. Qed.

Lemma rename_into_outside (src : abspath) (old tgt : Path.joined)
    (fs : filesystem) q :
  q <> Path.components old ->
  ~ Path.components tgt `prefix_of` q ->
  (forall x, fs !! q = Some x -> (rename_into src old tgt fs).2 !! q = Some x)
  /\ (forall x, (rename_into src old tgt fs).2 !! q = Some (File x) ->
                fs !! q = Some (File x)).
Proof.
  intros Hold Hq. unfold rename_into.
  pose proof (remove_at_frame old fs q Hold) as Hr.
  destruct (remove_at old fs) as [[|] fs1]; cbn [fst snd] in *;
    [| rewrite Hr; auto].
  destruct (FS.existsSync fs1 src); cbn [snd]; [| rewrite Hr; auto].
  assert (Hm : (forall x, fs !! q = Some x ->
                          (FS.mkdir_p (Path.dirname_joined tgt) fs1).2 !! q
                          = Some x)
               /\ (forall x, (FS.mkdir_p (Path.dirname_joined tgt) fs1).2 !! q
                             = Some (File x) -> fs !! q = Some (File x))).
  { rewrite <- Hr.
    split; intros x; [apply mkdir_p_keeps | apply mkdir_p_new_file]. }
  destruct (FS.mkdir_p (Path.dirname_joined tgt) fs1).1; cbn [snd];
    [| exact Hm].
  rewrite cp_to_frame by exact Hq. exact Hm.
Qed.

(** *** Paths below the package directory *)
Lemma norm_step_plain (stack : list string) (seg : string) :
  seg <> ".." ->
  Path.norm_step stack seg = stack \/ Path.norm_step stack seg = seg :: stack.
Proof.
  intros H. unfold Path.norm_step.
  destruct (String.eqb seg ""); [auto |].
  destruct (String.eqb seg "."); [auto |].
  destruct (String.eqb_spec seg ".."); [contradiction | auto].
Qed.

Lemma fold_norm_plain (segs stack : list string) :
  Forall (fun seg => seg <> "..") segs ->
  exists more, fold_left Path.norm_step segs stack = more ++ stack.
Proof.
  revert stack. induction segs as [| seg segs IH]; intros stack H.
  - exists []. reflexivity.
  - inversion H as [| ? ? Hseg Hrest]; subst. cbn [fold_left].
    destruct (norm_step_plain stack seg Hseg) as [-> | ->].
    + apply IH, Hrest.
    + destruct (IH (seg :: stack) Hrest) as [more ->].
      exists (more ++ [seg]). rewrite <- app_assoc. reflexivity.
Qed.

Lemma normalize_from_plain (base : abspath) (segs : list string) :
  Forall (fun seg => seg <> "..") segs ->
  base `prefix_of` Path.normalize_from base segs.
Proof.
  intros H. unfold Path.normalize_from.
  destruct (fold_norm_plain segs (rev base) H) as [more ->].
  rewrite rev_app_distr, rev_involutive. exists (rev more). reflexivity.
Qed.

Lemma normalize_from_app (base : abspath) (a b : list string) :
  Path.normalize_from base (a ++ b)
  = Path.normalize_from (Path.normalize_from base a) b.
Proof.
  unfold Path.normalize_from. rewrite fold_left_app, rev_involutive.
  reflexivity.
Qed.

Lemma join_below (base : abspath) (pkg p : string) :
  plain p -> Path.join base [pkg] `prefix_of` Path.join base [pkg; p].
Proof.
  intros Hp. unfold Path.join. cbn [map concat].
  rewrite !app_nil_r, normalize_from_app. apply normalize_from_plain, Hp.
Qed.

Lemma resolve_below (base : abspath) (p : string) :
  plain p -> Path.is_absolute p = false ->
  base `prefix_of` Path.resolve base [p].
Proof.
  intros Hp Habs. unfold Path.resolve. cbn [fold_left]. rewrite Habs.
  apply normalize_from_plain, Hp.
Qed.

(** *** Directories are never removed *)

Lemma cp_keeps_dir (src tgt : abspath) (fs : filesystem) (p : abspath) :
  fs !! p = Some Dir -> (FS.cp src tgt fs).2 !! p = Some Dir.
Proof.
  intros Hp. destruct (cp_effect src tgt fs)
    as [[-> _] | (dst & content & -> & _ & Hnd & _ & _ & _)]; [exact Hp |].
  cbn [snd]. rewrite lookup_insert_ne; [exact Hp | congruence].
Qed.

Lemma rm_keeps_dir (q : abspath) (fs : filesystem) (p : abspath) :
  fs !! p = Some Dir -> (FS.rm q fs).2 !! p = Some Dir.
Proof.
  intros Hp. unfold FS.rm.
  destruct (FS.stat fs q) as [[x |] |] eqn:Hq; try exact Hp.
  cbn [snd]. rewrite lookup_delete_ne; [exact Hp |].
  intros ->. destruct p; [discriminate |]. cbn [FS.stat] in Hq. congruence.
Qed.

Lemma copy_into_keeps_dir (src : abspath) (tgt : Path.joined)
    (fs : filesystem) (p : abspath) :
  fs !! p = Some Dir -> (copy_into src tgt fs).2 !! p = Some Dir.
Proof. intros Hp. apply (copy_into_stable src tgt fs p), Hp. Qed.

Lemma cp_to_keeps_dir (src : abspath) (tgt : Path.joined) (fs : filesystem)
    (p : abspath) :
  fs !! p = Some Dir -> (FS.cp_to src tgt fs).2 !! p = Some Dir.
Proof.
  intros Hp. destruct (cp_to_cases src tgt fs) as [-> | ->]; [| exact Hp].
  apply cp_keeps_dir, Hp.
Qed.

Lemma remove_at_keeps_dir (q : Path.joined) (fs : filesystem) (p : abspath) :
  fs !! p = Some Dir -> (remove_at q fs).2 !! p = Some Dir.
Proof.
  intros Hp. unfold remove_at. destruct (FS.existsSync_at fs q); [| exact Hp].
  destruct (rm_at_cases q fs) as [-> | ->]; [| exact Hp].
  apply rm_keeps_dir, Hp.
Qed.

Lemma rename_into_keeps_dir (src : abspath) (old tgt : Path.joined)
    (fs : filesystem) (p : abspath) :
  fs !! p = Some Dir -> (rename_into src old tgt fs).2 !! p = Some Dir.
Proof.
  intros Hp. unfold rename_into.
  pose proof (remove_at_keeps_dir old fs p Hp) as Hr.
  destruct (remove_at old fs) as [[|] fs1]; cbn [fst snd] in *; [| exact Hr].
  destruct (FS.existsSync fs1 src); cbn [snd]; [| exact Hr].
  pose proof (mkdir_p_keeps (Path.dirname_joined tgt) fs1 _ _ Hr) as Hm.
  destruct (FS.mkdir_p (Path.dirname_joined tgt) fs1).1; cbn [snd];
    [| exact Hm].
  apply cp_to_keeps_dir, Hm.
Qed.

Lemma change_effect_keeps_dir (E : Env) (c : Change) (fs : filesystem)
    (p : abspath) :
  fs !! p = Some Dir -> (change_effect E c fs).2 !! p = Some Dir.
Proof.
  intros Hp. unfold change_effect.
  destruct (getenv E "MONOREPO_PACKAGE_LOCATION") as [pkg |]; [| exact Hp].
  destruct (_ || _)%bool; [apply copy_into_keeps_dir, Hp |].
  destruct (String.eqb _ "removed"); [apply remove_at_keeps_dir, Hp |].
  destruct (String.eqb _ "renamed"); [| exact Hp].
  destruct (previous_path c); [apply rename_into_keeps_dir, Hp | exact Hp].
Qed.

(** *** From one change to a replay *)

(** A relation on file systems that every step of a replay respects holds
    between the file system before and after the replay; the replay keeps
    the working directory and never ends the process. *)
Lemma replay_invariant (E : Env) (R : filesystem -> filesystem -> Prop)
    (cs : list Change) :
  (forall fs, R fs fs) ->
  (forall fa fb fc : filesystem, R fa fb -> R fb fc -> R fa fc) ->
  (forall c (fs : filesystem), In c cs -> R fs (change_effect E c fs).2) ->
  forall w r w',
    replay E cs w = (r, w') ->
    R (w_fs w) (w_fs w')
    /\ w_cwd w' = w_cwd w
    /\ (forall code, r <> Exit code)
    /\ w_trace w `prefix_of` w_trace w'.
Proof.
  intros Hrefl Htrans. unfold replay.
  induction cs as [| c cs IH]; intros Hstep w r w' Hrun; cbn [for_of] in Hrun.
  - inversion Hrun; subst. repeat split; auto; discriminate.
  - destruct (syncChange_effect E c w) as (r0 & evs & Hc & Hok & Hko).
    pose proof (Hstep c (w_fs w) (or_introl eq_refl)) as Hfs.
    unfold bind in Hrun. rewrite Hc in Hrun.
    destruct (change_effect E c (w_fs w)).1.
    + rewrite (Hok eq_refl) in Hrun.
      apply IH in Hrun as (HR & Hcwd & Hexit & Hpre);
        [| intros; apply Hstep; right; assumption].
      cbn [w_fs w_cwd w_trace] in *. repeat split; eauto.
      etransitivity; [| exact Hpre]. apply prefix_app_r. reflexivity.
    + destruct (Hko eq_refl) as [e ->]. inversion Hrun; subst.
      cbn [w_fs w_cwd w_trace]. repeat split; auto; try discriminate.
      apply prefix_app_r. reflexivity.
Qed.

Lemma change_effect_outside (E : Env) (pkg : string) (c : Change)
    (fs : filesystem) (q : abspath) :
  getenv E "MONOREPO_PACKAGE_LOCATION" = Some pkg ->
  plain_change c ->
  ~ Path.join (TEMP_DIR E) [pkg] `prefix_of` q ->
  (forall x, fs !! q = Some x -> (change_effect E c fs).2 !! q = Some x)
  /\ (forall x, (change_effect E c fs).2 !! q = Some (File x) ->
                fs !! q = Some (File x)).
Proof.
  intros Hpkg [Hpath Hprev] Hq. unfold change_effect. rewrite Hpkg.
  assert (Htgt : ~ Path.components (targetJoined E pkg c) `prefix_of` q).
  { intros H. apply Hq. etransitivity; [| exact H].
    apply (join_below (TEMP_DIR E) pkg (path c)), Hpath. }
  destruct (_ || _)%bool; [apply copy_into_outside, Htgt |].
  destruct (String.eqb _ "removed").
  { apply remove_at_outside. intros ->. apply Htgt. reflexivity. }
  destruct (String.eqb _ "renamed"); [| auto].
  destruct (previous_path c) as [prev |]; [| auto].
  apply rename_into_outside; [| exact Htgt].
  intros ->. apply Hq.
  apply (join_below (TEMP_DIR E) pkg prev), Hprev. reflexivity.
Qed.

(** ** Removed entries *)

(** Under a name that ends in "/" nothing but a directory is found, so
    the removal branch leaves a regular file alone. *)
Lemma remove_at_slash (p : Path.joined) (fs : filesystem) :
  Path.trailing p = true ->
  FS.stat fs (Path.components p) <> Some Dir ->
  remove_at p fs = (true, fs) /\ FS.existsSync_at fs p = false.
Proof.
  intros Ht Hdir. unfold remove_at, FS.existsSync_at, FS.is_dir. rewrite Ht.
  destruct (FS.stat fs (Path.components p)) as [[x |] |]; auto.
  congruence.
Qed.

(** X1. A Removed entry whose translated location is a regular file or is
    missing: [syncChange] returns normally; when the path of the entry
    does not end in "/" the file system afterwards is the one before
    without that location, and when it does end in "/" the file system is
    unchanged (a regular file is not found under its name with a "/", so
    no [rm] runs and the file stays); applying the same entry again
    returns normally, changes nothing and runs no command. *)
Theorem removed_entry_deletes_the_file
    (E : Env) (c : Change) (w : World) (pkg : string) :
  status c = "removed" ->
  getenv E "MONOREPO_PACKAGE_LOCATION" = Some pkg ->
  FS.stat (w_fs w) (targetPath E pkg c) <> Some Dir ->
  exists w',
    syncChange E c w = (Ret tt, w')
    /\ w_fs w' = (if Path.join_trailing [pkg; path c]
                  then w_fs w
                  else delete (targetPath E pkg c) (w_fs w))
    /\ exists w'',
        syncChange E c w' = (Ret tt, w'')
        /\ w_fs w'' = w_fs w'
        /\ Forall (fun e => only_console e = true)
             (drop (length (w_trace w')) (w_trace w'')).
Proof.
  intros Hs Hpkg Hdir.
  destruct (syncChange_removes E c w pkg Hs Hpkg) as (evs & Hrun & _).
  destruct (Path.join_trailing [pkg; path c]) eqn:Hslash.
  - assert (Ht : Path.trailing (targetJoined E pkg c) = true) by exact Hslash.
    destruct (remove_at_slash _ _ Ht Hdir) as [Hrm _].
    rewrite Hrm in Hrun. cbn [fst snd] in Hrun.
    eexists. split; [exact Hrun |]. cbn [w_fs w_cwd w_trace].
    split; [reflexivity |].
    set (w' := {| w_fs := w_fs w; w_cwd := w_cwd w;
                  w_trace := w_trace w ++ evs |}).
    destruct (syncChange_removes E c w' pkg Hs Hpkg)
      as (evs' & Hrun' & Hquiet).
    destruct (remove_at_slash (targetJoined E pkg c) (w_fs w') Ht Hdir)
      as [Hrm' Hex'].
    rewrite Hrm' in Hrun'. cbn [fst snd] in Hrun'.
    eexists. split; [exact Hrun' |]. cbn [w_fs w_trace].
    split; [reflexivity |].
    rewrite drop_app_length. apply Hquiet, Hex'.
  - unfold targetJoined in Hrun.
    rewrite (join_kept_exact (TEMP_DIR E) [pkg; path c] Hslash) in Hrun.
    fold (targetPath E pkg c) in Hrun.
    rewrite (remove_at_deletes _ _ Hdir) in Hrun. cbn [fst snd] in Hrun.
    eexists. split; [exact Hrun |]. cbn [w_fs w_cwd w_trace].
    split; [reflexivity |].
    set (w' := {| w_fs := delete (targetPath E pkg c) (w_fs w);
                  w_cwd := w_cwd w; w_trace := w_trace w ++ evs |}).
    assert (Hgone : FS.stat (w_fs w') (targetPath E pkg c) = None).
    { apply stat_delete_eq. eapply stat_not_root, Hdir. }
    destruct (syncChange_removes E c w' pkg Hs Hpkg)
      as (evs' & Hrun' & Hquiet).
    assert (Hex' : FS.existsSync_at (w_fs w') (targetJoined E pkg c) = false)
      by (apply existsSync_at_missing; exact Hgone).
    unfold remove_at in Hrun'. rewrite Hex' in Hrun'.
    cbn [fst snd] in Hrun'. eexists. split; [exact Hrun' |].
    cbn [w_fs w_trace]. split; [reflexivity |].
    rewrite drop_app_length. apply Hquiet, Hex'.
Qed.

Lemma removed_entry_deletes_the_file_witness :
  (exists w',
     syncChange Demo.env Removal.removed_old (Demo.world_of Moves.package)
     = (Ret tt, w')
     /\ w_fs w' = delete Moves.old_b Moves.package)
  /\ (exists w',
        syncChange Demo.env Removal.removed_slash
          (Demo.world_of Moves.package)
        = (Ret tt, w')
        /\ w_fs w' = Moves.package).
Proof.
  split.
  - destruct (removed_entry_deletes_the_file Demo.env Removal.removed_old
                (Demo.world_of Moves.package) "apps/server" eq_refl eq_refl)
      as (w' & Hrun & Hfs & _).
    + vm_compute. discriminate.
    + exists w'. split; [exact Hrun | exact Hfs].
  - destruct (removed_entry_deletes_the_file Demo.env Removal.removed_slash
                (Demo.world_of Moves.package) "apps/server" eq_refl eq_refl)
      as (w' & Hrun & Hfs & _).
    + vm_compute. discriminate.
    + exists w'. split; [exact Hrun | exact Hfs].
Defined.

(** X2. A Removed entry whose translated location is a directory: [rm]
    without flags refuses it, so [syncChange] raises the failure of the
    command (exit status 1) and the file system is left as it was. *)
Theorem removed_entry_on_directory_raises
    (E : Env) (c : Change) (w : World) (pkg : string) :
  status c = "removed" ->
  getenv E "MONOREPO_PACKAGE_LOCATION" = Some pkg ->
  FS.stat (w_fs w) (targetPath E pkg c) = Some Dir ->
  exists w',
    syncChange E c w = (Throw (ProcessOutput 1 ""), w')
    /\ w_fs w' = w_fs w
    /\ last (w_trace w')
       = Some (EvProc (w_cwd w) (CmdRm (targetJoined E pkg c)) 1 "").
Proof.
  intros Hs Hpkg Hdir. unfold syncChange.
  rewrite Hs, Hpkg, path_join_defined.
  change (String.eqb "removed" "added" || String.eqb "removed" "modified")%bool
    with false.
  change (String.eqb "removed" "removed") with true.
  fold (targetJoined E pkg c). mred.
  rewrite (existsSync_at_dir (w_fs w) (targetJoined E pkg c) Hdir).
  run_exec. rewrite (rm_at_dir (w_fs w) (targetJoined E pkg c) Hdir).
  cbn [fst snd Z.eqb].
  eexists. split; [reflexivity |]. cbn [w_fs w_trace].
  split; [reflexivity |]. rewrite last_snoc. reflexivity.
Qed.

Lemma removed_entry_on_directory_raises_witness :
  exists w',
    syncChange Demo.env Removal.removed_a (Demo.world_of Moves.package)
    = (Throw (ProcessOutput 1 ""), w')
    /\ w_fs w' = Moves.package.
Proof.
  destruct (removed_entry_on_directory_raises Demo.env Removal.removed_a
              (Demo.world_of Moves.package) "apps/server" eq_refl eq_refl)
    as (w' & Hrun & Hfs & _).
  - vm_compute. reflexivity.
  - exists w'. split; [exact Hrun | exact Hfs].
Defined.

(** ** Entries that cannot be applied *)

(** X3. The replay engine reads the package location from the environment
    and not from the constant MONOREPO_PACKAGE_LOCATION: when the variable
    is not set the constant is "apps/formio-server", and yet the replay of
    a non-empty change list raises a [TypeError] at its first entry, after
    that entry's log line and before any command. *)
Theorem replay_without_package_location
    (E : Env) (c : Change) (rest : list Change) (w : World) :
  getenv E "MONOREPO_PACKAGE_LOCATION" = None ->
  MONOREPO_PACKAGE_LOCATION E = "apps/formio-server"
  /\ replay E (c :: rest) w =
     (Throw (TypeError "path.join"),
      {| w_fs := w_fs w; w_cwd := w_cwd w;
         w_trace := w_trace w
                    ++ [EvConsole LLog [AStr "Syncing change:"; AChange c]] |}).
Proof.
  intros Hpkg. split.
  - unfold MONOREPO_PACKAGE_LOCATION. rewrite Hpkg. reflexivity.
  - unfold replay. cbn [for_of]. unfold bind.
    rewrite (syncChange_unconfigured_run E c w Hpkg). reflexivity.
Qed.

Lemma replay_without_package_location_witness :
  (replay Bare.env Twice.changes (Demo.world_of Twice.tree)).1
  = Throw (TypeError "path.join").
Proof.
  unfold Twice.changes.
  rewrite (proj2 (replay_without_package_location Bare.env _ _
                    (Demo.world_of Twice.tree) eq_refl)).
  reflexivity.
Defined.

(** X4. A Renamed entry that carries no previous path makes [syncChange]
    raise a [TypeError] when it computes the previous location: only the
    log line of the entry has been written, no command has run, and the
    file at the new path is not copied. *)
Theorem renamed_without_previous_path_raises
    (E : Env) (c : Change) (w : World) (pkg : string) :
  status c = "renamed" ->
  previous_path c = None ->
  getenv E "MONOREPO_PACKAGE_LOCATION" = Some pkg ->
  syncChange E c w =
  (Throw (TypeError "path.join"),
   {| w_fs := w_fs w; w_cwd := w_cwd w;
      w_trace := w_trace w
                 ++ [EvConsole LLog [AStr "Syncing change:"; AChange c]] |}).
Proof.
  intros Hs Hprev Hpkg. unfold syncChange.
  rewrite Hs, Hpkg, Hprev, path_join_defined, path_join_no_previous.
  reflexivity.
Qed.

Lemma renamed_without_previous_path_raises_witness :
  (syncChange Demo.env (convert_file Bare.renamed_file)
     (Demo.world_of Demo.staged)).1
  = Throw (TypeError "path.join").
Proof.
  rewrite (renamed_without_previous_path_raises Demo.env
             (convert_file Bare.renamed_file) (Demo.world_of Demo.staged)
             "apps/server" eq_refl eq_refl eq_refl).
  reflexivity.
Defined.

(** ** What a replay leaves alone *)

(** X5. Whatever the change list, a replay never ends the process itself
    and never changes the working directory: it returns or raises, and
    the log it started with is a prefix of the log it leaves. *)
Theorem replay_returns_or_raises
    (E : Env) (cs : list Change) (w w' : World) (r : result unit) :
  replay E cs w = (r, w') ->
  w_cwd w' = w_cwd w
  /\ (r = Ret tt \/ exists e, r = Throw e)
  /\ w_trace w `prefix_of` w_trace w'.
Proof.
  intros Hrun.
  destruct (replay_invariant E (fun _ _ => True) cs) with (4 := Hrun)
    as (_ & Hcwd & Hexit & Hpre); auto.
  repeat split; auto.
  destruct r as [[] | code | e]; eauto. destruct (Hexit code eq_refl).
Qed.

Lemma replay_returns_or_raises_witness :
  w_cwd (replay Demo.env [Removal.removed_a; Demo.added_b]
           (Demo.world_of Moves.package)).2
  = ["work"; "repo"].
Proof.
  assert (Hrun : replay Demo.env [Removal.removed_a; Demo.added_b]
                   (Demo.world_of Moves.package)
                 = (Throw (ProcessOutput 1 ""),
                    (replay Demo.env [Removal.removed_a; Demo.added_b]
                       (Demo.world_of Moves.package)).2))
    by (apply run_split; vm_compute; reflexivity).
  exact (proj1 (replay_returns_or_raises _ _ _ _ _ Hrun)).
Defined.

(** X6. One change touches three places at most: the translated location
    and what lies below it, the directories on the way to it, and the
    translated previous location.  Every other path holds after
    [syncChange] what it held before, whether the call returns or
    raises. *)
Theorem syncChange_frame
    (E : Env) (c : Change) (w w' : World) (r : result unit) (pkg : string)
    (q : abspath) :
  getenv E "MONOREPO_PACKAGE_LOCATION" = Some pkg ->
  syncChange E c w = (r, w') ->
  ~ q `prefix_of` Path.dirname (targetPath E pkg c) ->
  ~ targetPath E pkg c `prefix_of` q ->
  (forall prev, previous_path c = Some prev ->
                q <> Path.join (TEMP_DIR E) [pkg; prev]) ->
  w_fs w' !! q = w_fs w !! q.
Proof.
  intros Hpkg Hrun Hup Hdown Hold.
  destruct (syncChange_effect E c w) as (r0 & evs & Hc & _).
  rewrite Hc in Hrun. inversion Hrun; subst r0 w'. cbn [w_fs].
  unfold change_effect. rewrite Hpkg.
  destruct (_ || _)%bool; [apply copy_into_frame; [exact Hup | exact Hdown] |].
  destruct (String.eqb _ "removed").
  { apply remove_at_frame. intros ->. apply Hdown. reflexivity. }
  destruct (String.eqb _ "renamed"); [| reflexivity].
  destruct (previous_path c) as [prev |]; [| reflexivity].
  apply rename_into_frame; [exact (Hold prev eq_refl) | exact Hup | exact Hdown].
Qed.

Lemma syncChange_frame_witness :
  w_fs (syncChange Demo.env Moves.renamed_b (Demo.world_of Moves.package)).2
    !! (Clash.lib_target ++ ["helpers.js"])
  = Some (File "h").
Proof.
  assert (Hrun : syncChange Demo.env Moves.renamed_b
                   (Demo.world_of Moves.package)
                 = (Ret tt,
                    (syncChange Demo.env Moves.renamed_b
                       (Demo.world_of Moves.package)).2))
    by (apply run_split; vm_compute; reflexivity).
  rewrite (syncChange_frame Demo.env Moves.renamed_b _ _ _ "apps/server"
             (Clash.lib_target ++ ["helpers.js"]) eq_refl Hrun).
  - vm_compute. reflexivity.
  - apply (bool_decide_unpack _). vm_compute. exact I.
  - apply (bool_decide_unpack _). vm_compute. exact I.
  - intros prev Hprev. inversion Hprev; subst prev. vm_compute. discriminate.
Defined.

(** X7. A replay of entries whose paths and previous paths have no ".."
    segment stays inside the package directory: at a path that is not the
    package directory or below it, whatever was there before is there
    afterwards, and a regular file found there afterwards was there
    before (the directories leading to the package may be created). *)
Theorem replay_stays_in_package
    (E : Env) (pkg : string) (cs : list Change) (w w' : World)
    (r : result unit) (q : abspath) :
  getenv E "MONOREPO_PACKAGE_LOCATION" = Some pkg ->
  Forall plain_change cs ->
  replay E cs w = (r, w') ->
  ~ Path.join (TEMP_DIR E) [pkg] `prefix_of` q ->
  (forall x, w_fs w !! q = Some x -> w_fs w' !! q = Some x)
  /\ (forall x, w_fs w' !! q = Some (File x) -> w_fs w !! q = Some (File x)).
Proof.
  intros Hpkg Hcs Hrun Hq.
  destruct (replay_invariant E
              (fun fa fb : filesystem =>
                 (forall x, fa !! q = Some x -> fb !! q = Some x)
                 /\ (forall x, fb !! q = Some (File x) ->
                               fa !! q = Some (File x))) cs)
    with (4 := Hrun) as (H & _); [auto | | | exact H].
  - intros fa fb fc [H1 H2] [H3 H4]. split; eauto.
  - intros c fs Hin. apply change_effect_outside with (pkg := pkg); auto.
    rewrite List.Forall_forall in Hcs. apply Hcs, Hin.
Qed.

Lemma replay_stays_in_package_witness :
  w_fs (replay Demo.env [Moves.renamed_b; Removal.removed_a; Demo.added_b]
          (Demo.world_of Moves.package)).2
    !! ["work"; "repo"; "a"; "b.txt"]
  = Some (File "hello").
Proof.
  assert (Hrun : replay Demo.env
                   [Moves.renamed_b; Removal.removed_a; Demo.added_b]
                   (Demo.world_of Moves.package)
                 = (Throw (ProcessOutput 1 ""),
                    (replay Demo.env
                       [Moves.renamed_b; Removal.removed_a; Demo.added_b]
                       (Demo.world_of Moves.package)).2))
    by (apply run_split; vm_compute; reflexivity).
  assert (Hplain : Forall plain_change
                     [Moves.renamed_b; Removal.removed_a; Demo.added_b]).
  { repeat apply Forall_cons_2; try apply Forall_nil_2; split;
      try (intros prev Hprev; inversion Hprev; subst prev);
      apply (bool_decide_unpack _); vm_compute; exact I. }
  apply (replay_stays_in_package Demo.env "apps/server" _ _ _ _
           ["work"; "repo"; "a"; "b.txt"] eq_refl Hplain Hrun).
  - apply (bool_decide_unpack _). vm_compute. exact I.
  - vm_compute. reflexivity.
Defined.

(** X8. A replay never removes a directory and never puts a file in its
    place, whatever the entries say: every directory of the file system
    before the replay is a directory afterwards. *)
Theorem replay_keeps_directories
    (E : Env) (cs : list Change) (w w' : World) (r : result unit)
    (p : abspath) :
  replay E cs w = (r, w') ->
  w_fs w !! p = Some Dir ->
  w_fs w' !! p = Some Dir.
Proof.
  intros Hrun.
  destruct (replay_invariant E
              (fun fa fb : filesystem =>
                 fa !! p = Some Dir -> fb !! p = Some Dir) cs)
    with (4 := Hrun) as (H & _); auto.
  intros c fs _. apply change_effect_keeps_dir.
Qed.

Lemma replay_keeps_directories_witness :
  w_fs (replay Demo.env [Removal.removed_old; Removal.removed_a]
          (Demo.world_of Moves.package)).2
    !! ["work"; "tmp"; "formio-monorepo"; "apps"; "server"; "a"]
  = Some Dir.
Proof.
  assert (Hrun : replay Demo.env [Removal.removed_old; Removal.removed_a]
                   (Demo.world_of Moves.package)
                 = (Throw (ProcessOutput 1 ""),
                    (replay Demo.env [Removal.removed_old; Removal.removed_a]
                       (Demo.world_of Moves.package)).2))
    by (apply run_split; vm_compute; reflexivity).
  apply (replay_keeps_directories _ _ _ _ _ _ Hrun).
  vm_compute. reflexivity.
Defined.

(** X9. A replay of Added and Modified entries only adds: every directory
    stays a directory and every regular file stays a regular file (its
    content may be replaced), also when the replay stops at a command
    that fails. *)
Theorem copies_only_add
    (E : Env) (cs : list Change) (w w' : World) (r : result unit) :
  Forall copies cs ->
  replay E cs w = (r, w') ->
  stable (w_fs w) (w_fs w').
Proof.
  intros Hcs Hrun.
  destruct (getenv E "MONOREPO_PACKAGE_LOCATION") as [pkg |] eqn:Hpkg.
  - destruct (replay_copies E pkg cs w Hcs Hpkg) as (evs & Heq).
    rewrite Heq in Hrun. inversion Hrun; subst. cbn [w_fs].
    apply copy_all_stable.
  - destruct (replay_unconfigured E cs w Hpkg) as (evs & Heq).
    rewrite Heq in Hrun. inversion Hrun; subst. cbn [w_fs].
    apply stable_refl.
Qed.

Lemma copies_only_add_witness :
  stable Twice.tree
    (w_fs (replay Demo.env Twice.changes (Demo.world_of Twice.tree)).2).
Proof.
  assert (Hrun : replay Demo.env Twice.changes (Demo.world_of Twice.tree)
                 = (Ret tt,
                    (replay Demo.env Twice.changes
                       (Demo.world_of Twice.tree)).2))
    by (apply run_split; vm_compute; reflexivity).
  apply (copies_only_add Demo.env Twice.changes _ _ _) with (2 := Hrun).
  repeat apply Forall_cons_2; try apply Forall_nil_2;
    (left; reflexivity) || (right; reflexivity).
Defined.

(** ** The loop *)

(** X26. The replay has no rollback and no skipping: when an entry raises,
    the replay raises the same error in the same world, so the entries
    before it stay applied and the entries after it are not looked at. *)
Theorem replay_stops_at_first_failure
    (E : Env) (before : list Change) (c : Change) (after : list Change)
    (w w1 w2 : World) (e : exn) :
  replay E before w = (Ret tt, w1) ->
  syncChange E c w1 = (Throw e, w2) ->
  replay E (before ++ c :: after) w = (Throw e, w2).
Proof.
  unfold replay. revert w.
  induction before as [| c0 before IH]; intros w Hbefore Hc;
    cbn [for_of app] in *.
  - injection Hbefore as <-. unfold bind. rewrite Hc. reflexivity.
  - unfold bind in *. destruct (syncChange E c0 w) as [[[] | code | e0] w0];
      try discriminate.
    apply IH; assumption.
Qed.

Lemma replay_stops_at_first_failure_witness :
  (replay Demo.env ([Removal.removed_old] ++ Removal.removed_a :: [Demo.added_b])
     (Demo.world_of Moves.package)).1
  = Throw (ProcessOutput 1 "").
Proof.
  assert (Hbefore : replay Demo.env [Removal.removed_old]
                      (Demo.world_of Moves.package)
                    = (Ret tt,
                       (replay Demo.env [Removal.removed_old]
                          (Demo.world_of Moves.package)).2))
    by (apply run_split; vm_compute; reflexivity).
  assert (Hc : syncChange Demo.env Removal.removed_a
                 (replay Demo.env [Removal.removed_old]
                    (Demo.world_of Moves.package)).2
               = (Throw (ProcessOutput 1 ""),
                  (syncChange Demo.env Removal.removed_a
                     (replay Demo.env [Removal.removed_old]
                        (Demo.world_of Moves.package)).2).2))
    by (apply run_split; vm_compute; reflexivity).
  rewrite (replay_stops_at_first_failure Demo.env [Removal.removed_old]
             Removal.removed_a [Demo.added_b] _ _ _ _ Hbefore Hc).
  reflexivity.
Defined.

(** * More of change-set retrieval *)

Lemma convert_file_well_formed (file : FileDesc) :
  well_formed (convert_file file).
Proof.
  unfold well_formed, convert_file, recognised. cbn [status previous_path].
  destruct (String.eqb (file_status file) "added");
    [split; [tauto | reflexivity] |].
  destruct (String.eqb (file_status file) "modified");
    [split; [tauto | reflexivity] |].
  destruct (String.eqb (file_status file) "removed");
    [split; [tauto | reflexivity] |].
  destruct (String.eqb (file_status file) "renamed").
  - split; [tauto | intros H; destruct H; reflexivity].
  - split; [tauto | reflexivity].
Qed.

Lemma convert_file_keeps_status (file : FileDesc) :
  recognised (file_status file) ->
  status (convert_file file) = file_status file.
Proof.
  unfold convert_file. cbn [status]. intros [H | [H | [H | H]]];
    rewrite H; reflexivity.
Qed.

Lemma filter_sublist {A} (f : A -> bool) (l : list A) :
  List.filter f l `sublist_of` l.
Proof.
  induction l as [| a l IH]; cbn [List.filter]; [constructor |].
  destruct (f a); [apply sublist_skip | apply sublist_cons]; exact IH.
Qed.

Lemma filter_Forall {A} (f : A -> bool) (l : list A) :
  Forall (fun a => f a = true) (List.filter f l).
Proof.
  apply Forall_forall. intros a Hin. apply list_elem_of_In in Hin.
  apply filter_In in Hin. tauto.
Qed.

(** ** The change list *)

(** X10. Every entry of the list [getPRChanges] returns has one of the
    five statuses added, modified, removed, renamed and unknown, and
    carries a previous path only when it is renamed; the entries come in
    the order of the file list the API sent, with the same paths and,
    where the API's status is one of the four it knows, the same status.
    Retrieval leaves file system and working directory alone. *)
Theorem getPRChanges_well_formed
    (E : Env) (n : Z) (w w1 : World) (changes : list Change) :
  getPRChanges E n w = (Ret changes, w1) ->
  Forall well_formed changes
  /\ (exists rs files,
         http E (api_get E (api_repo E +:+ "/pulls/" +:+ JS.string_of_Z n
                            +:+ "/files")) = Some rs
         /\ rs_json rs = Some (JFiles files)
         /\ map path changes = map filename files
         /\ Forall2 (fun file c =>
                       recognised (file_status file) ->
                       status c = file_status file
                       /\ (status c = "renamed" ->
                           previous_path c = previous_filename file))
              files changes)
  /\ w_fs w1 = w_fs w.
Proof.
  intros H. apply getPRChanges_inv in H as (rs & files & Hrs & _ & Hj & -> & Hfs).
  split; [| split; [| exact Hfs]].
  - apply Forall_fmap, Forall_forall. intros file _.
    apply convert_file_well_formed.
  - exists rs, files. repeat split; try assumption.
    + rewrite <- list_fmap_compose. reflexivity.
    + apply Forall2_fmap_r, Forall_Forall2_diag, Forall_forall.
      intros file _ Hrec. split; [apply convert_file_keeps_status, Hrec |].
      unfold convert_file. cbn [status previous_path]. intros ->. reflexivity.
Qed.

Lemma getPRChanges_well_formed_witness :
  Forall well_formed (map convert_file Demo.files).
Proof.
  assert (Hrun : getPRChanges Demo.env 17 (Demo.world_of Demo.staged)
                 = (Ret (map convert_file Demo.files),
                    (getPRChanges Demo.env 17 (Demo.world_of Demo.staged)).2))
    by (apply run_split; vm_compute; reflexivity).
  exact (proj1 (getPRChanges_well_formed _ _ _ _ _ Hrun)).
Defined.

(** ** Answers that are not ok *)

(** X11. When the API answers the file-list request with a status that
    is not ok, [getPRChanges] ends the process with status 1: it has
    logged its two lines, sent the one request and logged one error line
    with the status, and nothing else has happened. *)
Theorem getPRChanges_refused
    (E : Env) (n : Z) (w : World) (rs : Response) :
  http E (api_get E (api_repo E +:+ "/pulls/" +:+ JS.string_of_Z n
                     +:+ "/files")) = Some rs ->
  ok rs = false ->
  getPRChanges E n w =
  (Exit 1,
   {| w_fs := w_fs w; w_cwd := w_cwd w;
      w_trace :=
        w_trace w
        ++ [EvConsole LLog
              [AStr ("Getting changes for PR #" +:+ JS.string_of_Z n
                     +:+ "...")];
            EvConsole LLog
              [AStr ("Fetching changes from: " +:+ api_repo E +:+ "/pulls/"
                     +:+ JS.string_of_Z n +:+ "/files")];
            EvFetch (api_get E (api_repo E +:+ "/pulls/"
                                +:+ JS.string_of_Z n +:+ "/files"))
              (Some rs);
            api_error rs] |}).
Proof.
  intros Hrs Hok. unfold getPRChanges. mred. rewrite Hrs. mred.
  rewrite Hok. mred. rewrite <- !app_assoc. reflexivity.
Qed.

Lemma getPRChanges_refused_witness :
  (getPRChanges Denied.env 17 (Demo.world_of Demo.staged)).1 = Exit 1.
Proof.
  rewrite (getPRChanges_refused Denied.env 17 (Demo.world_of Demo.staged)
             Denied.unauthorized eq_refl eq_refl).
  reflexivity.
Defined.

(** X12. When the API answers the request for the pull request with a
    status that is not ok, [getPRDetails] ends the process with status 1
    after one log line, the request and one error line. *)
Theorem getPRDetails_refused
    (E : Env) (prNumber : string) (w : World) (rs : Response) :
  http E (api_get E (api_repo E +:+ "/pulls/" +:+ prNumber)) = Some rs ->
  ok rs = false ->
  getPRDetails E prNumber w =
  (Exit 1,
   {| w_fs := w_fs w; w_cwd := w_cwd w;
      w_trace :=
        w_trace w
        ++ [EvConsole LLog
              [AStr ("Getting details for PR #" +:+ prNumber +:+ "...")];
            EvFetch (api_get E (api_repo E +:+ "/pulls/" +:+ prNumber))
              (Some rs);
            api_error rs] |}).
Proof.
  intros Hrs Hok. unfold getPRDetails. mred. rewrite Hrs. mred.
  rewrite Hok. mred. rewrite <- !app_assoc. reflexivity.
Qed.

Lemma getPRDetails_refused_witness :
  (getPRDetails Denied.env "17" (Demo.world_of Demo.staged)).1 = Exit 1.
Proof.
  rewrite (getPRDetails_refused Denied.env "17" (Demo.world_of Demo.staged)
             Denied.unauthorized eq_refl eq_refl).
  reflexivity.
Defined.

(** X13. When the reference reads as a number and the API answers the
    listing request with a status that is not ok, [getMergedPullRequests]
    ends the process with status 1 after two error lines: the status, then
    the body of the answer. *)
Theorem getMergedPullRequests_refused
    (E : Env) (since : JS.value) (w : World) (rs : Response) :
  JS.isNaN (JS.parseInt since) = false ->
  http E (api_get E (api_repo E +:+ "/pulls" +:+ listing_query)) = Some rs ->
  ok rs = false ->
  getMergedPullRequests E since w =
  (Exit 1,
   {| w_fs := w_fs w; w_cwd := w_cwd w;
      w_trace :=
        w_trace w
        ++ [EvConsole LLog
              [AStr ("Getting merged PRs since " +:+ JS.to_string since
                     +:+ "...")];
            EvConsole LLog
              [AStr ("Fetching PRs from: " +:+ api_repo E +:+ "/pulls"
                     +:+ listing_query)];
            EvFetch (api_get E (api_repo E +:+ "/pulls" +:+ listing_query))
              (Some rs);
            api_error rs;
            EvConsole LError [AStr (rs_text rs)]] |}).
Proof.
  intros Hnum Hrs Hok. unfold listing_query in *.
  unfold getMergedPullRequests. rewrite Hnum. mred. rewrite Hrs. mred. rewrite Hok. mred.
  rewrite <- !app_assoc. reflexivity.
Qed.

Lemma getMergedPullRequests_refused_witness :
  (getMergedPullRequests Denied.env (JS.Num 5) (Demo.world_of Demo.staged)).1
  = Exit 1.
Proof.
  rewrite (getMergedPullRequests_refused Denied.env (JS.Num 5)
             (Demo.world_of Demo.staged) Denied.unauthorized
             eq_refl eq_refl eq_refl).
  reflexivity.
Defined.

(** ** The reference point of the listing *)

(** X14. A reference string that [parseInt] reads a number from, as it
    does from every date that starts with its year, is not treated as a
    date: the listing request carries no since parameter, the date parser
    is not consulted, and every merged pull request of the answer is
    returned. *)
Theorem getMergedPullRequests_numeric_string
    (E : Env) (s : string) (n : Z) (w : World) (rs : Response)
    (all : list PullRequest) :
  JS.parseInt (JS.Str s) = Some n ->
  http E (api_get E (api_repo E +:+ "/pulls" +:+ listing_query)) = Some rs ->
  ok rs = true ->
  rs_json rs = Some (JPulls all) ->
  getMergedPullRequests E (JS.Str s) w =
  (Ret (List.filter is_merged all),
   {| w_fs := w_fs w; w_cwd := w_cwd w;
      w_trace :=
        w_trace w
        ++ [EvConsole LLog [AStr ("Getting merged PRs since " +:+ s +:+ "...")];
            EvConsole LLog
              [AStr ("Fetching PRs from: " +:+ api_repo E +:+ "/pulls"
                     +:+ listing_query)];
            EvFetch (api_get E (api_repo E +:+ "/pulls" +:+ listing_query))
              (Some rs);
            EvConsole LLog
              [AStr ("Found "
                     +:+ JS.string_of_Z
                           (Z.of_nat (length (List.filter is_merged all)))
                     +:+ " merged PRs")]] |}).
Proof.
  intros Hnum Hrs Hok Hj. unfold listing_query in *.
  unfold getMergedPullRequests. rewrite Hnum. cbn [JS.isNaN]. mred.
  rewrite Hrs. mred. rewrite Hok. mred. rewrite Hj. mred.
  rewrite <- !app_assoc. reflexivity.
Qed.

Lemma getMergedPullRequests_numeric_string_witness :
  JS.parseInt (JS.Str "2024-01-31") = Some 2024%Z
  /\ date_parse Demo.env "2024-01-31" = Some 1706659200000%Z
  /\ (getMergedPullRequests Demo.env (JS.Str "2024-01-31")
        (Demo.world_of Demo.staged)).1
     = Ret (List.filter is_merged Demo.listing).
Proof.
  split; [reflexivity |]. split; [reflexivity |].
  rewrite (getMergedPullRequests_numeric_string Demo.env "2024-01-31" 2024
             (Demo.world_of Demo.staged) _ Demo.listing
             eq_refl eq_refl eq_refl eq_refl).
  reflexivity.
Defined.

(** X15. A reference string that [parseInt] reads no number from and that
    the date parser accepts selects the listing by date: the one request
    carries the since parameter with the ISO form of the parsed date, and
    every merged pull request of the answer is returned. *)
Theorem getMergedPullRequests_since_date
    (E : Env) (s : string) (t : Z) (w : World) (rs : Response)
    (all : list PullRequest) :
  JS.parseInt (JS.Str s) = None ->
  date_parse E s = Some t ->
  http E (api_get E (api_repo E +:+ "/pulls" +:+ listing_query
                     +:+ "&since=" +:+ date_iso E t)) = Some rs ->
  ok rs = true ->
  rs_json rs = Some (JPulls all) ->
  exists w',
    getMergedPullRequests E (JS.Str s) w = (Ret (List.filter is_merged all), w')
    /\ w_fs w' = w_fs w
    /\ filter (fun e => bool_decide (only_console e = false))
         (drop (length (w_trace w)) (w_trace w'))
       = [EvFetch (api_get E (api_repo E +:+ "/pulls" +:+ listing_query
                              +:+ "&since=" +:+ date_iso E t))
            (Some rs)].
Proof.
  intros Hnum Hd Hrs Hok Hj.
  change (listing_query +:+ "&since=" +:+ date_iso E t)
    with ("?base=master&state=closed&sort=updated&direction=desc&since="
          +:+ date_iso E t) in *.
  unfold getMergedPullRequests. rewrite Hnum. cbn [JS.isNaN].
  unfold new_Date, object_truthy, toISOString. rewrite Hd. mred.
  rewrite Hrs. mred. rewrite Hok. mred. rewrite Hj. mred.
  eexists. split; [reflexivity |]. cbn [w_fs w_trace].
  split; [reflexivity |]. rewrite <- !app_assoc, drop_app_length. reflexivity.
Qed.

Lemma getMergedPullRequests_since_date_witness :
  (getMergedPullRequests Dated.env (JS.Str "Jan 31 2024")
     (Demo.world_of Demo.staged)).1
  = Ret (List.filter is_merged Demo.listing).
Proof.
  destruct (getMergedPullRequests_since_date Dated.env "Jan 31 2024"
              1706659200000 (Demo.world_of Demo.staged) _ Demo.listing
              eq_refl eq_refl eq_refl eq_refl eq_refl) as (w' & Hrun & _).
  rewrite Hrun. reflexivity.
Defined.

(** X16. Whatever the reference, a list [getMergedPullRequests] returns is
    a sublist, in order, of the list the API sent: every pull request in
    it is merged and, when the reference is a number, has a number above
    it.  The file system and the working directory are left alone. *)
Theorem getMergedPullRequests_returns_merged
    (E : Env) (since : JS.value) (w w' : World) (prs : list PullRequest) :
  getMergedPullRequests E since w = (Ret prs, w') ->
  (exists rq rs all,
      http E rq = Some rs
      /\ rq_method rq = "GET"
      /\ ok rs = true
      /\ rs_json rs = Some (JPulls all)
      /\ prs `sublist_of` all)
  /\ Forall (fun pr => is_merged pr = true) prs
  /\ (forall bound, since = JS.Num bound ->
                    Forall (fun pr => (bound < number pr)%Z) prs)
  /\ w_fs w' = w_fs w
  /\ w_cwd w' = w_cwd w.
Proof.
  unfold getMergedPullRequests. mred.
  destruct (JS.isNaN (JS.parseInt since)); mred.
  - unfold toISOString, object_truthy.
    destruct (new_Date E since) as [t |]; mred; [| discriminate].
    destruct (http E _) as [rs |] eqn:Hrs; mred; [| discriminate].
    destruct (ok rs) eqn:Hok; mred; [| discriminate].
    destruct (rs_json rs) as [[pr | all | files] |] eqn:Hj; mred;
      try discriminate.
    fold is_merged. destruct since as [bound | s]; intros H; inversion H; subst.
    + cbn [w_fs w_cwd]. split; [| split; [| split; [| split]]]; auto.
      * eexists _, rs, all. repeat split; eauto.
        etransitivity; apply filter_sublist.
      * apply Forall_forall. intros pr Hin. apply list_elem_of_In in Hin.
        apply filter_In in Hin as [Hin _]. apply filter_In in Hin. tauto.
      * intros b Hb. inversion Hb; subst b.
        apply Forall_forall. intros pr Hin. apply list_elem_of_In in Hin.
        apply filter_In in Hin as [_ Hgt]. lia.
    + cbn [w_fs w_cwd]. split; [| split; [| split; [| split]]]; auto.
      * eexists _, rs, all. repeat split; eauto. apply filter_sublist.
      * apply filter_Forall.
      * discriminate.
  - destruct (http E _) as [rs |] eqn:Hrs; mred; [| discriminate].
    destruct (ok rs) eqn:Hok; mred; [| discriminate].
    destruct (rs_json rs) as [[pr | all | files] |] eqn:Hj; mred;
      try discriminate.
    fold is_merged. destruct since as [bound | s]; intros H; inversion H; subst.
    + cbn [w_fs w_cwd]. split; [| split; [| split; [| split]]]; auto.
      * eexists _, rs, all. repeat split; eauto.
        etransitivity; apply filter_sublist.
      * apply Forall_forall. intros pr Hin. apply list_elem_of_In in Hin.
        apply filter_In in Hin as [Hin _]. apply filter_In in Hin. tauto.
      * intros b Hb. inversion Hb; subst b.
        apply Forall_forall. intros pr Hin. apply list_elem_of_In in Hin.
        apply filter_In in Hin as [_ Hgt]. lia.
    + cbn [w_fs w_cwd]. split; [| split; [| split; [| split]]]; auto.
      * eexists _, rs, all. repeat split; eauto. apply filter_sublist.
      * apply filter_Forall.
      * discriminate.
Qed.

Lemma getMergedPullRequests_returns_merged_witness :
  Forall (fun pr => (5 < number pr)%Z)
    [Demo.pull 9 (Some "2024-02-02T10:00:00Z")].
Proof.
  assert (Hrun : getMergedPullRequests Demo.env (JS.Num 5)
                   (Demo.world_of Demo.staged)
                 = (Ret [Demo.pull 9 (Some "2024-02-02T10:00:00Z")],
                    (getMergedPullRequests Demo.env (JS.Num 5)
                       (Demo.world_of Demo.staged)).2))
    by (apply run_split; vm_compute; reflexivity).
  destruct (getMergedPullRequests_returns_merged _ _ _ _ _ Hrun)
    as (_ & _ & Hbound & _).
  exact (Hbound 5%Z eq_refl).
Defined.

(** * More of repository staging *)



Lemma cloneMonoRepo_run (E : Env) (w : World) :
  cloneMonoRepo E w =
  let '(code, out, fs1) :=
    git E (w_cwd w) (clone_args E) (FS.rm_rf (TEMP_DIR E) (w_fs w)).2 in
  let done :=
    [EvProc (w_cwd w) (CmdRmRf (TEMP_DIR E)) 0 "";
     EvProc (w_cwd w) (CmdGit (clone_args E)) code out] in
  if (code =? 0)%Z then
    (Ret tt,
     {| w_fs := fs1; w_cwd := w_cwd w;
        w_trace := w_trace w ++ done
                   ++ [EvConsole LLog [AStr "Monorepo cloned successfully."]] |})
  else
    (Exit 1,
     {| w_fs := fs1; w_cwd := w_cwd w;
        w_trace := w_trace w ++ done
                   ++ [EvConsole LError [AStr "Error cloning monorepo:";
                                         AErr (ProcessOutput code out)]] |}).
Proof.
  unfold cloneMonoRepo. mred. run_exec.
  change (FS.rm_rf (TEMP_DIR E) (w_fs w)).1 with true.
  cbn [Z.eqb]. mred. run_exec. fold (clone_args E).
  destruct (git E (w_cwd w) (clone_args E) _) as [[code out] fs1].
  destruct (code =? 0)%Z; mred; rewrite <- !app_assoc; reflexivity.
Qed.

(** ** The clone *)



(** X18. When the clone fails, a configured [sync] ends the process with
    status 1 right there: it has run [rm -rf] on the staging directory and
    the clone, has logged the failure, and has sent no request and created
    no branch. *)
Theorem sync_clone_failure
    (E : Env) (w : World) (code : Z) (out : string) (fs1 : filesystem) :
  JS.truthy (JS.or_else (argv2 E) (getenv E "PR_NUMBER")) = true ->
  JS.truthy (getenv E "GH_TOKEN") = true ->
  JS.truthy (getenv E "MONOREPO_PACKAGE_LOCATION") = true ->
  JS.truthy (getenv E "SOURCE_REPO_NAME") = true ->
  git E (w_cwd w) (clone_args E) (FS.rm_rf (TEMP_DIR E) (w_fs w)).2
  = (code, out, fs1) ->
  code <> 0%Z ->
  sync E w =
  (Exit 1,
   {| w_fs := fs1; w_cwd := w_cwd w;
      w_trace :=
        w_trace w
        ++ [EvProc (w_cwd w) (CmdRmRf (TEMP_DIR E)) 0 "";
            EvProc (w_cwd w) (CmdGit (clone_args E)) code out;
            EvConsole LError [AStr "Error cloning monorepo:";
                              AErr (ProcessOutput code out)]] |}).
Proof.
  intros H1 H2 H3 H4 Hgit Hcode. unfold sync. rewrite H1, H2, H3, H4.
  cbn [negb]. unfold mbind, M_bind, bind at 1 2 3 4. unfold mret, M_ret, ret at 1 2 3 4 .
  unfold bind at 1. unfold bind at 1. rewrite cloneMonoRepo_run, Hgit.
  apply Z.eqb_neq in Hcode. rewrite Hcode. reflexivity.
Qed.

Lemma sync_clone_failure_witness :
  (sync Offline.env (Demo.world_of Demo.source_tree)).1 = Exit 1.
Proof.
  rewrite (sync_clone_failure Offline.env (Demo.world_of Demo.source_tree)
             128 "fatal: unable to access the remote"
             (FS.rm_rf (TEMP_DIR Offline.env) Demo.source_tree).2
             eq_refl eq_refl eq_refl eq_refl eq_refl);
    [reflexivity | discriminate].
Defined.

(** ** The branch *)

(** X19. The three ways out of [createBranch].  It returns only after
    [git checkout -b] ran in the staging directory with exit status 0, and
    then the working directory is the source checkout again.  It ends the
    process, with status 1, exactly when the checkout fails, and then the
    working directory still is the staging directory.  It raises only
    when a directory it changes to does not exist. *)
Theorem createBranch_outcomes
    (E : Env) (branchName : string) (w w' : World) (r : result unit) :
  createBranch E branchName w = (r, w') ->
  match r with
  | Ret _ =>
      w_cwd w' = ROOT_DIR E
      /\ exists out,
          git E (TEMP_DIR E) ["checkout"; "-b"; branchName] (w_fs w)
          = (0%Z, out, w_fs w')
  | Exit code =>
      code = 1%Z
      /\ w_cwd w' = TEMP_DIR E
      /\ exists failure out,
          failure <> 0%Z
          /\ git E (TEMP_DIR E) ["checkout"; "-b"; branchName] (w_fs w)
             = (failure, out, w_fs w')
  | Throw e =>
      e = ChdirFailed
      /\ (FS.is_dir (w_fs w) (TEMP_DIR E) = false
          \/ FS.is_dir (w_fs w') (ROOT_DIR E) = false)
  end.
Proof.
  unfold createBranch. mred.
  destruct (FS.is_dir (w_fs w) (TEMP_DIR E)) eqn:Htemp; mred.
  2:{ intros H. inversion H; subst. auto. }
  run_exec.
  destruct (git E (TEMP_DIR E) _ (w_fs w)) as [[code out] fs1] eqn:Hgit.
  destruct (code =? 0)%Z eqn:Hcode; mred.
  - apply Z.eqb_eq in Hcode. subst code.
    destruct (FS.is_dir fs1 (ROOT_DIR E)) eqn:Hroot;
      intros H; inversion H; subst; cbn [w_fs w_cwd]; eauto.
  - apply Z.eqb_neq in Hcode.
    intros H; inversion H; subst; cbn [w_fs w_cwd].
    split; [reflexivity |]. split; [reflexivity |]. eauto.
Qed.

Lemma createBranch_outcomes_witness :
  w_cwd (createBranch Demo.env "sync-pr-17-943123"
           (Demo.world_of Demo.staged)).2
  = ["work"; "repo"].
Proof.
  assert (Hrun : createBranch Demo.env "sync-pr-17-943123"
                   (Demo.world_of Demo.staged)
                 = (Ret tt,
                    (createBranch Demo.env "sync-pr-17-943123"
                       (Demo.world_of Demo.staged)).2))
    by (apply run_split; vm_compute; reflexivity).
  exact (proj1 (createBranch_outcomes _ _ _ _ _ Hrun)).
Defined.

(** * Where the commands run *)

Section Stays.

Context {P : event -> bool} {d : abspath}.

Lemma stays_ret {A} (a : A) : stays d P (ret a).
Proof.
  intros w r w' Hd H. inversion H; subst. split; [| reflexivity].
  exists []. rewrite app_nil_r. auto.
Qed.

Lemma stays_exit {A} (c : Z) : stays d P (@exit A c).
Proof.
  intros w r w' Hd H. inversion H; subst. split; [| reflexivity].
  exists []. rewrite app_nil_r. auto.
Qed.

Lemma stays_throw {A} (e : exn) : stays d P (@throw A e).
Proof.
  intros w r w' Hd H. inversion H; subst. split; [| reflexivity].
  exists []. rewrite app_nil_r. auto.
Qed.

Lemma stays_bind {A B} (m : M A) (k : A -> M B) :
  stays d P m -> (forall a, stays d P (k a)) -> stays d P (m ≫= k).
Proof.
  intros Hm Hk w r w' Hd H. apply bind_inv in H
    as [(a & w1 & H1 & H2) | [(c & H1 & ->) | (e & H1 & ->)]].
  - apply Hm in H1 as ((evs1 & E1 & F1) & Hd1); [| exact Hd].
    apply Hk in H2 as ((evs2 & E2 & F2) & Hd2); [| exact Hd1].
    split; [| exact Hd2].
    exists (evs1 ++ evs2). rewrite E2, E1, app_assoc. split; [reflexivity |].
    apply Forall_app_2; auto.
  - apply Hm in H1; assumption.
  - apply Hm in H1; assumption.
Qed.

Lemma stays_try_catch {A} (m : M A) (h : exn -> M A) :
  stays d P m -> (forall e, stays d P (h e)) -> stays d P (try_catch m h).
Proof.
  intros Hm Hh w r w' Hd H. unfold try_catch in H.
  destruct (m w) as [[a | c | e] w1] eqn:H1.
  - injection H as <- <-. apply Hm in H1; assumption.
  - injection H as <- <-. apply Hm in H1; assumption.
  - apply Hm in H1 as ((evs1 & E1 & F1) & Hd1); [| exact Hd].
    apply Hh in H as ((evs2 & E2 & F2) & Hd2); [| exact Hd1].
    split; [| exact Hd2].
    exists (evs1 ++ evs2). rewrite E2, E1, app_assoc. split; [reflexivity |].
    apply Forall_app_2; auto.
Qed.

Lemma stays_console (l : level) (args : list logarg) :
  P (EvConsole l args) = true -> stays d P (console l args).
Proof.
  intros HP w r w' Hd H. inversion H; subst. split; [| reflexivity].
  exists [EvConsole l args]. auto.
Qed.

Lemma stays_exec (E : Env) (c : command) :
  (forall code out, P (EvProc d c code out) = true) ->
  stays d P (exec E c).
Proof.
  intros HP w r w' Hd H. unfold exec in H.
  destruct (run_command E (w_cwd w) c (w_fs w)) as [[code out] fs'].
  destruct (code =? 0)%Z; inversion H; subst; cbn [w_trace w_cwd];
    (split; [| reflexivity]); eexists; (split; [reflexivity |]); auto.
Qed.

Lemma stays_fetch (E : Env) (rq : Request) :
  (forall rs, P (EvFetch rq rs) = true) -> stays d P (fetch E rq).
Proof.
  intros HP w r w' Hd H. unfold fetch in H.
  destruct (http E rq); inversion H; subst; cbn [w_trace w_cwd];
    (split; [| reflexivity]); eexists; (split; [reflexivity |]); auto.
Qed.

Lemma stays_existsSync (p : Path.joined) : stays d P (existsSync p).
Proof.
  intros w r w' Hd H. inversion H; subst. split; [| reflexivity].
  exists []. rewrite app_nil_r. auto.
Qed.

Lemma stays_path_join (base : abspath) (args : list (option string)) :
  stays d P (path_join base args).
Proof.
  unfold path_join. destruct (forallb _ _);
    [apply stays_ret | apply stays_throw].
Qed.

Lemma stays_json_of (rs : Response) : stays d P (json_of rs).
Proof.
  unfold json_of, of_option. destruct (rs_json rs);
    [apply stays_ret | apply stays_throw].
Qed.

Lemma stays_for_of {A} (xs : list A) (f : A -> M unit) :
  (forall x, stays d P (f x)) -> stays d P (for_of xs f).
Proof.
  intros Hf. induction xs as [| x xs IH]; cbn [for_of].
  - apply stays_ret.
  - apply (stays_bind (f x) (fun _ => for_of xs f)); auto.
Qed.

Lemma moves_stays {A} (m : M A) : stays d P m -> moves d d P m.
Proof.
  intros Hm w r w' Hd H. apply Hm in H as [Hevs Hcwd]; [| exact Hd].
  split; [exact Hevs |]. destruct r; auto.
Qed.

Lemma moves_bind {A B} (d1 d2 : abspath) (m : M A) (k : A -> M B) :
  moves d d1 P m -> (forall a, moves d1 d2 P (k a)) -> moves d d2 P (m ≫= k).
Proof.
  intros Hm Hk w r w' Hd H. apply bind_inv in H
    as [(a & w1 & H1 & H2) | [(c & H1 & ->) | (e & H1 & ->)]].
  - apply Hm in H1 as ((evs1 & E1 & F1) & Hd1); [| exact Hd].
    apply Hk in H2 as ((evs2 & E2 & F2) & Hd2); [| exact Hd1].
    split; [| exact Hd2].
    exists (evs1 ++ evs2). rewrite E2, E1, app_assoc. split; [reflexivity |].
    apply Forall_app_2; auto.
  - apply Hm in H1 as [H1 _]; auto.
  - apply Hm in H1 as [H1 _]; auto.
Qed.

Lemma moves_cd (d' : abspath) :
  P (EvCd d') = true -> moves d d' P (cd d').
Proof.
  intros HP w r w' Hd H. unfold cd in H.
  destruct (FS.is_dir (w_fs w) d'); inversion H; subst; cbn [w_trace w_cwd].
  - split; [| reflexivity]. eexists; split; [reflexivity |]; auto.
  - split; [| exact I]. exists []. rewrite app_nil_r. auto.
Qed.

End Stays.

Lemma moves_weaken {A} (P Q : event -> bool) (d d' : abspath) (m : M A) :
  (forall e, P e = true -> Q e = true) -> moves d d' P m -> moves d d' Q m.
Proof.
  intros HPQ Hm w r w' Hd H. apply Hm in H as [(evs & Ht & Hf) Hcwd];
    [| exact Hd].
  split; [| exact Hcwd]. exists evs. split; [exact Ht |].
  eapply Forall_impl; [exact Hf | exact HPQ].
Qed.

(** Goals [stays d P m] by the structure of [m]; what is left are the
    commands whose event needs an argument. *)
Ltac stays_step :=
  lazymatch goal with
  | |- stays _ _ (_ ≫= _) => apply stays_bind; [| intros ?]
  | |- stays _ _ (bind _ _) => apply stays_bind; [| intros ?]
  | |- stays _ _ (ret _) => apply stays_ret
  | |- stays _ _ (mret _) => apply stays_ret
  | |- stays _ _ (exit _) => apply stays_exit
  | |- stays _ _ (throw _) => apply stays_throw
  | |- stays _ _ (try_catch _ _) => apply stays_try_catch; [| intros ?]
  | |- stays _ _ (console _ _) => apply stays_console; reflexivity
  | |- stays _ _ (exec _ _) =>
      apply stays_exec; intros;
      first [reflexivity | apply bool_decide_eq_true_2; reflexivity]
  | |- stays _ _ (fetch _ _) => apply stays_fetch; intros; reflexivity
  | |- stays _ _ (existsSync _) => apply stays_existsSync
  | |- stays _ _ (path_join _ _) => apply stays_path_join
  | |- stays _ _ (json_of _) => apply stays_json_of
  | |- stays _ _ (for_of _ _) => apply stays_for_of; intros ?
  | |- stays _ _ (if ?b then _ else _) => destruct b
  | |- stays _ _ (match ?x with _ => _ end) => destruct x
  end.

Ltac stays_auto := repeat stays_step.

Lemma map_files_stays (P : event -> bool) (d : abspath)
    (files : list FileDesc) :
  (forall l args, P (EvConsole l args) = true) ->
  stays d P (map_files files).
Proof.
  intros HP. induction files as [| f files IH]; cbn [map_files].
  - apply stays_ret.
  - apply stays_bind; [apply stays_console, HP | intros _].
    apply stays_bind; [exact IH | intros changes]. apply stays_ret.
Qed.

Lemma getPRChanges_stays (E : Env) (d d0 : abspath) (prNumber : Z) :
  stays d (git_in d0) (getPRChanges E prNumber).
Proof.
  unfold getPRChanges. stays_auto. apply map_files_stays. reflexivity.
Qed.

Lemma syncChange_stays (E : Env) (d d0 : abspath) (change : Change) :
  stays d (git_in d0) (syncChange E change).
Proof. unfold syncChange. stays_auto. Qed.

Lemma replay_stays (E : Env) (d d0 : abspath) (changes : list Change) :
  stays d (git_in d0) (replay E changes).
Proof. unfold replay. apply stays_for_of. intros c. apply syncChange_stays. Qed.

Lemma createBranch_moves (E : Env) (d : abspath) (branchName : string) :
  moves d (ROOT_DIR E) (git_in (TEMP_DIR E)) (createBranch E branchName).
Proof.
  unfold createBranch.
  eapply moves_bind; [apply moves_stays; stays_auto | intros _].
  eapply moves_bind; [apply moves_cd; reflexivity | intros _].
  eapply moves_bind; [apply moves_stays; stays_auto | intros _].
  apply moves_cd. reflexivity.
Qed.

Lemma syncPR_moves (E : Env) (d : abspath) (pr : PullRequest) :
  moves d (TEMP_DIR E) (git_in (TEMP_DIR E)) (syncPR E pr).
Proof.
  unfold syncPR.
  eapply moves_bind; [apply moves_stays; stays_auto | intros _].
  eapply moves_bind; [apply createBranch_moves | intros _].
  eapply moves_bind; [apply moves_stays, getPRChanges_stays | intros changes].
  eapply moves_bind; [apply moves_stays, replay_stays | intros _].
  eapply moves_bind; [apply moves_cd; reflexivity | intros _].
  apply moves_stays. stays_auto.
Qed.

Lemma git_in_staged (E : Env) (start : abspath) (e : event) :
  git_in (TEMP_DIR E) e = true -> staged_git E start e = true.
Proof.
  destruct e as [| | cwd [| | | | args | line] code out |]; cbn; auto.
  intros ->. reflexivity.
Qed.

Lemma cloneMonoRepo_stays (E : Env) (d : abspath) :
  stays d (staged_git E d) (cloneMonoRepo E).
Proof.
  unfold cloneMonoRepo.
  apply stays_bind; [| intros _].
  - apply stays_try_catch; [| intros e; stays_auto].
    apply stays_bind; [| intros; apply stays_ret].
    apply stays_exec. intros code out. reflexivity.
  - apply stays_try_catch; [| intros e; stays_auto].
    apply stays_bind; [| intros; stays_auto].
    apply stays_exec. intros code out. unfold staged_git.
    fold (clone_args E).
    rewrite (bool_decide_eq_true_2 (d = d)) by reflexivity.
    rewrite (bool_decide_eq_true_2 (clone_args E = clone_args E))
      by reflexivity.
    apply orb_true_r.
Qed.

Lemma getPRDetails_stays (E : Env) (P : event -> bool) (d : abspath)
    (prNumber : string) :
  (forall l args, P (EvConsole l args) = true) ->
  (forall rq rs, P (EvFetch rq rs) = true) ->
  stays d P (getPRDetails E prNumber).
Proof.
  intros Hc Hf. unfold getPRDetails.
  apply stays_bind; [apply stays_console, Hc | intros _].
  apply stays_bind; [apply stays_fetch; intros; apply Hf | intros rs].
  apply stays_bind; [| intros _; apply stays_json_of].
  destruct (negb (ok rs)); [| apply stays_ret].
  apply stays_bind; [apply stays_console, Hc | intros _; apply stays_exit].
Qed.

Lemma sync_moves (E : Env) (d : abspath) :
  moves d (TEMP_DIR E) (staged_git E d) (sync E).
Proof.
  unfold sync.
  do 4 (eapply moves_bind; [apply moves_stays; stays_auto | intros _]).
  eapply moves_bind; [apply moves_stays, cloneMonoRepo_stays | intros _].
  eapply moves_bind;
    [apply moves_stays, getPRDetails_stays; reflexivity | intros prDetails].
  eapply moves_bind; [| intros _; apply moves_stays; stays_auto].
  destruct prDetails as [pr | prs | files].
  - eapply moves_weaken; [apply git_in_staged | apply syncPR_moves].
  - intros w r w' _ H. inversion H; subst. split; [| exact I].
    exists []. rewrite app_nil_r. auto.
  - intros w r w' _ H. inversion H; subst. split; [| exact I].
    exists []. rewrite app_nil_r. auto.
Qed.

(** X20. Every [git] command of [syncPR] runs in the staging directory,
    and when [syncPR] returns the working directory is the staging
    directory: the change back to the source checkout that [createBranch]
    makes is not repeated at the end. *)
Theorem syncPR_works_in_the_clone
    (E : Env) (pr : PullRequest) (w w' : World) (r : result (option Json)) :
  syncPR E pr w = (r, w') ->
  (exists evs,
      w_trace w' = w_trace w ++ evs
      /\ Forall (fun e => git_in (TEMP_DIR E) e = true) evs)
  /\ (forall v, r = Ret v -> w_cwd w' = TEMP_DIR E).
Proof.
  intros H. apply (syncPR_moves E (w_cwd w) pr) in H as [Hevs Hcwd];
    [| reflexivity].
  split; [exact Hevs |]. intros v ->. exact Hcwd.
Qed.

Lemma syncPR_works_in_the_clone_witness :
  w_cwd (syncPR Demo.env (Demo.pull 17 None) (Demo.world_of Demo.staged)).2
  = TEMP_DIR Demo.env.
Proof.
  assert (Hrun : syncPR Demo.env (Demo.pull 17 None)
                   (Demo.world_of Demo.staged)
                 = (Ret None,
                    (syncPR Demo.env (Demo.pull 17 None)
                       (Demo.world_of Demo.staged)).2))
    by (apply run_split; vm_compute; reflexivity).
  exact (proj2 (syncPR_works_in_the_clone _ _ _ _ _ Hrun) None eq_refl).
Defined.

(** X21. In a run of [sync] the clone is the only [git] command that runs
    in the directory the script was started in; every other one runs in
    the staging directory.  A run that returns has logged the success
    message last and ends in the staging directory. *)
Theorem sync_works_in_the_clone
    (E : Env) (w w' : World) (r : result unit) :
  sync E w = (r, w') ->
  (exists evs,
      w_trace w' = w_trace w ++ evs
      /\ Forall (fun e => staged_git E (w_cwd w) e = true) evs)
  /\ (r = Ret tt ->
      w_cwd w' = TEMP_DIR E /\ last (w_trace w') = Some success_line).
Proof.
  intros H. pose proof H as Hrun.
  apply (sync_moves E (w_cwd w)) in H as [Hevs Hcwd]; [| reflexivity].
  split; [exact Hevs |]. intros ->. split; [exact Hcwd |].
  unfold sync in Hrun.
  repeat (apply bind_inv in Hrun
            as [(? & ? & _ & Hrun) | [(? & _ & Hrun) | (? & _ & Hrun)]];
          [| discriminate ..]).
  inversion Hrun; subst. cbn [w_trace]. apply last_snoc.
Qed.

Lemma sync_works_in_the_clone_witness :
  last (w_trace (sync (Demo.env_with newline)
                   (Demo.world_of Demo.source_tree)).2)
  = Some success_line.
Proof.
  assert (Hrun : sync (Demo.env_with newline) (Demo.world_of Demo.source_tree)
                 = (Ret tt,
                    (sync (Demo.env_with newline)
                       (Demo.world_of Demo.source_tree)).2))
    by (apply run_split; vm_compute; reflexivity).
  exact (proj2 (proj2 (sync_works_in_the_clone _ _ _ _ Hrun) eq_refl)).
Defined.

(** * More of commit and publish *)

Ltac script_event :=
  intros; unfold in_script; cbn [rq_method rq_url rq_body pc_head pc_base];
  rewrite ?String.eqb_refl; reflexivity.

Ltac script_step :=
  lazymatch goal with
  | |- emits _ (exec _ _) => apply emits_exec; script_event
  | |- emits _ (fetch _ _) => apply emits_fetch; script_event
  | |- emits _ (_ ≫= _) => apply emits_bind; [| intros ?]
  | |- emits _ (bind _ _) => apply emits_bind; [| intros ?]
  | |- emits _ (ret _) => apply emits_ret
  | |- emits _ (mret _) => apply emits_ret
  | |- emits _ (exit _) => apply emits_exit
  | |- emits _ (throw _) => apply emits_throw
  | |- emits _ (try_catch _ _) => apply emits_try_catch; [| intros ?]
  | |- emits _ (console _ _) => apply emits_console; reflexivity
  | |- emits _ (cd _) => apply emits_cd; reflexivity
  | |- emits _ (existsSync _) => apply emits_existsSync
  | |- emits _ (path_join _ _) => apply emits_path_join
  | |- emits _ (json_of _) => apply emits_json_of
  | |- emits _ (for_of _ _) => apply emits_for_of; intros ?
  | |- emits _ (if ?b then _ else _) => destruct b
  | |- emits _ (match ?x with _ => _ end) => destruct x
  end.

Lemma map_files_in_script (branch : string) (files : list FileDesc) :
  emits (in_script branch) (map_files files).
Proof. induction files; cbn [map_files]; repeat script_step. assumption. Qed.

(** ** The commands of [syncPR] *)

(** X22. [syncPR] runs no [git] subcommand other than checkout -b, status
    --porcelain, config user.name, config user.email (these two as command
    lines handed to the shell), add ., commit -m and push -u origin, and
    never [rm -rf]; the branch it pushes is the branch it created,
    sync-pr-<number>-<last six digits of the clock>; the only request that
    is not a GET is the creation request to the monorepo, with that branch
    as head and main as base. *)
Theorem syncPR_commands
    (E : Env) (pr : PullRequest) (w w' : World) (r : result (option Json)) :
  syncPR E pr w = (r, w') ->
  exists evs,
    w_trace w' = w_trace w ++ evs
    /\ Forall (fun e => in_script (branch_of E pr) e = true) evs.
Proof.
  revert w r w'.
  change (emits (in_script (branch_of E pr)) (syncPR E pr)).
  unfold syncPR. cbv zeta. fold (branch_of E pr).
  generalize (branch_of E pr). intros branch.
  apply emits_bind; [repeat script_step | intros _].
  apply emits_bind; [unfold createBranch; repeat script_step | intros _].
  apply emits_bind;
    [unfold getPRChanges; repeat script_step; apply map_files_in_script
    | intros changes].
  apply emits_bind;
    [unfold replay, syncChange; repeat script_step | intros _].
  repeat script_step.
Qed.

Lemma syncPR_commands_witness :
  exists evs,
    w_trace (syncPR (Demo.env_with " M apps/server/a/b.txt")
               (Demo.pull 17 None) (Demo.world_of Demo.staged)).2
    = evs
    /\ Forall (fun e => in_script "sync-pr-17-943123" e = true) evs.
Proof.
  assert (Hrun : syncPR (Demo.env_with " M apps/server/a/b.txt")
                   (Demo.pull 17 None) (Demo.world_of Demo.staged)
                 = (Ret None,
                    (syncPR (Demo.env_with " M apps/server/a/b.txt")
                       (Demo.pull 17 None) (Demo.world_of Demo.staged)).2))
    by (apply run_split; vm_compute; reflexivity).
  destruct (syncPR_commands _ _ _ _ _ Hrun) as (evs & Ht & Hf).
  exists evs. split; [exact Ht | exact Hf].
Defined.

(** ** A created pull request *)

Lemma exec_ret_inv (E : Env) (c : command) (w w' : World) (out : string) :
  exec E c w = (Ret out, w') ->
  exists fs',
    run_command E (w_cwd w) c (w_fs w) = (0%Z, out, fs')
    /\ w' = {| w_fs := fs'; w_cwd := w_cwd w;
               w_trace := w_trace w ++ [EvProc (w_cwd w) c 0 out] |}.
Proof.
  unfold exec.
  destruct (run_command E (w_cwd w) c (w_fs w)) as [[code o] fs'].
  destruct (code =? 0)%Z eqn:Hcode; [| discriminate].
  apply Z.eqb_eq in Hcode. subst code. intros H. injection H as <- <-.
  eauto.
Qed.

Lemma cd_ret_inv (dir : abspath) (w w' : World) (u : unit) :
  cd dir w = (Ret u, w') ->
  w' = {| w_fs := w_fs w; w_cwd := dir; w_trace := w_trace w ++ [EvCd dir] |}.
Proof.
  unfold cd. destruct (FS.is_dir (w_fs w) dir); [| discriminate].
  intros H. injection H as _ <-. reflexivity.
Qed.

Lemma fetch_ret_inv (E : Env) (rq : Request) (w w' : World) (rs : Response) :
  fetch E rq w = (Ret rs, w') ->
  http E rq = Some rs
  /\ w' = {| w_fs := w_fs w; w_cwd := w_cwd w;
             w_trace := w_trace w ++ [EvFetch rq (Some rs)] |}.
Proof.
  unfold fetch. destruct (http E rq) as [rs0 |]; [| discriminate].
  intros H. injection H as <- <-. auto.
Qed.

Ltac ret_step H a w1 H1 :=
  apply bind_inv in H
    as [(a & w1 & H1 & H) | [(? & _ & ?) | (? & _ & ?)]];
  [| discriminate ..].

(** X23. [syncPR] returns the created pull request only at the end of the
    whole sequence: the status query reported modifications, then config
    user.name, config user.email, add, commit and push each ended with
    exit status 0, in this order and in the staging directory, then the
    creation request for the pushed branch was answered ok, and the body
    of that answer is what is returned.  The two config commands are
    command lines handed to the shell: between literal double quotes
    stands what the quoting function of the command runner makes of the
    author's name (the login when the name is missing or empty) and of the
    e-mail address (the login at users.noreply.github.com when it is
    missing or empty), so a value the quoting function rewrites reaches
    the shell in its rewritten form inside the double quotes, not as the
    plain value. *)
Theorem syncPR_created
    (E : Env) (pr : PullRequest) (w w' : World) (created : Json) :
  syncPR E pr w = (Ret (Some created), w') ->
  exists pre porcelain o1 o2 o3 o4 o5 message rq rs line,
    w_trace w' =
    w_trace w ++ pre
    ++ [EvProc (TEMP_DIR E) git_status 0 porcelain;
        EvProc (TEMP_DIR E)
          (CmdShell
             ("git config user.name " +:+ dquote
              +:+ zx_quote E
                    (JS.tmpl (JS.or_else (name (user pr))
                                (Some (login (user pr)))))
              +:+ dquote)) 0 o1;
        EvProc (TEMP_DIR E)
          (CmdShell
             ("git config user.email " +:+ dquote
              +:+ zx_quote E
                    (JS.tmpl (JS.or_else (email (user pr))
                                (Some (login (user pr)
                                       +:+ "@users.noreply.github.com"))))
              +:+ dquote)) 0 o2;
        EvProc (TEMP_DIR E) (CmdGit ["add"; "."]) 0 o3;
        EvProc (TEMP_DIR E) (CmdGit ["commit"; "-m"; message]) 0 o4;
        EvProc (TEMP_DIR E)
          (CmdGit ["push"; "-u"; "origin"; branch_of E pr]) 0 o5;
        EvFetch rq (Some rs);
        EvConsole LLog [AStr line]]
    /\ Forall (fun e => quiet e = true) pre
    /\ JS.trim porcelain <> ""
    /\ rq_method rq = "POST"
    /\ pc_head <$> rq_body rq = Some (branch_of E pr)
    /\ pc_base <$> rq_body rq = Some "main"
    /\ http E rq = Some rs
    /\ ok rs = true
    /\ rs_json rs = Some created
    /\ w_cwd w' = TEMP_DIR E.
Proof.
  intros H. unfold syncPR in H. cbv zeta in H. fold (branch_of E pr) in H.
  ret_step H u1 w1 H1.
  apply (@emits_console quiet _ _ eq_refl) in H1 as (evs1 & T1 & Q1).
  ret_step H u2 w2 H2. apply createBranch_quiet in H2 as (evs2 & T2 & Q2).
  ret_step H changes w3 H3. apply getPRChanges_quiet in H3 as (evs3 & T3 & Q3).
  ret_step H u4 w4 H4. apply replay_quiet in H4 as (evs4 & T4 & Q4).
  ret_step H u5 w5 H5. apply cd_ret_inv in H5.
  ret_step H porcelain w6 H6.
  apply exec_ret_inv in H6 as (fs6 & _ & ->). subst w5. cbn [w_fs w_cwd w_trace] in H.
  destruct (String.eqb_spec (JS.trim porcelain) "") as [Hclean | Hdirty].
  { revert H. mred. discriminate. }
  ret_step H o1 w7 H7. apply exec_ret_inv in H7 as (fs7 & _ & ->).
  cbn [w_fs w_cwd w_trace] in H.
  ret_step H o2 w8 H8. apply exec_ret_inv in H8 as (fs8 & _ & ->).
  cbn [w_fs w_cwd w_trace] in H.
  ret_step H o3 w9 H9. apply exec_ret_inv in H9 as (fs9 & _ & ->).
  cbn [w_fs w_cwd w_trace] in H.
  ret_step H o4 w10 H10. apply exec_ret_inv in H10 as (fs10 & _ & ->).
  cbn [w_fs w_cwd w_trace] in H.
  ret_step H o5 w11 H11. apply exec_ret_inv in H11 as (fs11 & _ & ->).
  cbn [w_fs w_cwd w_trace] in H.
  ret_step H rs w12 H12. apply fetch_ret_inv in H12 as (Hrs & ->).
  destruct (ok rs) eqn:Hok; cbn [negb] in H; [| revert H; mred; discriminate].
  revert H. mred. destruct (rs_json rs) as [j |] eqn:Hj; mred;
    [| discriminate].
  intros H. injection H as -> <-. cbn [w_trace w_cwd].
  exists ((((evs1 ++ evs2) ++ evs3) ++ evs4) ++ [EvCd (TEMP_DIR E)]).
  eexists porcelain, o1, o2, o3, o4, o5, _, _, rs, _.
  split.
  { rewrite T4, T3, T2, T1. rewrite <- !app_assoc. reflexivity. }
  split.
  { repeat apply Forall_app_2; auto; repeat constructor. }
  repeat split; auto.
Qed.

Lemma syncPR_created_witness :
  exists pre post o1 o2,
    w_trace (syncPR Accepted.env Accepted.pull_bob
               (Demo.world_of Demo.staged)).2
    = pre
      ++ EvProc (TEMP_DIR Accepted.env)
           (CmdShell ("git config user.name " +:+ dquote
                      +:+ "$'Bob Stone'" +:+ dquote)) 0 o1
      :: EvProc (TEMP_DIR Accepted.env)
           (CmdShell ("git config user.email " +:+ dquote
                      +:+ "bob@users.noreply.github.com" +:+ dquote)) 0 o2
      :: post.
Proof.
  assert (Hrun : syncPR Accepted.env Accepted.pull_bob
                   (Demo.world_of Demo.staged)
                 = (Ret (Some (JPull Accepted.created)),
                    (syncPR Accepted.env Accepted.pull_bob
                       (Demo.world_of Demo.staged)).2))
    by (apply run_split; vm_compute; reflexivity).
  destruct (syncPR_created _ _ _ _ _ Hrun)
    as (pre & porcelain & o1 & o2 & o3 & o4 & o5 & message & rq & rs & line
        & Htrace & _).
  rewrite Htrace.
  exists (pre ++ [EvProc (TEMP_DIR Accepted.env) git_status 0 porcelain]).
  eexists _, o1, o2. cbn [Demo.world_of w_trace app].
  rewrite <- app_assoc. reflexivity.
Defined.

(** ** The orchestrator *)

(** X24. A configured [sync] whose clone succeeds asks for the pull
    request under the reference exactly as it was given; when the answer
    is not ok the process ends with status 1 after the error line, before
    any branch is created. *)
Theorem sync_details_refused
    (E : Env) (w : World) (out : string) (fs1 : filesystem) (rs : Response) :
  JS.truthy (JS.or_else (argv2 E) (getenv E "PR_NUMBER")) = true ->
  JS.truthy (getenv E "GH_TOKEN") = true ->
  JS.truthy (getenv E "MONOREPO_PACKAGE_LOCATION") = true ->
  JS.truthy (getenv E "SOURCE_REPO_NAME") = true ->
  git E (w_cwd w) (clone_args E) (FS.rm_rf (TEMP_DIR E) (w_fs w)).2
  = (0%Z, out, fs1) ->
  http E (api_get E (api_repo E +:+ "/pulls/"
                     +:+ JS.tmpl (JS.or_else (argv2 E)
                                    (getenv E "PR_NUMBER")))) = Some rs ->
  ok rs = false ->
  sync E w =
  (Exit 1,
   {| w_fs := fs1; w_cwd := w_cwd w;
      w_trace :=
        w_trace w
        ++ [EvProc (w_cwd w) (CmdRmRf (TEMP_DIR E)) 0 "";
            EvProc (w_cwd w) (CmdGit (clone_args E)) 0 out;
            EvConsole LLog [AStr "Monorepo cloned successfully."];
            EvConsole LLog
              [AStr ("Getting details for PR #"
                     +:+ JS.tmpl (JS.or_else (argv2 E) (getenv E "PR_NUMBER"))
                     +:+ "...")];
            EvFetch (api_get E (api_repo E +:+ "/pulls/"
                                +:+ JS.tmpl (JS.or_else (argv2 E)
                                               (getenv E "PR_NUMBER"))))
              (Some rs);
            api_error rs] |}).
Proof.
  intros H1 H2 H3 H4 Hgit Hrs Hok. unfold sync. rewrite H1, H2, H3, H4.
  cbn [negb]. unfold mbind, M_bind, bind at 1 2 3 4.
  unfold mret, M_ret, ret at 1 2 3 4.
  unfold bind at 1. unfold bind at 1. rewrite cloneMonoRepo_run, Hgit.
  cbn [Z.eqb]. unfold bind at 1. unfold getPRDetails. mred.
  rewrite Hrs. mred. rewrite Hok. mred.
  rewrite <- !app_assoc. reflexivity.
Qed.

Lemma sync_details_refused_witness :
  (sync Denied.env (Demo.world_of Demo.source_tree)).1 = Exit 1.
Proof.
  rewrite (sync_details_refused Denied.env (Demo.world_of Demo.source_tree)
             ""
             (FS.mkdir_p ["work"; "tmp"; "formio-monorepo"]
                (FS.rm_rf (TEMP_DIR Denied.env) Demo.source_tree).2).2
             Denied.unauthorized
             eq_refl eq_refl eq_refl eq_refl eq_refl eq_refl eq_refl).
  reflexivity.
Defined.



(** * Replaying a rename *)

Lemma is_dir_keeps_mkdir_p_from (pre rest : abspath) (fs : filesystem)
    (q : abspath) :
  FS.is_dir fs q = true -> FS.is_dir (FS.mkdir_p_from pre rest fs).2 q = true.
Proof.
  unfold FS.is_dir. destruct q as [| a q]; [reflexivity |]. cbn [FS.stat].
  destruct (fs !! (a :: q)) as [[x |] |] eqn:Hq; try discriminate.
  intros _. rewrite (mkdir_p_from_keeps pre rest fs _ _ Hq). reflexivity.
Qed.

(** After a [mkdir -p] that succeeded, every directory on the way is
    there. *)
Lemma mkdir_p_from_way (pre rest : abspath) (fs : filesystem) (k : list string) :
  FS.is_dir fs pre = true ->
  (FS.mkdir_p_from pre rest fs).1 = true ->
  k `prefix_of` rest ->
  FS.is_dir (FS.mkdir_p_from pre rest fs).2 (pre ++ k) = true.
Proof.
  revert pre fs k. induction rest as [| c rest IH]; intros pre fs k Hpre Hok Hk.
  - apply prefix_nil_inv in Hk. subst k. rewrite app_nil_r. exact Hpre.
  - destruct k as [| c' k].
    { rewrite app_nil_r. apply is_dir_keeps_mkdir_p_from, Hpre. }
    apply prefix_cons_inv_1 in Hk as Hc. subst c'.
    apply prefix_cons_inv_2 in Hk.
    replace (pre ++ c :: k) with ((pre ++ [c]) ++ k)
      by (rewrite <- app_assoc; reflexivity).
    cbn [FS.mkdir_p_from] in *.
    destruct (fs !! (pre ++ [c])) as [[x |] |] eqn:Hp.
    + discriminate Hok.
    + apply IH; [| exact Hok | exact Hk].
      unfold FS.is_dir. rewrite stat_snoc, Hp. reflexivity.
    + apply IH; [| exact Hok | exact Hk].
      unfold FS.is_dir. rewrite stat_snoc, lookup_insert_eq. reflexivity.
Qed.

Lemma mkdir_p_way (p : abspath) (fs : filesystem) (q : abspath) :
  (FS.mkdir_p p fs).1 = true ->
  q `prefix_of` p ->
  FS.is_dir (FS.mkdir_p p fs).2 q = true.
Proof. intros Hok Hq. apply (mkdir_p_from_way [] p fs q eq_refl Hok Hq). Qed.

Lemma prefix_of_dirname_shorter (old tgt dst : abspath) :
  old `prefix_of` Path.dirname tgt -> tgt `prefix_of` dst -> dst <> [] ->
  old <> dst.
Proof.
  intros [k1 H1] [k2 H2] Hdst ->.
  apply (f_equal (@length string)) in H1 as L1.
  apply (f_equal (@length string)) in H2 as L2.
  rewrite length_app in L1, L2. unfold Path.dirname in L1.
  destruct tgt as [| a tgt].
  - cbn in H1. symmetry in H1. apply app_eq_nil in H1 as [-> _].
    apply Hdst. reflexivity.
  - assert (a :: tgt <> []) as Hne by discriminate.
    pose proof (app_removelast_last "" Hne) as Hsplit.
    apply (f_equal (@length string)) in Hsplit.
    rewrite length_app in Hsplit. cbn [length] in *. lia.
Qed.

(** A rename that returned with the source in place leaves a directory at
    the previous location when that location lies on the way to the new
    one. *)
Lemma rename_into_leaves_directory (src : abspath) (old tgt : Path.joined)
    (fs : filesystem) (content : string) :
  Path.components old `prefix_of` Path.dirname_joined tgt ->
  FS.stat fs src = Some (File content) ->
  src <> Path.components old ->
  (rename_into src old tgt fs).1 = true ->
  FS.stat (rename_into src old tgt fs).2 (Path.components old) = Some Dir.
Proof.
  intros Hway Hsrc Hne. unfold rename_into.
  assert (Hsrc1 : FS.stat (remove_at old fs).2 src = Some (File content)).
  { destruct src as [| a src]; [discriminate Hsrc |]. cbn [FS.stat] in *.
    rewrite remove_at_frame; assumption. }
  destruct (remove_at old fs) as [[|] fs1]; cbn [fst snd] in *;
    [| discriminate].
  rewrite (existsSync_file _ _ _ Hsrc1).
  pose proof (mkdir_p_way (Path.dirname_joined tgt) fs1 (Path.components old))
    as Hdir.
  destruct (FS.mkdir_p (Path.dirname_joined tgt) fs1) as [[|] fs2];
    cbn [fst snd] in *; [| discriminate].
  specialize (Hdir eq_refl Hway). intros Hcp.
  destruct (cp_to_cases src tgt fs2) as [Hcase | Hcase];
    rewrite Hcase in Hcp |- *; [| discriminate Hcp].
  destruct (cp_effect src (Path.components tgt) fs2)
    as [[_ Hfail] | (dst & content' & Heq & _ & _ & Hdst & _ & Hpre)];
    [congruence |].
  rewrite Heq. cbn [snd]. unfold FS.is_dir in Hdir.
  destruct (Path.components old) as [| a old'] eqn:Hold; [reflexivity |].
  cbn [FS.stat] in *.
  rewrite lookup_insert_ne.
  - destruct (fs2 !! (a :: old')) as [[x |] |]; congruence.
  - intros Heq'. symmetry in Heq'. revert Heq'.
    eapply prefix_of_dirname_shorter; eauto.
Qed.

Lemma rename_into_blocked (src : abspath) (old tgt : Path.joined)
    (fs : filesystem) :
  FS.stat fs (Path.components old) = Some Dir ->
  rename_into src old tgt fs = (false, fs).
Proof.
  intros Hold. unfold rename_into, remove_at.
  rewrite (existsSync_at_dir fs old Hold), (rm_at_dir fs old Hold).
  reflexivity.
Qed.

(** X27. Replaying a rename is not always repeatable.  When the previous
    location lies on the way to the new one (the file a became the file
    a/b.txt) and the source file exists, a first [syncChange] that returns
    leaves a directory at the previous location; applying the same entry
    again raises the failure of [rm] on that directory and changes
    nothing. *)
Theorem rename_into_own_directory_is_not_repeatable
    (E : Env) (c : Change) (w w1 : World) (pkg prev content : string) :
  status c = "renamed" ->
  getenv E "MONOREPO_PACKAGE_LOCATION" = Some pkg ->
  previous_path c = Some prev ->
  Path.join (TEMP_DIR E) [pkg; prev]
    `prefix_of` Path.dirname (targetPath E pkg c) ->
  FS.stat (w_fs w) (sourcePath E c) = Some (File content) ->
  sourcePath E c <> Path.join (TEMP_DIR E) [pkg; prev] ->
  syncChange E c w = (Ret tt, w1) ->
  FS.stat (w_fs w1) (Path.join (TEMP_DIR E) [pkg; prev]) = Some Dir
  /\ exists w2,
      syncChange E c w1 = (Throw (ProcessOutput 1 ""), w2)
      /\ w_fs w2 = w_fs w1.
Proof.
  intros Hs Hpkg Hprev Hway Hsrc Hne Hrun.
  destruct (syncChange_renames E c w pkg prev Hs Hpkg Hprev)
    as (evs & Heq & _).
  rewrite Heq in Hrun.
  destruct (rename_into _ _ _ (w_fs w)).1 eqn:Hok; [| discriminate].
  injection Hrun as <-. cbn [w_fs].
  pose proof (rename_into_leaves_directory (sourcePath E c)
                (previousJoined E pkg prev) (targetJoined E pkg c) (w_fs w)
                content Hway Hsrc Hne Hok) as Hdir.
  split; [exact Hdir |].
  match goal with
  | |- context [syncChange E c ?w0] =>
      destruct (syncChange_renames E c w0 pkg prev Hs Hpkg Hprev)
        as (evs' & Heq' & _)
  end.
  cbn [w_fs w_cwd w_trace] in Heq'.
  rewrite (rename_into_blocked (sourcePath E c) (previousJoined E pkg prev)
             (targetJoined E pkg c) _ Hdir) in Heq'.
  cbn [fst snd] in Heq'.
  eexists. split; [exact Heq' | reflexivity].
Qed.

Lemma rename_into_own_directory_is_not_repeatable_witness :
  exists w2,
    syncChange Demo.env Nested.renamed_a
      (syncChange Demo.env Nested.renamed_a (Demo.world_of Nested.tree)).2
    = (Throw (ProcessOutput 1 ""), w2).
Proof.
  assert (Hrun : syncChange Demo.env Nested.renamed_a
                   (Demo.world_of Nested.tree)
                 = (Ret tt,
                    (syncChange Demo.env Nested.renamed_a
                       (Demo.world_of Nested.tree)).2))
    by (apply run_split; vm_compute; reflexivity).
  assert (Hway : Path.join (TEMP_DIR Demo.env) ["apps/server"; "a"]
                   `prefix_of`
                 Path.dirname (targetPath Demo.env "apps/server"
                                 Nested.renamed_a))
    by (apply (bool_decide_unpack _); vm_compute; exact I).
  assert (Hsrc : FS.stat (w_fs (Demo.world_of Nested.tree))
                   (sourcePath Demo.env Nested.renamed_a)
                 = Some (File "hello"))
    by (vm_compute; reflexivity).
  assert (Hne : sourcePath Demo.env Nested.renamed_a
                <> Path.join (TEMP_DIR Demo.env) ["apps/server"; "a"])
    by (vm_compute; discriminate).
  destruct (rename_into_own_directory_is_not_repeatable Demo.env
              Nested.renamed_a (Demo.world_of Nested.tree) _
              "apps/server" "a" "hello" eq_refl eq_refl eq_refl
              Hway Hsrc Hne Hrun) as (_ & w2 & Hagain & _).
  exists w2. exact Hagain.
Defined.
